(** * Quiz session engine of the Systematic-bot repository

    A shallow embedding of the quiz-session code of the four bot variants
    ([Original.py], [Lifechanger.py], [simple_bot.py], [Simple_bot.py]):
    answer recording, the end-of-quiz leaderboard, question selection and
    the single-question timed quiz, followed by the properties of the
    session engine checked against them.  The code around the sessions
    follows: the questions file, the ways a quiz is started, the
    countdown bar, the results of a timed quiz and the conversations that
    add, import and edit questions, with their properties at the end.

    Conventions of the embedding:
    - Python [int] is [Z]; list positions ([current_index],
      [question_index]) are [nat], as the code only ever counts them up
      from [0];
    - a Python [float] is a binary64 number, Rocq's primitive [float]; a
      value that may be an [int] or a [float] is a [number].  Numbers are
      compared and printed by their exact values, which are rationals;
    - a Python [dict] is an insertion-ordered association list: [items()]
      walks it front to back, assigning to a present key keeps its place,
      assigning to a new key appends;
    - a Python [str] is the string of its UTF-8 bytes; what [str.isdigit]
      and [int] make of a text with a character outside ASCII is a
      parameter, [Unicode], of the code that reads numbers from text;
    - sending a message is recorded as the text that is sent. *)

From Stdlib Require Import ZArith QArith Qround Qabs Lia Lqa List Bool.
From Stdlib Require Import String Ascii Sorted Permutation DecimalString.
From Stdlib Require Import Floats.
From Stdlib Require Uint63.
From Stdlib Require DecimalPos.
Import ListNotations.

Set Implicit Arguments.

Open Scope string_scope.
Open Scope Z_scope.

(** ** Python values *)

Module Py.

(** Keys of a dictionary: equality is decided by a boolean test. *)
Class Key (K : Type) := {
  key_eqb : K -> K -> bool;
  key_eqb_eq : forall a b, key_eqb a b = true <-> a = b
}.

#[export] Instance Key_Z : Key Z :=
  {| key_eqb := Z.eqb; key_eqb_eq := Z.eqb_eq |}.

#[export] Instance Key_string : Key string :=
  {| key_eqb := String.eqb; key_eqb_eq := String.eqb_eq |}.

Definition dict (K V : Type) := list (K * V).

Section Dict.
Context {K V : Type} `{Key K}.

(** [d.get(k)] *)
Fixpoint dict_get (k : K) (d : dict K V) : option V :=
  match d with
  | [] => None
  | (k', v) :: d' => if key_eqb k k' then Some v else dict_get k d'
  end.

(** [k in d] *)
Definition dict_in (k : K) (d : dict K V) : bool :=
  match dict_get k d with Some _ => true | None => false end.

(** [d[k] = v] *)
Fixpoint dict_set (k : K) (v : V) (d : dict K V) : dict K V :=
  match d with
  | [] => [(k, v)]
  | (k', v') :: d' =>
      if key_eqb k k' then (k', v) :: d' else (k', v') :: dict_set k v d'
  end.

(** Number of entries stored under [k]. *)
Definition count_key (k : K) (d : dict K V) : nat :=
  List.length (filter (fun kv => key_eqb k (fst kv)) d).
End Dict.

(** Truth value of an optional string ([None] and [''] are false). *)
Definition truthy_str (s : option string) : bool :=
  match s with
  | Some (String _ _) => true
  | _ => false
  end.

Definition nl : string := String (ascii_of_nat 10) EmptyString.

(** [str(z)] *)
Definition str_int (z : Z) : string := NilZero.string_of_int (Z.to_int z).

Definition str_nat (n : nat) : string := str_int (Z.of_nat n).

(** Nearest integer, ties to the even neighbour. *)
Definition round_half_even (q : Q) : Z :=
  let f := Qfloor q in
  match Qcompare (q - inject_Z f) (1 # 2) with
  | Lt => f
  | Gt => f + 1
  | Eq => if Z.even f then f else f + 1
  end.

(** The digits of [m], left-padded with zeros to [width] places. *)
Fixpoint zero_pad (width : nat) (m : Z) : string :=
  match width with
  | O => ""
  | S w => zero_pad w (m / 10) ++ str_int (m mod 10)
  end.

(** [f"{q:.<d>f}"]: sign, integer part, point, [d] decimals. *)
Definition format_fixed (d : nat) (q : Q) : string :=
  let scale := 10 ^ Z.of_nat d in
  let m := round_half_even (Qabs q * inject_Z scale) in
  (match Qcompare q 0 with Lt => "-" | _ => "" end)
    ++ str_int (m / scale) ++ "." ++ zero_pad d (m mod scale).

(** A number is an [int] or a [float].  Arithmetic with a [float] operand
    converts an [int] operand and is done in binary64, and so is every
    [/]. *)
Inductive number :=
| Int (z : Z)
| Float (f : float).

(** [float(z)], for [-2^63 < z < 2^63]. *)
Definition float_of_int (z : Z) : float :=
  if z <? 0 then PrimFloat.opp (PrimFloat.of_uint63 (Uint63.of_Z (- z)))
  else PrimFloat.of_uint63 (Uint63.of_Z z).

Definition to_float (x : number) : float :=
  match x with
  | Int z => float_of_int z
  | Float f => f
  end.

(** [x + y] *)
Definition py_add (x y : number) : number :=
  match x, y with
  | Int a, Int b => Int (a + b)
  | _, _ => Float (PrimFloat.add (to_float x) (to_float y))
  end.

(** [x - y] *)
Definition py_sub (x y : number) : number :=
  match x, y with
  | Int a, Int b => Int (a - b)
  | _, _ => Float (PrimFloat.sub (to_float x) (to_float y))
  end.

(** [x * y] *)
Definition py_mul (x y : number) : number :=
  match x, y with
  | Int a, Int b => Int (a * b)
  | _, _ => Float (PrimFloat.mul (to_float x) (to_float y))
  end.

(** [x / y], for [y] other than zero (the callers see to that).  On two
    ints Python rounds the exact quotient; below 2^53 in magnitude, the
    only range the counters reach, that is the quotient of the converted
    operands taken here. *)
Definition py_truediv (x y : number) : number :=
  Float (PrimFloat.div (to_float x) (to_float y)).

(** The exact value of a finite [float]; the code produces no infinity
    and no NaN. *)
Definition float_value (f : float) : Q :=
  match Prim2SF f with
  | S754_finite s m e =>
      let magnitude := (inject_Z (Z.pos m) * Qpower 2 e)%Q in
      Qred (if s then - magnitude else magnitude)
  | _ => 0
  end.

Definition value (x : number) : Q :=
  match x with
  | Int z => inject_Z z
  | Float f => float_value f
  end.

(** [f"{x:.<d>f}"] *)
Definition format_number (d : nat) (x : number) : string :=
  format_fixed d (value x).

(** [sorted(l, key=...)] and [sorted(l, key=..., reverse=True)].  Python's
    sort is stable, also when reversed, which fixes its result: an element
    stands behind the earlier elements that need not follow it.
    [after x y] says that [x] has to stand behind [y]. *)
Section Sorted.
Context {A : Type} (after : A -> A -> bool).

Fixpoint insert_stable (x : A) (l : list A) : list A :=
  match l with
  | [] => [x]
  | y :: l' => if after x y then y :: insert_stable x l' else x :: l
  end.

Definition stable_sort (l : list A) : list A :=
  fold_right insert_stable [] l.
End Sorted.

(** [sorted(l, key=k)], given [lt x y] for [k(x) < k(y)]. *)
Definition sorted {A : Type} (lt : A -> A -> bool) (l : list A) : list A :=
  stable_sort (fun x y => lt y x) l.

(** [sorted(l, key=k, reverse=True)], given [lt x y] for [k(x) < k(y)]. *)
Definition sorted_reverse {A : Type} (lt : A -> A -> bool) (l : list A) : list A :=
  stable_sort lt l.

(** [c in '0123456789'] *)
Definition is_digit (c : ascii) : bool :=
  (48 <=? nat_of_ascii c)%nat && (nat_of_ascii c <=? 57)%nat.

Fixpoint all_digits (s : string) : bool :=
  match s with
  | EmptyString => true
  | String c s' => is_digit c && all_digits s'
  end.

Fixpoint digits_value (acc : Z) (s : string) : Z :=
  match s with
  | EmptyString => acc
  | String c s' => digits_value (acc * 10 + (Z.of_nat (nat_of_ascii c) - 48)) s'
  end.

End Py.

Import Py.

(** ** More of Python's [str] and [list] *)

Module PyText.

(** [c.isspace()] for an ASCII character: tab to carriage return, the
    separators [\x1c] to [\x1f], and the space. *)
Definition is_space (c : ascii) : bool :=
  let n := nat_of_ascii c in
  ((9 <=? n) && (n <=? 13) || (28 <=? n) && (n <=? 31) || (n =? 32))%nat.

(** [s.lstrip()] *)
Fixpoint lstrip (s : string) : string :=
  match s with
  | EmptyString => EmptyString
  | String c s' => if is_space c then lstrip s' else s
  end.

(** [s.rstrip()] *)
Fixpoint rstrip (s : string) : string :=
  match s with
  | EmptyString => EmptyString
  | String c s' =>
      match rstrip s' with
      | EmptyString => if is_space c then EmptyString else String c EmptyString
      | r => String c r
      end
  end.

(** [s.strip()] *)
Definition strip (s : string) : string := rstrip (lstrip s).

(** [s.split(sep)] for a separator of one character. *)
Fixpoint split (sep : ascii) (s : string) : list string :=
  match s with
  | EmptyString => [EmptyString]
  | String c s' =>
      if Ascii.eqb c sep then EmptyString :: split sep s'
      else match split sep s' with
           | w :: ws => String c w :: ws
           | [] => [String c EmptyString]
           end
  end.

(** Whether a text is without the character [c]. *)
Fixpoint lacks (c : ascii) (s : string) : bool :=
  match s with
  | EmptyString => true
  | String c' s' => negb (Ascii.eqb c' c) && lacks c s'
  end.

(** [[opt.strip() for opt in text.split('\n') if opt.strip()]] *)
Definition stripped_lines (text : string) : list string :=
  map strip
      (filter (fun opt => match strip opt with EmptyString => false | _ => true end)
              (split (ascii_of_nat 10) text)).

Definition to_lower (c : ascii) : ascii :=
  let n := nat_of_ascii c in
  if ((65 <=? n) && (n <=? 90))%nat then ascii_of_nat (n + 32) else c.

(** [s.lower()], on ASCII text. *)
Fixpoint lower (s : string) : string :=
  match s with
  | EmptyString => EmptyString
  | String c s' => String (to_lower c) (lower s')
  end.

(** The white space [int] skips around a number: tab to carriage return
    and the space. *)
Definition is_int_space (c : ascii) : bool :=
  let n := nat_of_ascii c in
  ((9 <=? n) && (n <=? 13) || (n =? 32))%nat.

Fixpoint skip_int_space (s : string) : string :=
  match s with
  | EmptyString => EmptyString
  | String c s' => if is_int_space c then skip_int_space s' else s
  end.

(** Decimal digits, single underscores allowed between two of them, up
    to the end of the text or to white space that lasts to the end.
    [last_digit] says that the character before was a digit. *)
Fixpoint digits (acc : Z) (last_digit : bool) (s : string) : option Z :=
  match s with
  | EmptyString => if last_digit then Some acc else None
  | String c s' =>
      if is_digit c
      then digits (acc * 10 + (Z.of_nat (nat_of_ascii c) - 48)) true s'
      else if Ascii.eqb c "_"
      then (if last_digit then digits acc false s' else None)
      else if is_int_space c
      then (if last_digit
            then match skip_int_space s' with
                 | EmptyString => Some acc
                 | _ => None
                 end
            else None)
      else None
  end.

(** [int(s)] on ASCII text; [None] stands for [ValueError]. *)
Definition int (s : string) : option Z :=
  match skip_int_space s with
  | String "-" r => option_map Z.opp (digits 0 false r)
  | String "+" r => digits 0 false r
  | r => digits 0 false r
  end.

(** [s.replace(old, new)] for a non-empty [old]: the occurrences are
    taken from the left and do not overlap.  [skip] counts the characters
    of an occurrence that are still to be dropped. *)
Fixpoint replace_from (old new : string) (skip : nat) (s : string) : string :=
  match s with
  | EmptyString => EmptyString
  | String c s' =>
      match skip with
      | S k => replace_from old new k s'
      | O =>
          if String.prefix old s
          then new ++ replace_from old new (String.length old - 1) s'
          else String c (replace_from old new 0 s')
      end
  end.

Definition replace (old new s : string) : string := replace_from old new 0 s.

(** [sub in s] *)
Fixpoint contains (sub s : string) : bool :=
  String.prefix sub s
  || match s with
     | EmptyString => false
     | String _ s' => contains sub s'
     end.

(** [l[i]]: a negative index counts from the end; [None] stands for
    [IndexError]. *)
Definition index {A : Type} (l : list A) (i : Z) : option A :=
  if 0 <=? i then nth_error l (Z.to_nat i)
  else if - Z.of_nat (List.length l) <=? i
  then nth_error l (Z.to_nat (Z.of_nat (List.length l) + i))
  else None.

(** [d.pop(k)] / [del d[k]] for a key that may be absent. *)
Fixpoint dict_del {K V : Type} `{Key K} (k : K) (d : dict K V) : dict K V :=
  match d with
  | [] => []
  | (k', v) :: d' => if key_eqb k k' then d' else (k', v) :: dict_del k d'
  end.

End PyText.

(** ** Text with characters outside ASCII

    A Python [str] is held as the string of its UTF-8 bytes, so that the
    tests and splits on ASCII characters are the ones of the code.  What
    [str.isdigit] and [int] make of a text with a character outside ASCII
    is decided by the tables of the Unicode database that the interpreter
    carries; these are no part of the repository and are a parameter. *)

Module PyStr.

(** Every character of the text is an ASCII character. *)
Fixpoint is_ascii (s : string) : bool :=
  match s with
  | EmptyString => true
  | String c s' => (nat_of_ascii c <? 128)%nat && is_ascii s'
  end.

(** The interpreter on a text that has a character outside ASCII: whether
    [s.isdigit()] holds, and [int(s)], where [None] stands for
    [ValueError].  The two differ: a superscript two is a digit from which
    [int] reads no number.  A text of digits has no sign, so a number that
    [int] reads from it is not negative. *)
Class Unicode := {
  uni_isdigit : string -> bool;
  uni_int : string -> option Z;
  uni_int_nonneg :
    forall s n, uni_isdigit s = true -> uni_int s = Some n -> 0 <= n
}.

(** [s.isdigit()] *)
Definition isdigit {U : Unicode} (s : string) : bool :=
  if is_ascii s
  then match s with
       | EmptyString => false
       | String _ _ => all_digits s
       end
  else uni_isdigit s.

(** [int(s)]; [None] stands for [ValueError]. *)
Definition py_int {U : Unicode} (s : string) : option Z :=
  if is_ascii s then PyText.int s else uni_int s.

End PyStr.

Import PyStr.

(** ** What the transport delivers *)

Module Telegram.

Record user := {
  id : Z;
  first_name : string;
  username : option string
}.

(** A [PollAnswer] update: [option_ids] is empty when a vote is retracted. *)
Record poll_answer := {
  poll_id : string;
  from_user : user;
  option_ids : list Z
}.

(** What [end_quiz] reads of the update it is handed. *)
Record update := {
  effective_user : option user;
  callback_from_user : option user
}.

(** The poll the transport created for [send_poll]. *)
Record sent_message := {
  sent_poll_id : string;
  sent_message_id : Z
}.

End Telegram.

(** ** [Original.py] and [Lifechanger.py]: multi-question sessions

    The two files share the session code; [Lifechanger.py] adds the
    negative marking in [poll_answer] and in the result lines of
    [end_quiz], and no longer returns early from [end_quiz]. *)

Module Engine.

Inductive variant := Original | Lifechanger.

Record question := {
  q_id : Z;
  q_question : string;
  q_options : list string;
  q_answer : option Z;        (* [None]: the record has no ['answer'] *)
  q_category : string
}.

(** [question.get('answer', 0)] *)
Definition correct_answer_of (q : question) : Z :=
  match q_answer q with Some a => a | None => 0 end.

(** An entry of [poll_info['answers']]. *)
Record answer_record := {
  option_id : option Z;
  is_correct : bool;
  user_name : string;
  answer_username : option string
}.

(** An entry of [quiz['sent_polls']]. *)
Record poll_info := {
  question_index : nat;
  message_id : Z;
  info_poll_id : string;
  answers : dict Z answer_record
}.

(** An entry of a participants table; [negative_points] is [None] while
    the key is absent. *)
Record participant := {
  name : string;
  username : option string;
  correct : Z;
  answered : Z;
  negative_points : option number
}.

Record creator_info := {
  creator_id : Z;
  creator_name : string;
  creator_username : option string
}.

(** [context.user_data['quiz']] *)
Record quiz := {
  questions : list question;
  current_index : nat;
  participants : dict Z participant;
  active : bool;
  chat_id : Z;
  sent_polls : dict string poll_info;
  creator : option creator_info
}.

(** A record of the users file. *)
Record user_stats := {
  quizzes_taken : Z;
  correct_answers : Z;
  total_answers : Z
}.

(** The dispatcher's [user_data] (per user, with or without a ['quiz'])
    and the users file. *)
Record world := {
  user_data : list (Z * option quiz);
  users : dict Z user_stats
}.

(** *** [start_quiz]: the session as it is stored *)

Definition new_quiz (selected : list question) (chat : Z)
    (requester : option Telegram.user) : quiz :=
  {| questions := selected;
     current_index := 0;
     participants := [];
     active := true;
     chat_id := chat;
     sent_polls := [];
     creator :=
       match requester with
       | Some u => Some {| creator_id := Telegram.id u;
                           creator_name := Telegram.first_name u;
                           creator_username := Telegram.username u |}
       | None => None
       end |}.

(** *** [poll_answer] *)

(** [answer.option_ids and answer.option_ids[0] == correct_answer] *)
Definition answer_is_correct (ev : Telegram.poll_answer) (correct_answer : Z) : bool :=
  match Telegram.option_ids ev with
  | [] => false
  | o :: _ => o =? correct_answer
  end.

Definition new_participant (u : Telegram.user) : participant :=
  {| name := Telegram.first_name u;
     username := Telegram.username u;
     correct := 0;
     answered := 0;
     negative_points := None |}.

(** [data.get('negative_points', 0)] *)
Definition negative_points_of (p : participant) : number :=
  match negative_points p with Some x => x | None => Int 0 end.

(** The counters of one participant after one answer: ['answered'] goes
    up; a correct answer raises ['correct']; in [Lifechanger.py] any other
    answer adds [0.25] to ['negative_points']. *)
Definition count_answer (v : variant) (ok : bool) (p : participant) : participant :=
  let a := answered p + 1 in
  if ok then
    {| name := name p; username := username p;
       correct := correct p + 1; answered := a;
       negative_points := negative_points p |}
  else
    {| name := name p; username := username p;
       correct := correct p; answered := a;
       negative_points :=
         match v with
         | Original => negative_points p
         | Lifechanger => Some (py_add (negative_points_of p) (Float 0.25))
         end |}.

Definition default_stats : user_stats :=
  {| quizzes_taken := 0; correct_answers := 0; total_answers := 0 |}.

(** [get_user_data(user_id)] *)
Definition get_user_data (uid : Z) (us : dict Z user_stats) : user_stats :=
  match dict_get uid us with Some s => s | None => default_stats end.

(** The statistics update that closes [poll_answer]. *)
Definition count_in_stats (uid : Z) (ok : bool) (us : dict Z user_stats)
    : dict Z user_stats :=
  let s := get_user_data uid us in
  dict_set uid
    {| quizzes_taken := quizzes_taken s;
       correct_answers := if ok then correct_answers s + 1 else correct_answers s;
       total_answers := total_answers s + 1 |} us.

(** The body of [poll_answer] once the quiz holding the poll is found:
    the quiz after the answer and, when the answer was recorded, whether
    it was correct.  The caller has checked that the poll id is a key of
    [sent_polls]. *)
Definition record_answer (v : variant) (ev : Telegram.poll_answer) (q : quiz)
    : quiz * option bool :=
  match dict_get (Telegram.poll_id ev) (sent_polls q) with
  | None => (q, None)
  | Some info =>
      match nth_error (questions q) (question_index info) with
      | None => (q, None)                   (* [question_index >= len(questions)] *)
      | Some question =>
          let u := Telegram.from_user ev in
          let ok := answer_is_correct ev (correct_answer_of question) in
          let p := match dict_get (Telegram.id u) (participants q) with
                   | Some p => p
                   | None => new_participant u
                   end in
          let info' :=
            {| question_index := question_index info;
               message_id := message_id info;
               info_poll_id := info_poll_id info;
               answers :=
                 dict_set (Telegram.id u)
                   {| option_id := hd_error (Telegram.option_ids ev);
                      is_correct := ok;
                      user_name := Telegram.first_name u;
                      answer_username := Telegram.username u |}
                   (answers info) |} in
          ({| questions := questions q;
              current_index := current_index q;
              participants :=
                dict_set (Telegram.id u) (count_answer v ok p) (participants q);
              active := active q;
              chat_id := chat_id q;
              sent_polls := dict_set (Telegram.poll_id ev) info' (sent_polls q);
              creator := creator q |}, Some ok)
      end
  end.

(** The test of the search loop: an active quiz with the poll among its
    [sent_polls]. *)
Definition holds_poll (pid : string) (d : option quiz) : bool :=
  match d with
  | Some q => active q && dict_in pid (sent_polls q)
  | None => false
  end.

(** The search loop of [poll_answer]: the first user whose data holds the
    poll. *)
Fixpoint find_active_quiz (pid : string) (uds : list (Z * option quiz))
    : option (Z * quiz) :=
  match uds with
  | [] => None
  | (uid, d) :: rest =>
      if holds_poll pid d then
        match d with Some q => Some (uid, q) | None => None end
      else find_active_quiz pid rest
  end.

(** The quiz found by the search is changed where it is stored. *)
Fixpoint store_active_quiz (pid : string) (q' : quiz) (uds : list (Z * option quiz))
    : list (Z * option quiz) :=
  match uds with
  | [] => []
  | (uid, d) :: rest =>
      if holds_poll pid d then (uid, Some q') :: rest
      else (uid, d) :: store_active_quiz pid q' rest
  end.

Definition poll_answer (v : variant) (ev : Telegram.poll_answer) (w : world) : world :=
  match find_active_quiz (Telegram.poll_id ev) (user_data w) with
  | None => w                                (* "answer for unknown poll" *)
  | Some (_, q) =>
      match record_answer v ev q with
      | (_, None) => w
      | (q', Some ok) =>
          {| user_data := store_active_quiz (Telegram.poll_id ev) q' (user_data w);
             users := count_in_stats (Telegram.id (Telegram.from_user ev)) ok (users w) |}
      end
  end.

(** *** [send_next_question]: the poll that was sent is stored *)

Definition register_poll (m : Telegram.sent_message) (q : quiz) : quiz :=
  {| questions := questions q;
     current_index := S (current_index q);
     participants := participants q;
     active := active q;
     chat_id := chat_id q;
     sent_polls :=
       dict_set (Telegram.sent_poll_id m)
         {| question_index := current_index q;
            message_id := Telegram.sent_message_id m;
            info_poll_id := Telegram.sent_poll_id m;
            answers := [] |}
         (sent_polls q);
     creator := creator q |}.

(** *** [end_quiz] *)

(** One step of the inner loop of the reconstruction. *)
Definition tally (parts : dict Z participant) (entry : Z * answer_record)
    : dict Z participant :=
  let (uid, a) := entry in
  let p := match dict_get uid parts with
           | Some p => p
           | None => {| name := user_name a; username := answer_username a;
                        correct := 0; answered := 0; negative_points := None |}
           end in
  dict_set uid
    {| name := name p; username := username p;
       correct := if is_correct a then correct p + 1 else correct p;
       answered := answered p + 1;
       negative_points := negative_points p |}
    parts.

(** "ALWAYS reconstruct the participants dictionary from poll answers" *)
Definition rebuild_participants (sp : dict string poll_info) : dict Z participant :=
  fold_left (fun parts entry => fold_left tally (answers (snd entry)) parts) sp [].

(** "use the quiz creator as the participant": only for an empty table and
    a creator whose id is not [0]. *)
Definition creator_fallback (q : quiz) (parts : dict Z participant)
    : dict Z participant :=
  match parts, creator q with
  | [], Some c =>
      if creator_id c =? 0 then []
      else [(creator_id c,
             {| name := creator_name c;
                username := creator_username c;
                correct := Z.of_nat (List.length (questions q));
                answered := Z.of_nat (List.length (questions q));
                negative_points := None |})]
  | _, _ => parts
  end.

(** [correct - negative_points] *)
Definition adjusted_score (p : participant) : number :=
  py_sub (Int (correct p)) (negative_points_of p).

(** First component of the sort key, by its value. *)
Definition key_score (v : variant) (p : participant) : Q :=
  match v with
  | Original => value (Int (correct p))
  | Lifechanger => value (adjusted_score p)
  end.

(** [key(x) < key(y)] for the key [(score, -answered)] of the sort: tuples
    compare by their first components and, when these are equal, by their
    second. *)
Definition key_lt (v : variant) (x y : Z * participant) : bool :=
  match Qcompare (key_score v (snd x)) (key_score v (snd y)) with
  | Lt => true
  | Eq => - answered (snd x) <? - answered (snd y)
  | Gt => false
  end.

Definition sorted_participants (v : variant) (parts : dict Z participant)
    : list (Z * participant) :=
  sorted_reverse (key_lt v) parts.

(** The glyphs of the messages.  Lifechanger.py holds them mis-decoded
    (each emoji as a run of Latin letters after a private-use character);
    they are kept as the file has them, since that is the text it sends. *)
Definition flag (v : variant) : string :=
  match v with Original => "🏁" | Lifechanger => "üèÅ" end.

Definition trophy (v : variant) : string :=
  match v with Original => "🏆" | Lifechanger => "üèÜ" end.

Definition chart : string := "üìä".

(** [["🥇", "🥈", "🥉"][i] if i < 3 else f"{i+1}."] *)
Definition rank_emoji (v : variant) (i : nat) : string :=
  match i, v with
  | 0%nat, Original => "🥇"
  | 1%nat, Original => "🥈"
  | 2%nat, Original => "🥉"
  | 0%nat, Lifechanger => "ü•á"
  | 1%nat, Lifechanger => "ü•à"
  | 2%nat, Lifechanger => "ü•â"
  | _, _ => str_nat (i + 1) ++ "."
  end.

Definition username_text (p : participant) : string :=
  match username p with
  | Some u => if truthy_str (Some u) then " (@" ++ u ++ ")" else ""
  | None => ""
  end.

(** [(score / questions_count) * 100 if questions_count > 0 else 0] *)
Definition percentage (score : number) (questions_count : nat) : number :=
  if (0 <? questions_count)%nat
  then py_mul (py_truediv score (Int (Z.of_nat questions_count))) (Int 100)
  else Int 0.

(** The text between the colon and the line end when no penalty is shown. *)
Definition plain_score (p : participant) (questions_count : nat) : string :=
  str_int (correct p) ++ "/" ++ str_nat questions_count
    ++ " (" ++ format_number 1 (percentage (Int (correct p)) questions_count) ++ "%)".

(** The same text "showing negative marking if applicable". *)
Definition marked_score (p : participant) (questions_count : nat) : string :=
  str_int (correct p) ++ "-" ++ format_number 2 (negative_points_of p)
    ++ "=" ++ format_number 2 (adjusted_score p)
    ++ "/" ++ str_nat questions_count
    ++ " (" ++ format_number 1 (percentage (adjusted_score p) questions_count) ++ "%)".

Definition score_text (v : variant) (p : participant) (questions_count : nat) : string :=
  match v with
  | Original => plain_score p questions_count
  | Lifechanger =>
      match Qcompare 0 (value (negative_points_of p)) with    (* [negative_points > 0] *)
      | Lt => marked_score p questions_count
      | _ => plain_score p questions_count
      end
  end.

(** The line of the participant ranked at position [i] (from [0]). *)
Definition result_line (v : variant) (questions_count : nat) (i : nat)
    (p : participant) : string :=
  rank_emoji v i ++ " " ++ name p ++ username_text p ++ ": "
    ++ score_text v p questions_count ++ nl.

Fixpoint result_lines (v : variant) (questions_count : nat) (i : nat)
    (ranked : list (Z * participant)) : string :=
  match ranked with
  | [] => ""
  | (_, p) :: rest =>
      result_line v questions_count i p ++ result_lines v questions_count (S i) rest
  end.

Definition header (v : variant) (questions_count : nat) : string :=
  flag v ++ " The quiz has finished!" ++ nl ++ nl
    ++ str_nat questions_count ++ " questions answered" ++ nl ++ nl.

Definition congratulations (v : variant) (winner_name : string) : string :=
  trophy v ++ " Congratulations to the winner: " ++ winner_name ++ "!" ++ nl ++ nl.

Definition results_message (v : variant) (questions_count : nat)
    (ranked : list (Z * participant)) : string :=
  header v questions_count
    ++ match ranked with
       | [] => ""
       | (_, winner) :: _ =>
           congratulations v (name winner)
             ++ match v with
                | Original => ""
                | Lifechanger => chart ++ " Final Rankings:" ++ nl ++ nl
                end
             ++ result_lines v questions_count 0 ranked
       end.

(** The name shown when the table stays empty ("Try to get the effective
    user from the update"). *)
Definition dummy_user_name (upd : Telegram.update) (q : quiz) : string :=
  match Telegram.effective_user upd, Telegram.callback_from_user upd, creator q with
  | Some u, _, _ => Telegram.first_name u
  | None, Some u, _ => Telegram.first_name u
  | None, None, Some c =>
      if truthy_str (Some (creator_name c)) then creator_name c else "Unknown User"
  | None, None, None => "Unknown User"
  end.

(** The polls counted as correct in the dummy message: those whose
    question exists. *)
Definition dummy_correct_count (q : quiz) : nat :=
  List.length
    (filter (fun entry => (question_index (snd entry) <? List.length (questions q))%nat)
            (sent_polls q)).

Definition dummy_message (v : variant) (upd : Telegram.update) (q : quiz) : string :=
  header v (List.length (questions q))
    ++ congratulations v (dummy_user_name upd q)
    ++ rank_emoji v 0 ++ " " ++ dummy_user_name upd q ++ ": "
    ++ str_nat (dummy_correct_count q) ++ "/" ++ str_nat (List.length (questions q))
    ++ " (100.0%)".

(** "Update quiz statistics for participants" *)
Definition count_quiz_taken (us : dict Z user_stats) (entry : Z * participant)
    : dict Z user_stats :=
  let s := get_user_data (fst entry) us in
  dict_set (fst entry)
    {| quizzes_taken := quizzes_taken s + 1;
       correct_answers := correct_answers s;
       total_answers := total_answers s |} us.

(** What a call of [end_quiz] leaves: the stored quiz, the users file, the
    ranked table and the message that was sent, if any. *)
Record finished := {
  quiz_after : quiz;
  users_after : dict Z user_stats;
  ranking : list (Z * participant);
  sent_text : option string
}.

Definition close_quiz (q : quiz) (parts : dict Z participant) : quiz :=
  {| questions := questions q;
     current_index := current_index q;
     participants := parts;
     active := false;
     chat_id := chat_id q;
     sent_polls := sent_polls q;
     creator := creator q |}.

Definition end_quiz (v : variant) (upd : Telegram.update) (q : quiz)
    (us : dict Z user_stats) : finished :=
  let returns_early :=
    match v with Original => negb (active q) | Lifechanger => false end in
  if returns_early then
    {| quiz_after := q; users_after := us; ranking := []; sent_text := None |}
  else
    let parts := creator_fallback q (rebuild_participants (sent_polls q)) in
    match parts with
    | [] =>
        {| quiz_after := close_quiz q parts;
           users_after := us;
           ranking := [];
           sent_text := Some (dummy_message v upd q) |}
    | _ :: _ =>
        let ranked := sorted_participants v parts in
        {| quiz_after := close_quiz q parts;
           users_after := fold_left count_quiz_taken parts us;
           ranking := ranked;
           sent_text := Some (results_message v (List.length (questions q)) ranked) |}
    end.

(** *** [send_next_question], one call up to its sleep *)

(** "Store this info for later": the sender becomes the creator when none
    is stored. *)
Definition note_creator (upd : Telegram.update) (q : quiz) : quiz :=
  match creator q, Telegram.effective_user upd with
  | None, Some u =>
      if Telegram.id u =? 0 then q
      else
        {| questions := questions q;
           current_index := current_index q;
           participants := participants q;
           active := active q;
           chat_id := chat_id q;
           sent_polls := sent_polls q;
           creator := Some {| creator_id := Telegram.id u;
                              creator_name := Telegram.first_name u;
                              creator_username := Telegram.username u |} |}
  | _, _ => q
  end.

(** "Force the quiz to stay active until we explicitly end it"
    ([Lifechanger.py] only). *)
Definition force_active (v : variant) (q : quiz) : quiz :=
  match v with
  | Original => q
  | Lifechanger =>
      {| questions := questions q;
         current_index := current_index q;
         participants := participants q;
         active := true;
         chat_id := chat_id q;
         sent_polls := sent_polls q;
         creator := creator q |}
  end.

(** [sent] is the poll the transport creates if a question is sent. *)
Definition send_next_question (v : variant) (upd : Telegram.update)
    (sent : Telegram.sent_message) (q : quiz) (us : dict Z user_stats) : finished :=
  let q1 := note_creator upd q in
  if (List.length (questions q1) <=? current_index q1)%nat then
    end_quiz v upd (force_active v q1) us
  else
    {| quiz_after := register_poll sent q1;
       users_after := us;
       ranking := [];
       sent_text := None |}.

End Engine.

(** ** [Original.py]: which questions a quiz is started with *)

Module StartQuiz.
Import Engine.

Fixpoint until_equals (s : string) : string :=
  match s with
  | EmptyString => EmptyString
  | String c s' => if Ascii.eqb c "=" then EmptyString else String c (until_equals s')
  end.

Fixpoint after_equals (s : string) : option string :=
  match s with
  | EmptyString => None
  | String c s' => if Ascii.eqb c "=" then Some s' else after_equals s'
  end.

(** [int(arg.split('=')[1])]; [None] stands for the [ValueError] that the
    caller catches. *)
Definition int_after_equals {U : Unicode} (arg : string) : option Z :=
  match after_equals arg with
  | Some rest => py_int (until_equals rest)
  | None => None
  end.

Record quiz_args := {
  num_questions : Z;
  start_id : option Z;
  specific_id : option Z
}.

(** One round of the loop over [args[1:]].  [None] stands for the
    [ValueError] of [int(arg)] on a text of digits that is no number,
    which nothing catches. *)
Definition parse_arg {U : Unicode} (a : quiz_args) (arg : string) : option quiz_args :=
  if isdigit arg then
    match py_int arg with
    | Some n =>
        Some {| num_questions := Z.min n 10;   (* "Limit to 10 questions maximum" *)
                start_id := start_id a; specific_id := specific_id a |}
    | None => None
    end
  else if String.prefix "id=" arg then
    match int_after_equals arg with
    | Some i => Some {| num_questions := num_questions a; start_id := start_id a;
                        specific_id := Some i |}
    | None => Some a
    end
  else if String.prefix "start=" arg then
    match int_after_equals arg with
    | Some i => Some {| num_questions := num_questions a; start_id := Some i;
                        specific_id := specific_id a |}
    | None => Some a
    end
  else Some a.

(** The loop, which ends at the first round that raises. *)
Fixpoint parse_from {U : Unicode} (a : quiz_args) (args : list string)
    : option quiz_args :=
  match args with
  | [] => Some a
  | arg :: rest =>
      match parse_arg a arg with
      | Some a' => parse_from a' rest
      | None => None
      end
  end.

(** [words] is [update.message.text.split()]. *)
Definition parse_args {U : Unicode} (words : list string) : option quiz_args :=
  parse_from {| num_questions := 5; start_id := None; specific_id := None |}
             (tl words).

Inductive selection_path := BySpecificId | FromStartId | RandomSample.

(** How [start_quiz] ends: without questions in the bank, with the
    [ValueError] of an argument, with an exception of the selection, or
    with the quiz it stores. *)
Inductive started :=
| NoQuestions
| RaisedInArgs
| Raised (path : selection_path)
| Started (path : selection_path) (q : quiz).

Section Selection.
Context {U : Unicode}.
(** The order in which [random.sample] draws from a population. *)
Variable shuffle : list question -> list question.

(** [random.sample(population, k)]; [None] stands for its [ValueError]
    ("Sample larger than population or is negative"). *)
Definition random_sample (population : list question) (k : Z)
    : option (list question) :=
  if (0 <=? k) && (k <=? Z.of_nat (List.length population))
  then Some (firstn (Z.to_nat k) (shuffle population))
  else None.

(** The first index whose question has an id of at least [sid]. *)
Fixpoint find_start_index (sid : Z) (i : nat) (qs : list question) : option nat :=
  match qs with
  | [] => None
  | q :: rest => if sid <=? q_id q then Some i else find_start_index sid (S i) rest
  end.

(** [sorted_questions[start_index:end_index]] *)
Definition slice (qs : list question) (start_index : nat) (end_index : Z)
    : list question :=
  firstn (Z.to_nat end_index - start_index) (skipn start_index qs).

Definition select_questions (bank : list question) (a : quiz_args)
    : selection_path * option (list question) :=
  let fall_back :=
    (RandomSample,
     random_sample bank (Z.min (num_questions a) (Z.of_nat (List.length bank)))) in
  match specific_id a, start_id a with
  | Some sid, _ =>
      match find (fun q => q_id q =? sid) bank with
      | Some target => (BySpecificId, Some [target])
      | None => fall_back
      end
  | None, Some sid =>
      let sorted_questions := sorted (fun x y => q_id x <? q_id y) bank in
      match find_start_index sid 0 sorted_questions with
      | Some start_index =>
          let end_index :=
            Z.min (Z.of_nat start_index + num_questions a)
                  (Z.of_nat (List.length sorted_questions)) in
          match slice sorted_questions start_index end_index with
          | [] => (FromStartId, None)      (* [selected_questions[0]]: IndexError *)
          | selected => (FromStartId, Some selected)
          end
      | None => fall_back
      end
  | None, None => fall_back
  end.

Definition start_quiz (bank : list question) (words : list string) (chat : Z)
    (requester : option Telegram.user) : started :=
  match bank with
  | [] => NoQuestions
  | _ :: _ =>
      match parse_args words with
      | None => RaisedInArgs
      | Some a =>
          match select_questions bank a with
          | (path, Some selected) => Started path (new_quiz selected chat requester)
          | (path, None) => Raised path
          end
      end
  end.
End Selection.

End StartQuiz.

(** ** [simple_bot.py]: sessions kept in the user's own data *)

Module SimpleBot.

Record participant := {
  name : string;
  username : option string;
  correct : Z;
  answered : Z
}.

(** [context.user_data['quiz']]; [current_poll_id] is [None] until a poll
    has been sent.  The keys of [participants] are [str(user.id)]. *)
Record quiz := {
  questions : list Engine.question;
  current_index : Z;
  participants : dict string participant;
  current_poll_id : option string
}.

Definition same_poll (pid : string) (current : option string) : bool :=
  match current with
  | Some c => String.eqb pid c
  | None => false
  end.

(** [selected_option == correct_option], either of which may be [None]. *)
Definition option_eqb (a b : option Z) : bool :=
  match a, b with
  | Some x, Some y => x =? y
  | None, None => true
  | _, _ => false
  end.

(** [handle_quiz_poll_answer], on the ['quiz'] entry of the user data
    ([None]: there is no such entry). *)
Definition handle_quiz_poll_answer (ev : Telegram.poll_answer) (d : option quiz)
    : option quiz :=
  match d with
  | None => None
  | Some q =>
      if negb (same_poll (Telegram.poll_id ev) (current_poll_id q)) then d
      else
        let index := current_index q - 1 in             (* "Adjusted for increment" *)
        if (0 <=? index) && (index <? Z.of_nat (List.length (questions q))) then
          match nth_error (questions q) (Z.to_nat index) with
          | None => d
          | Some question =>
              let u := Telegram.from_user ev in
              let is_correct :=
                option_eqb (hd_error (Telegram.option_ids ev)) (Engine.q_answer question) in
              let key := str_int (Telegram.id u) in
              let p := match dict_get key (participants q) with
                       | Some p => p
                       | None => {| name := Telegram.first_name u;
                                    username := Telegram.username u;
                                    correct := 0; answered := 0 |}
                       end in
              Some {| questions := questions q;
                      current_index := current_index q;
                      participants :=
                        dict_set key
                          {| name := name p; username := username p;
                             correct := if is_correct then correct p + 1 else correct p;
                             answered := answered p + 1 |}
                          (participants q);
                      current_poll_id := current_poll_id q |}
          end
        else d
  end.

(** [key(x) < key(y)] for the key [(correct, -answered)]. *)
Definition key_lt (x y : string * participant) : bool :=
  match Z.compare (correct (snd x)) (correct (snd y)) with
  | Lt => true
  | Eq => - answered (snd x) <? - answered (snd y)
  | Gt => false
  end.

Definition sorted_participants (parts : dict string participant)
    : list (string * participant) :=
  sorted_reverse key_lt parts.

Definition medal (i len : nat) : string :=
  match i with
  | 0%nat => "🥇"
  | 1%nat => if (1 <? len)%nat then "🥈" else "🏅"
  | 2%nat => if (2 <? len)%nat then "🥉" else "🏅"
  | _ => "🏅"
  end.

Definition name_display (p : participant) : string :=
  match username p with
  | Some u => if truthy_str (Some u) then name p ++ " (@" ++ u ++ ")" else name p
  | None => name p
  end.

Definition result_line (total len i : nat) (p : participant) : string :=
  medal i len ++ " " ++ name_display p ++ ": "
    ++ str_int (correct p) ++ "/" ++ str_nat total
    ++ " (" ++ format_number 1 (Engine.percentage (Int (correct p)) total) ++ "%)" ++ nl.

Fixpoint result_lines (total len i : nat) (ranked : list (string * participant)) : string :=
  match ranked with
  | [] => ""
  | (_, p) :: rest => result_line total len i p ++ result_lines total len (S i) rest
  end.

Definition results_text (q : quiz) (ranked : list (string * participant)) : string :=
  "🏁 The quiz has finished!" ++ nl ++ nl
    ++ str_nat (List.length (questions q)) ++ " questions answered" ++ nl ++ nl
    ++ "🏆 Congratulations to the winner: "
    ++ match ranked with (_, w) :: _ => name_display w | [] => "" end ++ "!" ++ nl ++ nl
    ++ result_lines (List.length (questions q)) (List.length ranked) 0 ranked.

(** [end_quiz]: the ['quiz'] entry afterwards, the ranked table and the
    reply. *)
Definition end_quiz (d : option quiz)
    : option quiz * list (string * participant) * string :=
  match d with
  | None => (None, [], "No quiz in progress.")
  | Some q =>
      match participants q with
      | [] => (d, [],
               "🏁 The quiz has finished!" ++ nl ++ nl
                 ++ "No one participated in this quiz." ++ nl ++ nl
                 ++ "Start a new quiz with /quiz")
      | _ :: _ =>
          let ranked := sorted_participants (participants q) in
          (None, ranked, results_text q ranked)
      end
  end.

End SimpleBot.

(** ** [Simple_bot.py]: the single-question timed quiz *)

Module TimedQuiz.

(** An entry of [quiz_data["participants"]]; [score] is [1], [-0.5] or [0]. *)
Record participant := {
  name : string;
  score : number;
  correct : bool
}.

(** An entry of [context.bot_data] under a ["quiz_<chat>_<message>"] key.
    [negative_marking] and [poll_message_id] are [None] while the key is
    absent; the keys of [participants] are [str(user.id)]. *)
Record quiz_data := {
  correct_option : option Z;
  participants : dict string participant;
  negative_marking : option bool;
  timer : Z;
  question_id : Z;
  poll_message_id : option Z
}.

(** A record of the users file. *)
Record user_score := {
  total_score : number;
  questions_answered : Z;
  correct_answers : Z
}.

(** A job handed to the job queue: [end_quiz_callback] for a quiz. *)
Record job := {
  job_chat_id : Z;
  job_quiz_key : string
}.

Record world := {
  bot_data : dict string quiz_data;
  users : dict string user_score;
  jobs : list job
}.

Inductive exn := ValueError.

(** A handler either finishes with a value or raises. *)
Inductive result (A : Type) :=
| Ok (a : A)
| Raise (e : exn).

Arguments Ok {A} a.
Arguments Raise {A} e.

(** [int(s)] *)
Definition int {U : Unicode} (s : string) : result Z :=
  match py_int s with
  | Some z => Ok z
  | None => Raise ValueError
  end.

(** [data.get("poll_message_id")] as a condition. *)
Definition has_poll_message (d : quiz_data) : bool :=
  match poll_message_id d with
  | Some m => negb (m =? 0)
  | None => false
  end.

(** "Find the quiz data for this poll": [int(poll_id)] is evaluated at
    each entry that passes the first two tests. *)
Fixpoint find_quiz_key {U : Unicode} (pid : string) (bd : dict string quiz_data)
    : result (option string) :=
  match bd with
  | [] => Ok None
  | (key, data) :: rest =>
      if String.prefix "quiz_" key && has_poll_message data then
        match int pid with
        | Raise e => Raise e
        | Ok n =>
            if match poll_message_id data with Some m => m =? n | None => false end
            then Ok (Some key)
            else find_quiz_key pid rest
        end
      else find_quiz_key pid rest
  end.

(** The points of one answer: [1] for the correct option, otherwise
    [-0.5] under negative marking (the default) and [0] without. *)
Definition points_of (d : quiz_data) (selected_option : option Z) : number :=
  if SimpleBot.option_eqb selected_option (correct_option d) then Int 1
  else match negative_marking d with
       | Some false => Int 0
       | _ => Float (-0.5)
       end.

(** [update_user_score] *)
Definition update_user_score (uid : Z) (points : number) (us : dict string user_score)
    : dict string user_score :=
  let s := match dict_get (str_int uid) us with
           | Some s => s
           | None => {| total_score := Int 0; questions_answered := 0;
                        correct_answers := 0 |}
           end in
  dict_set (str_int uid)
    {| total_score := py_add (total_score s) points;
       questions_answered := questions_answered s + 1;
       correct_answers := match Qcompare 0 (value points) with    (* [points > 0] *)
                          | Lt => correct_answers s + 1
                          | _ => correct_answers s
                          end |} us.

(** The participants of a quiz after one answer: the user is entered if
    absent, then [score] and [correct] are set. *)
Definition note_answer (uid : Z) (first_name : string) (selected_option : option Z)
    (d : quiz_data) : quiz_data :=
  let key := str_int uid in
  let entered :=
    if dict_in key (participants d) then participants d
    else dict_set key {| name := first_name; score := Int 0; correct := false |}
           (participants d) in
  let p := match dict_get key entered with
           | Some p => p
           | None => {| name := first_name; score := Int 0; correct := false |}
           end in
  {| correct_option := correct_option d;
     participants :=
       dict_set key
         {| name := name p;
            score := points_of d selected_option;
            correct := SimpleBot.option_eqb selected_option (correct_option d) |}
         entered;
     negative_marking := negative_marking d;
     timer := timer d;
     question_id := question_id d;
     poll_message_id := poll_message_id d |}.

Fixpoint until_underscore (s : string) : string :=
  match s with
  | EmptyString => EmptyString
  | String c s' => if Ascii.eqb c "_" then EmptyString else String c (until_underscore s')
  end.

Fixpoint after_underscore (s : string) : string :=
  match s with
  | EmptyString => EmptyString
  | String c s' => if Ascii.eqb c "_" then s' else after_underscore s'
  end.

(** [int(quiz_key.split("_")[1])], for a key that begins with ["quiz_"]. *)
Definition chat_id_of_key {U : Unicode} (quiz_key : string) : result Z :=
  int (until_underscore (after_underscore quiz_key)).

(** How a call of the handler ends; an exception leaves the changes made
    before it was raised. *)
Inductive outcome :=
| Handled (w : world)
| Failed (e : exn) (w : world).

Definition world_after (o : outcome) : world :=
  match o with
  | Handled w => w
  | Failed _ w => w
  end.

Definition has_failed (o : outcome) : bool :=
  match o with
  | Handled _ => false
  | Failed _ _ => true
  end.

Section Handler.
Context {U : Unicode}.
(** Whether [get_chat] reports a private chat. *)
Variable is_private : Z -> bool.

Definition handle_quiz_answer (ev : Telegram.poll_answer) (w : world) : outcome :=
  let u := Telegram.from_user ev in
  let selected_option := hd_error (Telegram.option_ids ev) in
  match find_quiz_key (Telegram.poll_id ev) (bot_data w) with
  | Raise e => Failed e w
  | Ok None => Handled w                    (* "Quiz data not found for poll" *)
  | Ok (Some quiz_key) =>
      match dict_get quiz_key (bot_data w) with
      | None => Handled w
      | Some d =>
          let w' :=
            {| bot_data :=
                 dict_set quiz_key
                   (note_answer (Telegram.id u) (Telegram.first_name u) selected_option d)
                   (bot_data w);
               users := update_user_score (Telegram.id u) (points_of d selected_option)
                          (users w);
               jobs := jobs w |} in
          if timer d =? 0 then
            match chat_id_of_key quiz_key with
            | Raise e => Failed e w'
            | Ok chat_id =>
                if is_private chat_id then
                  Handled {| bot_data := bot_data w';
                             users := users w';
                             jobs := jobs w' ++ [{| job_chat_id := chat_id;
                                                    job_quiz_key := quiz_key |}] |}
                else Handled w'
            end
          else Handled w'
      end
  end.

(** The updates of a list handled one after the other: the world they
    leave and whether any call raised. *)
Fixpoint handle_all (evs : list Telegram.poll_answer) (w : world) : world * bool :=
  match evs with
  | [] => (w, false)
  | ev :: rest =>
      let o := handle_quiz_answer ev w in
      let (w', failed) := handle_all rest (world_after o) in
      (w', has_failed o || failed)
  end.
End Handler.

(** The score recorded for a user in a quiz. *)
Definition score_of (quiz_key : string) (uid : Z) (w : world) : option number :=
  match dict_get quiz_key (bot_data w) with
  | Some d =>
      match dict_get (str_int uid) (participants d) with
      | Some p => Some (score p)
      | None => None
      end
  | None => None
  end.

End TimedQuiz.

(** ** A session at work: [Original.py] and [Lifechanger.py] *)

Module Session.
Import Engine.

(** What happens to a running session: [send_next_question] is called
    (and the transport answers with the poll it created), or an answer to
    a poll arrives. *)
Inductive step :=
| Next (upd : Telegram.update) (sent : Telegram.sent_message)
| Answer (ev : Telegram.poll_answer).

(** The session of user [owner]: its quiz and the users file. *)
Definition state := (quiz * dict Z user_stats)%type.

Definition do_step (v : variant) (owner : Z) (st : state) (s : step) : state :=
  let (q, us) := st in
  match s with
  | Next upd sent =>
      let f := send_next_question v upd sent q us in
      (quiz_after f, users_after f)
  | Answer ev =>
      let w := poll_answer v ev {| user_data := [(owner, Some q)]; users := us |} in
      (match user_data w with
       | (_, Some q') :: _ => q'
       | _ => q
       end, users w)
  end.

Definition run (v : variant) (owner : Z) (steps : list step) (st : state) : state :=
  fold_left (do_step v owner) steps st.

(** The answers of a list delivered one after the other. *)
Definition deliver (v : variant) (evs : list Telegram.poll_answer) (w : world) : world :=
  fold_left (fun w ev => poll_answer v ev w) evs w.

(** The ['answered'] count a table holds for a user, [0] without entry. *)
Definition answered_of (uid : Z) (parts : dict Z participant) : Z :=
  match dict_get uid parts with
  | Some p => answered p
  | None => 0
  end.

(** The number of answer records the sent polls hold for a user. *)
Definition answers_held (uid : Z) (sp : dict string poll_info) : nat :=
  list_sum (map (fun entry => count_key uid (answers (snd entry))) sp).

(** A property of both variants. *)
Definition forall_variants (P : variant -> Prop) : Prop := P Original /\ P Lifechanger.

(** Whether an answer is one of user [uid] to poll [pid]. *)
Definition is_answer_of (pid : string) (uid : Z) (ev : Telegram.poll_answer) : bool :=
  String.eqb (Telegram.poll_id ev) pid && (Telegram.id (Telegram.from_user ev) =? uid).

(** Whether a user's answer to a poll is new: the poll holds no answer
    record of the user, and the answers [evs] include one. *)
Definition first_answers (uid : Z) (evs : list Telegram.poll_answer)
    (e : string * poll_info) : bool :=
  negb (dict_in uid (answers (snd e))) && existsb (is_answer_of (fst e) uid) evs.

(** The number of polls of a quiz, that is of its questions, that a user
    answers in [evs] without having answered them before. *)
Definition newly_answered (uid : Z) (evs : list Telegram.poll_answer) (q : quiz) : nat :=
  List.length (filter (first_answers uid evs) (sent_polls q)).

(** The search of [poll_answer] finds each poll of the quiz in this quiz,
    stored for [owner]. *)
Definition resolves_to (w : world) (owner : Z) (q : quiz) : Prop :=
  forall pid, dict_in pid (sent_polls q) = true ->
              find_active_quiz pid (user_data w) = Some (owner, q).

(** Each poll of the quiz is the poll of one of its questions. *)
Definition polls_in_range (q : quiz) : Prop :=
  Forall (fun e => (question_index (snd e) < List.length (questions q))%nat)
         (sent_polls q).

(** [e'] is what the answers [evs] make of the entry [e] of [sent_polls]:
    the same poll of the same question, with an answer record more for
    each user whose first answers to it are among [evs]. *)
Definition entry_after (evs : list Telegram.poll_answer) (e e' : string * poll_info)
    : Prop :=
  fst e' = fst e
  /\ question_index (snd e') = question_index (snd e)
  /\ forall uid,
       dict_in uid (answers (snd e'))
       = dict_in uid (answers (snd e)) || existsb (is_answer_of (fst e) uid) evs
       /\ count_key uid (answers (snd e'))
          = (count_key uid (answers (snd e))
             + if first_answers uid evs e then 1 else 0)%nat.

(** The counts of a table entry are in order: [0 <= correct <= answered]. *)
Definition counts_in_order (e : Z * participant) : Prop :=
  0 <= correct (snd e) <= answered (snd e).

(** What holds of a quiz throughout a session: the counts of the live
    table are in order, there are no more sent polls than questions sent,
    no more questions sent than questions, and a poll holds at most one
    answer record per user. *)
Definition session_invariant (q : quiz) : Prop :=
  Forall counts_in_order (participants q)
  /\ (List.length (sent_polls q) <= current_index q <= List.length (questions q))%nat
  /\ Forall (fun entry => forall uid, (count_key uid (answers (snd entry)) <= 1)%nat)
            (sent_polls q).

(** The table [end_quiz] stores and ranks. *)
Definition final_table (v : variant) (upd : Telegram.update) (q : quiz)
    (us : dict Z user_stats) : dict Z participant :=
  participants (quiz_after (end_quiz v upd q us)).

(** [a] may stand before [b] in a leaderboard that ranks by adjusted
    score and gives the earlier place, among equal scores, to the one who
    answered fewer questions. *)
Definition ranks_before (a b : participant) : Prop :=
  (value (adjusted_score b) < value (adjusted_score a))%Q
  \/ (value (adjusted_score a) == value (adjusted_score b)
      /\ answered a <= answered b).

End Session.

(** The same order for the table of [simple_bot.py]. *)
Definition simple_ranks_before (a b : SimpleBot.participant) : Prop :=
  SimpleBot.correct b < SimpleBot.correct a
  \/ (SimpleBot.correct a = SimpleBot.correct b
      /\ SimpleBot.answered a <= SimpleBot.answered b).

(** The count a [/quiz] command asks for: the number [int] reads from the
    last of its arguments that [isdigit] holds of, [5] without one;
    [None] when [int] raises its [ValueError] on one of them. *)
Fixpoint count_from {U : Unicode} (r : Z) (args : list string) : option Z :=
  match args with
  | [] => Some r
  | w :: rest =>
      if isdigit w then
        match py_int w with
        | Some n => count_from n rest
        | None => None
        end
      else count_from r rest
  end.

Definition requested_count {U : Unicode} (words : list string) : option Z :=
  count_from 5 (tl words).

(** ** Sessions used as examples *)

Module Scenario.
Import Engine Session.

(** The texts of the examples are ASCII, on which no table is consulted;
    this one, under which no other text is a number, stands in for the
    interpreter's. *)
Definition ascii_only : Unicode :=
  {| uni_isdigit := fun _ => false;
     uni_int := fun _ => None;
     uni_int_nonneg := fun s n (Hd : false = true) (_ : None = Some n) =>
                         match Bool.diff_false_true Hd return 0 <= n with end |}.

Definition alice : Telegram.user :=
  {| Telegram.id := 1; Telegram.first_name := "Alice"; Telegram.username := Some "al" |}.

Definition bob : Telegram.user :=
  {| Telegram.id := 2; Telegram.first_name := "Bob"; Telegram.username := None |}.

Definition zed : Telegram.user :=
  {| Telegram.id := 26; Telegram.first_name := "Zed"; Telegram.username := None |}.

(** A question with three options of which option [right] is correct. *)
Definition ask (i right : Z) : question :=
  {| q_id := i; q_question := "Which one?"; q_options := ["a"; "b"; "c"];
     q_answer := Some right; q_category := "General" |}.

Definition bank : list question := [ask 5 0; ask 3 1; ask 9 2; ask 1 0].

Definition by_user (u : Telegram.user) : Telegram.update :=
  {| Telegram.effective_user := Some u; Telegram.callback_from_user := None |}.

(** The call of [send_next_question] that sends poll [pid]. *)
Definition next (u : Telegram.user) (pid : string) : step :=
  Next (by_user u) {| Telegram.sent_poll_id := pid; Telegram.sent_message_id := 100 |}.

Definition answer (pid : string) (u : Telegram.user) (option : Z) : Telegram.poll_answer :=
  {| Telegram.poll_id := pid; Telegram.from_user := u; Telegram.option_ids := [option] |}.

(** Two questions; Alice answers both, the second wrongly; Bob answers
    the first only, correctly. *)
Definition tie_session (v : variant) : state :=
  run v 1
    [next alice "p1"; Answer (answer "p1" alice 0); Answer (answer "p1" bob 0);
     next alice "p2"; Answer (answer "p2" alice 0)]
    (new_quiz [ask 1 0; ask 2 1] 77 (Some alice), []).

(** One question, answered twice by Alice. *)
Definition twice_session : state :=
  run Original 1
    [next alice "p1"; Answer (answer "p1" alice 0); Answer (answer "p1" alice 0)]
    (new_quiz [ask 1 0] 77 (Some alice), []).

(** Three questions sent for Zed and no answer received. *)
Definition silent_session (v : variant) : state :=
  run v 26 [next zed "p1"; next zed "p2"; next zed "p3"]
    (new_quiz [ask 1 0; ask 2 1; ask 3 2] 77 (Some zed), []).

(** Four questions; Bob answers three correctly and the last wrongly. *)
Definition marked_session : state :=
  run Lifechanger 1
    [next alice "p1"; Answer (answer "p1" bob 0);
     next alice "p2"; Answer (answer "p2" bob 1);
     next alice "p3"; Answer (answer "p3" bob 2);
     next alice "p4"; Answer (answer "p4" bob 1)]
    (new_quiz [ask 1 0; ask 2 1; ask 3 2; ask 4 0] 77 (Some alice), []).

(** The world in which only the session [st] of user [owner] runs. *)
Definition world_of (owner : Z) (st : state) : world :=
  {| user_data := [(owner, Some (fst st))]; users := snd st |}.

(** The quiz [q] with another live participants table. *)
Definition with_participants (parts : dict Z participant) (q : quiz) : quiz :=
  {| questions := questions q;
     current_index := current_index q;
     participants := parts;
     active := active q;
     chat_id := chat_id q;
     sent_polls := sent_polls q;
     creator := creator q |}.

(** A live table that no answer accounts for. *)
Definition intruders : dict Z participant :=
  [(9, {| name := "Mallory"; username := None; correct := 50; answered := 50;
          negative_points := None |})].

(** One question just sent, nothing answered yet. *)
Definition open_session : state :=
  run Original 1 [next alice "p1"] (new_quiz [ask 1 0; ask 2 1] 77 (Some alice), []).

(** Two questions sent one after the other, nothing answered yet: the
    first poll has closed, the second is open. *)
Definition two_polls_session (v : variant) : state :=
  run v 1 [next alice "p1"; next alice "p2"]
    (new_quiz [ask 1 0; ask 2 1] 77 (Some alice), []).

Definition simple_quiz : SimpleBot.quiz :=
  {| SimpleBot.questions := [ask 1 0];
     SimpleBot.current_index := 1;
     SimpleBot.participants := [];
     SimpleBot.current_poll_id := Some "p1" |}.

Definition timed_quiz : TimedQuiz.quiz_data :=
  {| TimedQuiz.correct_option := Some 2;
     TimedQuiz.participants := [];
     TimedQuiz.negative_marking := Some true;
     TimedQuiz.timer := 0;
     TimedQuiz.question_id := 4;
     TimedQuiz.poll_message_id := Some 55 |}.

Definition timed_world : TimedQuiz.world :=
  {| TimedQuiz.bot_data := [("settings", timed_quiz); ("quiz_-100_7", timed_quiz)];
     TimedQuiz.users := [];
     TimedQuiz.jobs := [] |}.

End Scenario.

(** ** The questions file, in all four variants *)

Module QuestionBank.
Import Engine.

(** [data/questions.json]: [None] while the file does not exist.  A file
    that exists holds a list of questions, each with its id; reading and
    writing succeed. *)
Definition file := option (list question).

(** "Create sample questions if file doesn't exist" *)
Definition sample_questions : list question :=
  [ {| q_id := 1;
       q_question := "What is the capital of France?";
       q_options := ["Berlin"; "Madrid"; "Paris"; "Rome"];
       q_answer := Some 2;
       q_category := "Geography" |};
    {| q_id := 2;
       q_question := "Which planet is known as the Red Planet?";
       q_options := ["Venus"; "Mars"; "Jupiter"; "Saturn"];
       q_answer := Some 1;
       q_category := "Science" |} ].

(** [save_questions(questions)]: the file afterwards. *)
Definition save_questions (questions : list question) : file := Some questions.

(** [load_questions()]: the list and the file afterwards. *)
Definition load_questions (f : file) : list question * file :=
  match f with
  | Some questions => (questions, f)
  | None => (sample_questions, save_questions sample_questions)
  end.

(** [max(q.get("id", 0) for q in questions)] of a list that starts with
    [q]. *)
Definition max_id (q : question) (rest : list question) : Z :=
  fold_left (fun m q' => Z.max m (q_id q')) rest (q_id q).

Definition get_next_question_id (f : file) : Z * file :=
  let (questions, f') := load_questions f in
  match questions with
  | [] => (1, f')
  | q :: rest => (max_id q rest + 1, f')
  end.

Definition get_question_by_id (question_id : Z) (f : file) : option question * file :=
  let (questions, f') := load_questions f in
  (find (fun q => q_id q =? question_id) questions, f').

Definition delete_question_by_id (question_id : Z) (f : file) : bool * file :=
  let (questions, f') := load_questions f in
  let updated_questions :=
    filter (fun q => negb (q_id q =? question_id)) questions in
  if (List.length updated_questions <? List.length questions)%nat
  then (true, save_questions updated_questions)
  else (false, f').

End QuestionBank.

(** ** More about a session at work *)

Module Progress.
Import Engine Session.

(** The polls the transport creates for the calls of [send_next_question]
    among the steps, in their order. *)
Definition polls_of (steps : list step) : list string :=
  flat_map (fun s => match s with
                     | Next _ sent => [Telegram.sent_poll_id sent]
                     | Answer _ => []
                     end) steps.

(** The counters of a record of the users file are in order. *)
Definition stats_in_order (e : Z * user_stats) : Prop :=
  0 <= correct_answers (snd e) <= total_answers (snd e)
  /\ 0 <= quizzes_taken (snd e).

(** Whether a user is ranked. *)
Definition is_ranked (uid : Z) (ranked : list (Z * participant)) : bool :=
  existsb (fun e => fst e =? uid) ranked.

(** What a session keeps of the polls it was given: their ids are the
    keys of [sent_polls], as many as there are questions at most, and the
    poll at position [i] carries question [i]. *)
Definition polls_in_order (selected : list question) (ids : list string) (q : quiz) : Prop :=
  questions q = selected
  /\ map fst (sent_polls q) = firstn (List.length selected) ids
  /\ map (fun e => question_index (snd e)) (sent_polls q)
     = seq 0 (List.length (sent_polls q))
  /\ current_index q = List.length (sent_polls q).

End Progress.

(** ** [simple_bot.py]: the countdown shown under a poll *)

Module Countdown.

(** [int(x)] for a float: its integer part; [None] stands for the
    [OverflowError] or [ValueError] of an infinity or a NaN. *)
Definition int_of_float (f : float) : option Z :=
  match Prim2SF f with
  | S754_zero _ => Some 0
  | S754_finite s m e =>
      let magnitude :=
        if 0 <=? e then Z.pos m * 2 ^ e else Z.pos m / 2 ^ (- e) in
      Some (if s then - magnitude else magnitude)
  | _ => None
  end.

(** [s * n]: empty for [n <= 0]. *)
Definition repeat_str (s : string) (n : Z) : string :=
  String.concat "" (repeat s (Z.to_nat n)).

Definition full_block : string := "■".
Definition empty_block : string := "□".

(** [create_countdown_animation(seconds, total)] on two ints; [None]
    stands for the [ZeroDivisionError] of [total == 0]. *)
Definition create_countdown_animation (seconds total : Z) : option string :=
  if total =? 0 then None
  else
    let percentage := py_truediv (Int seconds) (Int total) in
    let num_blocks := 10 in
    match int_of_float (to_float (py_mul percentage (Int num_blocks))) with
    | None => None
    | Some filled_blocks =>
        let progress_bar :=
          repeat_str full_block filled_blocks
            ++ repeat_str empty_block (num_blocks - filled_blocks) in
        Some ("[" ++ progress_bar ++ "] " ++ str_int seconds ++ "s")
    end.

(** The number of full blocks computed for [seconds] of [total]. *)
Definition filled (seconds total : Z) : option Z :=
  int_of_float
    (to_float (py_mul (py_truediv (Int seconds) (Int total)) (Int 10))).

(** Whether the full blocks are the tenths of [total] seconds that
    [seconds] have reached. *)
Definition filled_exact (seconds total : nat) : bool :=
  match filled (Z.of_nat seconds) (Z.of_nat total) with
  | Some k => k =? 10 * Z.of_nat seconds / Z.of_nat total
  | None => false
  end.

(** The same for every number of seconds from [0] to [total]. *)
Definition row_exact (total : nat) : bool :=
  forallb (fun seconds => filled_exact seconds total) (seq 0 (S total)).

End Countdown.

(** ** [Original.py] and [Lifechanger.py]: a quiz from one category *)

Module CategoryQuiz.
Import Engine.

(** How [category_callback] ends. *)
Inductive outcome :=
| NoneFound (category : string)            (* "No questions found in category" *)
| RaisedValueError                         (* [random.sample] refuses *)
| Selected (category : string) (selected : list question).

Section Callback.
(** The order in which [random.sample] draws from a population. *)
Variable shuffle : list question -> list question.

(** [category_callback], up to the questions it selects: [data] is the
    callback data of the button, [questions] what [load_questions]
    returns. *)
Definition category_callback (data : string) (questions : list question) : outcome :=
  let category := PyText.replace "cat_" "" data in
  let category_questions :=
    filter (fun q => String.eqb (q_category q) category) questions in
  match category_questions with
  | [] => NoneFound category
  | _ :: _ =>
      let num_questions := Z.min 5 (Z.of_nat (List.length category_questions)) in
      match StartQuiz.random_sample shuffle category_questions num_questions with
      | Some selected => Selected category selected
      | None => RaisedValueError
      end
  end.
End Callback.

End CategoryQuiz.

(** ** [Lifechanger.py]: a quiz is started in two steps *)

Module TimerStart.
Import Engine StartQuiz.

(** One round of the loop over [command_args[1:]]: the count is taken as
    it is written.  [None] stands for the [ValueError] of [int(arg)] on a
    text of digits that is no number, which nothing catches. *)
Definition parse_arg {U : Unicode} (a : quiz_args) (arg : string) : option quiz_args :=
  if isdigit arg then
    match py_int arg with
    | Some n => Some {| num_questions := n;
                        start_id := start_id a; specific_id := specific_id a |}
    | None => None
    end
  else if String.prefix "id=" arg then
    match int_after_equals arg with
    | Some i => Some {| num_questions := num_questions a; start_id := start_id a;
                        specific_id := Some i |}
    | None => Some a
    end
  else if String.prefix "start=" arg then
    match int_after_equals arg with
    | Some i => Some {| num_questions := num_questions a; start_id := Some i;
                        specific_id := specific_id a |}
    | None => Some a
    end
  else Some a.

(** The loop, which ends at the first round that raises. *)
Fixpoint parse_from {U : Unicode} (a : quiz_args) (args : list string)
    : option quiz_args :=
  match args with
  | [] => Some a
  | arg :: rest =>
      match parse_arg a arg with
      | Some a' => parse_from a' rest
      | None => None
      end
  end.

(** [start_quiz]: what it stores as [temp_quiz_data], or [None] when it
    raises before it stores anything; [words] is
    [update.message.text.split()]. *)
Definition start_quiz {U : Unicode} (words : list string) : option quiz_args :=
  parse_from {| num_questions := 5; start_id := None; specific_id := None |}
             (tl words).

(** The timer read off the callback data. *)
Definition timer_seconds (data : string) : Z :=
  if String.eqb data "timer_15" then 15 else 30.

(** How [handle_timer_selection] ends: with an exception, or with the
    quiz it stores and the timer it stores with it. *)
Inductive started :=
| Raised (path : selection_path)
| Started (path : selection_path) (q : quiz) (timer : Z).

Section Selection.
Variable shuffle : list question -> list question.

(** [handle_timer_selection] after a [/quiz] command: [temp] is the
    stored [temp_quiz_data] ([None]: there is none, and the defaults
    apply), [questions] what [load_questions] returns. *)
Definition handle_timer_selection (data : string) (temp : option quiz_args)
    (questions : list question) (chat : Z) (from_user : option Telegram.user) : started :=
  let a := match temp with
           | Some a => a
           | None => {| num_questions := 5; start_id := None; specific_id := None |}
           end in
  match select_questions shuffle questions a with
  | (path, Some selected) =>
      Started path (new_quiz selected chat from_user) (timer_seconds data)
  | (path, None) => Raised path
  end.
End Selection.

End TimerStart.

(** ** [simple_bot.py]: how a quiz is started *)

Module SimpleStart.
Import Engine QuestionBank.

Record quiz_args := {
  num_questions : Z;
  specific_ids : list Z
}.

(** One round of the loop over [context.args].  [None] stands for the
    [ValueError] of [int(arg)] on a text of digits that is no number,
    which nothing catches. *)
Definition parse_arg {U : Unicode} (a : quiz_args) (arg : string) : option quiz_args :=
  if isdigit arg then
    match py_int arg with
    | Some n => Some {| num_questions := n; specific_ids := specific_ids a |}
    | None => None
    end
  else if String.prefix "id=" arg then
    match StartQuiz.int_after_equals arg with
    | Some i => Some {| num_questions := num_questions a;
                        specific_ids := (specific_ids a ++ [i])%list |}
    | None => Some a                             (* "Invalid ID format" *)
    end
  else Some a.

(** The loop, which ends at the first round that raises. *)
Fixpoint parse_from {U : Unicode} (a : quiz_args) (args : list string)
    : option quiz_args :=
  match args with
  | [] => Some a
  | arg :: rest =>
      match parse_arg a arg with
      | Some a' => parse_from a' rest
      | None => None
      end
  end.

Definition parse_args {U : Unicode} (args : list string) : option quiz_args :=
  parse_from {| num_questions := 5; specific_ids := [] |} args.

(** The questions found for a list of ids, in the order of the ids. *)
Fixpoint questions_by_ids (ids : list Z) (f : file) : list question * file :=
  match ids with
  | [] => ([], f)
  | question_id :: rest =>
      let (found, f1) := get_question_by_id question_id f in
      let (others, f2) := questions_by_ids rest f1 in
      (match found with Some q => q :: others | None => others end, f2)
  end.

Definition quiz_on (selected : list question) : SimpleBot.quiz :=
  {| SimpleBot.questions := selected;
     SimpleBot.current_index := 0;
     SimpleBot.participants := [];
     SimpleBot.current_poll_id := None |}.

(** How [start_quiz] ends, with the ['quiz'] entry of the user data it
    leaves: an argument raises before the entry is written, it replies
    that there is nothing to ask, [random.sample] refuses, [questions[0]]
    raises its [IndexError], or it goes on to send the first question. *)
Inductive outcome :=
| RaisedInArgs                              (* the entry is as it was *)
| NoValidIds                                (* the entry is deleted *)
| NoQuestions                               (* the entry is deleted *)
| RaisedValueError (stored : SimpleBot.quiz)
| RaisedIndexError (stored : SimpleBot.quiz)
| FirstPoll (stored : SimpleBot.quiz) (first : question).

Section Start.
Context {U : Unicode}.
Variable shuffle : list question -> list question.

Definition start_quiz (args : list string) (f : file) : outcome * file :=
  match parse_args args with
  | None => (RaisedInArgs, f)
  | Some a =>
      match specific_ids a with
      | _ :: _ =>
          let (selected_questions, f') := questions_by_ids (specific_ids a) f in
          match selected_questions with
          | [] => (NoValidIds, f')
          | first :: _ => (FirstPoll (quiz_on selected_questions) first, f')
          end
      | [] =>
          let (all_questions, f') := load_questions f in
          match all_questions with
          | [] => (NoQuestions, f')
          | _ :: _ =>
              let available :=
                Z.min (num_questions a) (Z.of_nat (List.length all_questions)) in
              match StartQuiz.random_sample shuffle all_questions available with
              | Some [] => (RaisedIndexError (quiz_on []), f')
              | Some (first :: rest) => (FirstPoll (quiz_on (first :: rest)) first, f')
              | None => (RaisedValueError (quiz_on []), f')
              end
          end
      end
  end.
End Start.

End SimpleStart.

(** ** [Simple_bot.py]: from the timer button to the results *)

Module TimedRound.
Import Engine QuestionBank TimedQuiz.

(** [f"quiz_{chat_id}_{message.message_id}"] *)
Definition quiz_key (chat_id message_id : Z) : string :=
  "quiz_" ++ str_int chat_id ++ "_" ++ str_int message_id.

(** The callback data [quiz] puts on a timer button:
    [f"timer_{t}_{question_data['id']}"]. *)
Definition timer_button (t question_id : Z) : string :=
  "timer_" ++ str_int t ++ "_" ++ str_int question_id.

(** How [handle_timer_selection] ends: unpacking the callback data or an
    [int] raises [ValueError], the question is not found, or the quiz is
    stored and its poll is sent. *)
Inductive selection :=
| RaisedValueError
| NotFound
| QuizSent (w : world) (question : question).

(** [handle_timer_selection]: [message_id] is the id of the message that
    is edited, [sent_message_id] the id of the poll message. *)
Definition handle_timer_selection {U : Unicode} (data : string)
    (chat_id message_id sent_message_id : Z) (w : world) (f : file)
    : selection * file :=
  match PyText.split "_" data with
  | [_; timer_text; id_text] =>
      match py_int timer_text with
      | None => (RaisedValueError, f)
      | Some timer_value =>
          match py_int id_text with
          | None => (RaisedValueError, f)
          | Some question_id =>
              let (found, f') := get_question_by_id question_id f in
              match found with
              | None => (NotFound, f')
              | Some question_data =>
                  let quiz_data :=
                    {| correct_option := Some (correct_answer_of question_data);
                       participants := [];
                       negative_marking := Some true;
                       timer := timer_value;
                       TimedQuiz.question_id := question_id;
                       poll_message_id := Some sent_message_id |} in
                  let key := quiz_key chat_id message_id in
                  (QuizSent
                     {| bot_data := dict_set key quiz_data (bot_data w);
                        users := users w;
                        jobs := if 0 <? timer_value
                                then (jobs w ++ [{| job_chat_id := chat_id;
                                                    job_quiz_key := key |}])%list
                                else jobs w |}
                     question_data, f')
              end
          end
      end
  | _ => (RaisedValueError, f)
  end.

(** A line of the results: the medal, the rank, the name, the points and
    the mark of the answer, as they are printed. *)
Record row := {
  row_medal : string;
  row_rank : nat;
  row_name : string;
  row_points : number;
  row_mark : string
}.

(** What [send_quiz_results] sends, by its contents. *)
Inductive results :=
| NothingSent
| NoOneParticipated                       (* "Quiz ended! No one participated." *)
| Ranked (question_text : string) (total_participants : nat) (rows : list row).

(** [key(x) < key(y)] for the key [x[1]["score"]]. *)
Definition score_lt (x y : string * participant) : bool :=
  match Qcompare (value (score (snd x))) (value (score (snd y))) with
  | Lt => true
  | _ => false
  end.

Definition medal (i : nat) : string :=
  match i with
  | 1%nat => "🥇 "
  | 2%nat => "🥈 "
  | 3%nat => "🥉 "
  | _ => ""
  end.

(** The lines for a ranked list, the first of them with rank [i]. *)
Fixpoint rows_from (i : nat) (ranked : list (string * participant)) : list row :=
  match ranked with
  | [] => []
  | (_, data) :: rest =>
      {| row_medal := medal i;
         row_rank := i;
         row_name := name data;
         row_points := score data;
         row_mark := if correct data then " ✅" else " ❌" |}
      :: rows_from (S i) rest
  end.

(** [send_quiz_results]: what is sent, and the bot data and the file
    afterwards. *)
Definition send_quiz_results (quiz_key : string) (w : world) (f : file)
    : results * world * file :=
  match dict_get quiz_key (bot_data w) with
  | None => (NothingSent, w, f)
  | Some quiz_data =>
      match participants quiz_data with
      | [] => (NoOneParticipated, w, f)
      | _ :: _ =>
          let sorted_participants :=
            sorted_reverse score_lt (participants quiz_data) in
          let (question, f') := get_question_by_id (TimedQuiz.question_id quiz_data) f in
          let question_text :=
            match question with
            | Some q => q_question q
            | None => "Unknown question"
            end in
          (Ranked question_text (List.length sorted_participants)
                  (rows_from 1 sorted_participants),
           {| bot_data := PyText.dict_del quiz_key (bot_data w);
              users := users w;
              jobs := jobs w |},
           f')
      end
  end.

(** The counters of a record of the users file are in order. *)
Definition score_in_order (e : string * user_score) : Prop :=
  0 <= correct_answers (snd e) <= questions_answered (snd e).

End TimedRound.

(** ** [Simple_bot.py]: the conversation that adds a question *)

Module AddQuestion.
Import Engine QuestionBank.

(** The states of the conversation, as [main] registers it; [END] is
    [ConversationHandler.END]. *)
Inductive state := QUESTION | OPTIONS | ANSWER | EDIT_SELECT | END.

(** The keys of [context.user_data] the conversation uses; [None] while
    a key is absent. *)
Record user_data := {
  ud_question : option string;
  ud_options : option (list string);
  ud_answer : option Z
}.

(** [context.user_data.clear()] *)
Definition cleared : user_data :=
  {| ud_question := None; ud_options := None; ud_answer := None |}.

(** Where a handler leaves the conversation: the next state, the user
    data, the questions file, and whether it raised. *)
Record left := {
  next : state;
  data : user_data;
  file_after : file;
  raised : bool
}.

Definition add_question_text (text : string) (ud : user_data) (f : file) : left :=
  {| next := OPTIONS;
     data := {| ud_question := Some text;
                ud_options := ud_options ud;
                ud_answer := ud_answer ud |};
     file_after := f;
     raised := false |}.

Definition add_question_options (text : string) (ud : user_data) (f : file) : left :=
  let options := PyText.stripped_lines text in
  if ((List.length options <? 2) || (10 <? List.length options))%nat
  then {| next := OPTIONS; data := ud; file_after := f; raised := false |}
  else {| next := ANSWER;
          data := {| ud_question := ud_question ud;
                     ud_options := Some options;
                     ud_answer := ud_answer ud |};
          file_after := f;
          raised := false |}.

(** [context.user_data.get("options", [])] *)
Definition options_of (ud : user_data) : list string :=
  match ud_options ud with Some options => options | None => [] end.

Definition add_question_answer {U : Unicode} (text : string) (ud : user_data) (f : file) : left :=
  match py_int text with
  | None =>                                   (* "That's not a valid number." *)
      {| next := ANSWER; data := ud; file_after := f; raised := false |}
  | Some answer_index =>
      if (answer_index <? 0) || (Z.of_nat (List.length (options_of ud)) <=? answer_index)
      then {| next := ANSWER; data := ud; file_after := f; raised := false |}
      else {| next := EDIT_SELECT;
              data := {| ud_question := ud_question ud;
                         ud_options := ud_options ud;
                         ud_answer := Some answer_index |};
              file_after := f;
              raised := false |}
  end.

(** The category that is stored for a text. *)
Definition category_of (text : string) : string :=
  let category := PyText.strip text in
  match category with
  | EmptyString => "General"
  | _ => if String.eqb (PyText.lower category) "general" then "General" else category
  end.

(** [add_question_category]: the question is saved before the reply is
    put together, whose [options[answer]] may raise [IndexError]. *)
Definition add_question_category (text : string) (ud : user_data) (f : file) : left :=
  let (new_id, f1) := get_next_question_id f in
  let answer := match ud_answer ud with Some a => a | None => 0 end in
  let new_question :=
    {| q_id := new_id;
       q_question := match ud_question ud with Some t => t | None => "" end;
       q_options := options_of ud;
       q_answer := Some answer;
       q_category := category_of text |} in
  let (questions, _) := load_questions f1 in
  let f2 := save_questions (questions ++ [new_question])%list in
  match PyText.index (options_of ud) answer with
  | None => {| next := EDIT_SELECT; data := ud; file_after := f2; raised := true |}
  | Some _ => {| next := END; data := cleared; file_after := f2; raised := false |}
  end.

(** What the user sends: a text that is no command, [/cancel], or
    [/add]. *)
Inductive input :=
| Text (text : string)
| Cancel
| Add.

(** The handler the conversation calls for an input in a state. *)
Definition step {U : Unicode} (l : left) (i : input) : left :=
  match next l, i with
  | END, Add => {| next := QUESTION; data := data l; file_after := file_after l;
                   raised := false |}
  | END, _ => l
  | _, Add => l
  | _, Cancel => {| next := END; data := cleared; file_after := file_after l;
                    raised := false |}
  | QUESTION, Text t => add_question_text t (data l) (file_after l)
  | OPTIONS, Text t => add_question_options t (data l) (file_after l)
  | ANSWER, Text t => add_question_answer t (data l) (file_after l)
  | EDIT_SELECT, Text t => add_question_category t (data l) (file_after l)
  end.

(** A conversation opened by [/add], and what is sent after it.  The
    flag of the result tells whether any handler raised. *)
Definition converse {U : Unicode} (ud : user_data) (f : file) (inputs : list input) : left :=
  fold_left (fun l i => let l' := step l i in
                        {| next := next l'; data := data l';
                           file_after := file_after l';
                           raised := raised l || raised l' |})
            inputs
            {| next := QUESTION; data := ud; file_after := f; raised := false |}.

(** A question as the conversation is meant to store it: two to ten
    options, none of them empty, and the answer one of them. *)
Definition well_formed (q : question) : Prop :=
  (2 <= List.length (q_options q) <= 10)%nat
  /\ Forall (fun o => o <> "") (q_options q)
  /\ exists a, q_answer q = Some a /\ 0 <= a < Z.of_nat (List.length (q_options q)).

(** What the conversation has checked of the user data when it is in a
    state. *)
Definition checked (st : state) (ud : user_data) : Prop :=
  match st with
  | ANSWER =>
      (2 <= List.length (options_of ud) <= 10)%nat
      /\ Forall (fun o => o <> "") (options_of ud)
  | EDIT_SELECT =>
      (2 <= List.length (options_of ud) <= 10)%nat
      /\ Forall (fun o => o <> "") (options_of ud)
      /\ exists a, ud_answer ud = Some a
                   /\ 0 <= a < Z.of_nat (List.length (options_of ud))
  | _ => True
  end.

(** The questions added to the file so far are in order. *)
Definition added_in_order (before : list question) (l : left) : Prop :=
  exists added,
    fst (load_questions (file_after l)) = (before ++ added)%list
    /\ Forall well_formed added
    /\ Forall (fun q => forall q', In q' before -> q_id q' < q_id q) added
    /\ StronglySorted (fun a b => q_id a < q_id b) added.

End AddQuestion.

(** ** [Simple_bot.py]: the conversation that imports a question *)

Module ImportQuiz.
Import Engine QuestionBank.

Inductive state := CLONE_URL | CLONE_MANUAL | END.

(** A key of [context.user_data] that holds a text: absent, [None], or
    the text. *)
Inductive slot := Absent | Null | Value (text : string).

(** [context.user_data["import_quiz"]], a dict that is filled step by
    step; a field is [None] while its key is absent. *)
Record quiz_data := {
  iq_question : option string;
  iq_options : option (list string);
  iq_answer : option Z
}.

Record user_data := {
  import_method : slot;
  import_state : slot;
  import_url : option string;
  import_quiz : option quiz_data
}.

Record left := {
  next : state;
  data : user_data;
  file_after : file;
  raised : bool
}.

(** [d == text] for the value of a key read with [get]. *)
Definition holds (s : slot) (text : string) : bool :=
  match s with
  | Value t => String.eqb t text
  | _ => false
  end.

(** [not quiz_data]: the dict is absent or empty. *)
Definition is_empty (q : option quiz_data) : bool :=
  match q with
  | None => true
  | Some d =>
      match iq_question d, iq_options d, iq_answer d with
      | None, None, None => true
      | _, _, _ => false
      end
  end.

Definition stay (st : state) (ud : user_data) (f : file) : left :=
  {| next := st; data := ud; file_after := f; raised := false |}.

Section Conversation.
Context {U : Unicode}.
(** What [parse_telegram_quiz_url] extracts from a link ([None]: nothing
    or an empty dict). *)
Variable parse_telegram_quiz_url : string -> option quiz_data.

Definition handle_import_choice (message_text : string) (ud : user_data) (f : file)
    : left :=
  let text := PyText.lower (PyText.strip message_text) in
  if String.eqb text "manual" then
    stay CLONE_MANUAL
         {| import_method := Value "manual"; import_state := import_state ud;
            import_url := import_url ud; import_quiz := import_quiz ud |} f
  else if String.prefix "t.me/" text || PyText.contains "t.me/" text then
    let ud1 := {| import_method := Value "url"; import_state := import_state ud;
                  import_url := Some text; import_quiz := import_quiz ud |} in
    match parse_telegram_quiz_url text with
    | Some quiz =>
        if is_empty (Some quiz) then stay CLONE_URL ud1 f
        else stay CLONE_MANUAL
                  {| import_method := import_method ud1;
                     import_state := import_state ud1;
                     import_url := import_url ud1;
                     import_quiz := Some quiz |} f
    | None => stay CLONE_URL ud1 f
    end
  else stay CLONE_URL ud f.

(** The block of [handle_manual_import] that saves the question
    ("common for both URL and manual imports"). *)
Definition save_import (message_text : string) (ud : user_data) (f : file) : left :=
  let category := AddQuestion.category_of message_text in
  match import_quiz ud with
  | Some {| iq_question := Some question; iq_options := Some options;
            iq_answer := Some answer |} =>
      let (new_id, f1) := get_next_question_id f in
      let new_question :=
        {| q_id := new_id; q_question := question; q_options := options;
           q_answer := Some answer; q_category := category |} in
      let (questions, _) := load_questions f1 in
      let f2 := save_questions (questions ++ [new_question])%list in
      match PyText.index options answer with
      | None => {| next := CLONE_MANUAL; data := ud; file_after := f2; raised := true |}
      | Some _ =>
          stay CLONE_URL
               {| import_method := Null; import_state := Null;
                  import_url := None; import_quiz := None |} f2
      end
  | _ => stay END ud f                     (* "Incomplete quiz data" *)
  end.

(** The end of [handle_manual_import]: the saving block if the state is
    ["category"], the error otherwise. *)
Definition category_or_error (message_text : string) (ud : user_data) (f : file)
    : left :=
  if holds (import_state ud) "category" then save_import message_text ud f
  else stay END ud f.                      (* "Error in the import flow" *)

Definition with_state (ud : user_data) (st : string) (q : option quiz_data)
    : user_data :=
  {| import_method := import_method ud; import_state := Value st;
     import_url := import_url ud; import_quiz := q |}.

Definition handle_manual_import (message_text : string) (ud : user_data) (f : file)
    : left :=
  if holds (import_method ud) "url" then
    match py_int (PyText.strip message_text) with
    | None => stay CLONE_MANUAL ud f           (* "That's not a valid number." *)
    | Some correct_option =>
        match import_quiz ud with
        | Some quiz =>
            match iq_options quiz with
            | Some options =>
                if (correct_option <? 0)
                   || (Z.of_nat (List.length options) <=? correct_option)
                then stay CLONE_MANUAL ud f
                else stay CLONE_MANUAL
                          (with_state ud "category"
                             (Some {| iq_question := iq_question quiz;
                                      iq_options := iq_options quiz;
                                      iq_answer := Some correct_option |})) f
            | None => stay END ud f            (* "Quiz data not found" *)
            end
        | None => stay END ud f
        end
    end
  else if holds (import_method ud) "manual" then
    match import_state ud with
    | Absent =>
        stay CLONE_MANUAL
             (with_state ud "options"
                (Some {| iq_question := Some message_text; iq_options := None;
                         iq_answer := None |})) f
    | st =>
        if holds st "options" then
          let options := PyText.stripped_lines message_text in
          if ((List.length options <? 2) || (10 <? List.length options))%nat
          then stay CLONE_MANUAL ud f
          else match import_quiz ud with
               | None =>                       (* [KeyError] *)
                   {| next := CLONE_MANUAL; data := ud; file_after := f;
                      raised := true |}
               | Some quiz =>
                   stay CLONE_MANUAL
                        (with_state ud "answer"
                           (Some {| iq_question := iq_question quiz;
                                    iq_options := Some options;
                                    iq_answer := iq_answer quiz |})) f
               end
        else if holds st "answer" then
          match py_int message_text with
          | None => stay CLONE_MANUAL ud f
          | Some answer_index =>
              match import_quiz ud with
              | None =>                        (* [KeyError] *)
                  {| next := CLONE_MANUAL; data := ud; file_after := f;
                     raised := true |}
              | Some quiz =>
                  let options :=
                    match iq_options quiz with Some o => o | None => [] end in
                  if (answer_index <? 0)
                     || (Z.of_nat (List.length options) <=? answer_index)
                  then stay CLONE_MANUAL ud f
                  else stay CLONE_MANUAL
                            (with_state ud "category"
                               (Some {| iq_question := iq_question quiz;
                                        iq_options := iq_options quiz;
                                        iq_answer := Some answer_index |})) f
              end
          end
        else category_or_error message_text ud f
    end
  else category_or_error message_text ud f.

(** What the user sends: a text that is no command, or [/cancel]. *)
Inductive input :=
| Text (text : string)
| Cancel.

(** The handler the conversation calls for an input in a state; a
    handler that raises leaves the state as it was. *)
Definition step (l : left) (i : input) : left :=
  match next l, i with
  | END, _ => l
  | _, Cancel =>
      stay END {| import_method := Absent; import_state := Absent;
                  import_url := None; import_quiz := None |} (file_after l)
  | CLONE_URL, Text t => handle_import_choice t (data l) (file_after l)
  | CLONE_MANUAL, Text t => handle_manual_import t (data l) (file_after l)
  end.

(** The conversation from a state on, up to its end. *)
Definition converse (l : left) (inputs : list input) : left :=
  fold_left step inputs l.
End Conversation.

End ImportQuiz.

(** ** [Simple_bot.py]: saving an edited question *)

Module SaveEdited.
Import Engine QuestionBank.

(** The loop of [save_edited_question]: the first question with the id
    is replaced; [None] when there is none. *)
Fixpoint replace_first (edited_question : question) (questions : list question)
    : option (list question) :=
  match questions with
  | [] => None
  | question :: rest =>
      if q_id question =? q_id edited_question then Some (edited_question :: rest)
      else match replace_first edited_question rest with
           | Some rest' => Some (question :: rest')
           | None => None
           end
  end.

(** [save_edited_question]: whether a question was saved, and the file
    afterwards; [edit_question] is [None] when the user data holds no
    question with an id. *)
Definition save_edited_question (edit_question : option question) (f : file)
    : bool * file :=
  match edit_question with
  | None => (false, f)                       (* "Error: No question to save." *)
  | Some edited_question =>
      let (questions, _) := load_questions f in
      match replace_first edited_question questions with
      | Some updated => (true, save_questions updated)
      | None => (true, save_questions (questions ++ [edited_question])%list)
      end
  end.

End SaveEdited.

(** ** [Original.py]: the last step of editing a question *)

Module EditQuestion.
Import Engine QuestionBank.

(** [context.user_data['edit_field']] *)
Inductive field := Question | Options | Answer | Category | NoField.

(** How [edit_question_update] ends: it asks again ([EDIT_OPTIONS]), it
    raises the [IndexError] of [questions[edit_index] = ...], or it saves
    the list and ends the conversation. *)
Inductive outcome :=
| AskAgain
| RaisedIndexError
| Saved (questions : list question) (f : file).

(** The question after the edit; [None] when the text is refused. *)
Definition edited {U : Unicode} (edit_field : field) (text : string) (selected_question : question)
    : option question :=
  match edit_field with
  | Question =>
      Some {| q_id := q_id selected_question; q_question := text;
              q_options := q_options selected_question;
              q_answer := q_answer selected_question;
              q_category := q_category selected_question |}
  | Options =>
      let options := PyText.stripped_lines text in
      if (List.length options <? 2)%nat then None
      else
        Some {| q_id := q_id selected_question;
                q_question := q_question selected_question;
                q_options := options;
                q_answer :=
                  if Z.of_nat (List.length options) <=? correct_answer_of selected_question
                  then Some 0
                  else q_answer selected_question;
                q_category := q_category selected_question |}
  | Answer =>
      match py_int text with
      | None => None
      | Some n =>
          let answer_index := n - 1 in
          if (answer_index <? 0)
             || (Z.of_nat (List.length (q_options selected_question)) <=? answer_index)
          then None
          else Some {| q_id := q_id selected_question;
                       q_question := q_question selected_question;
                       q_options := q_options selected_question;
                       q_answer := Some answer_index;
                       q_category := q_category selected_question |}
      end
  | Category =>
      Some {| q_id := q_id selected_question;
              q_question := q_question selected_question;
              q_options := q_options selected_question;
              q_answer := q_answer selected_question;
              q_category := text |}
  | NoField => Some selected_question
  end.

(** [questions[i] = q] for [0 <= i < len(questions)]. *)
Fixpoint set_nth (questions : list question) (i : nat) (q : question)
    : list question :=
  match questions, i with
  | [], _ => []
  | _ :: rest, O => q :: rest
  | q0 :: rest, S i' => q0 :: set_nth rest i' q
  end.

(** [edit_question_update]: [questions] and [edit_index] are what
    [edit_question_start] and [edit_question_select] have stored, and the
    question being edited is [questions[edit_index]] itself. *)
Definition edit_question_update {U : Unicode} (edit_field : field) (text : string)
    (questions : list question) (edit_index : nat) : outcome :=
  match nth_error questions edit_index with
  | None => RaisedIndexError
  | Some selected_question =>
      match edited edit_field text selected_question with
      | None => AskAgain
      | Some q =>
          let questions' := set_nth questions edit_index q in
          Saved questions' (save_questions questions')
      end
  end.

(** A question with at least two options of which the answer is one. *)
Definition well_formed (q : question) : Prop :=
  (2 <= List.length (q_options q))%nat
  /\ 0 <= correct_answer_of q < Z.of_nat (List.length (q_options q)).

End EditQuestion.

(** ** [Original.py]: a poll saved as a question *)

Module PollToQuestion.
Import Engine QuestionBank.

(** [context.user_data['pending_question']]; a field is [None] while its
    key is absent. *)
Record pending := {
  pq_question : option string;
  pq_options : option (list string);
  pq_answer : option Z;
  pq_category : option string
}.

(** [not pending_question]: the dict is absent or empty. *)
Definition is_empty (p : option pending) : bool :=
  match p with
  | None => true
  | Some d =>
      match pq_question d, pq_options d, pq_answer d, pq_category d with
      | None, None, None, None => true
      | _, _, _, _ => false
      end
  end.

(** How [save_final_poll_question] ends: without question data, or with
    the question appended to the file; [same_id] counts the questions
    that had its id before, and [raised] tells whether the confirmation
    raised the [IndexError] of [options[answer]]. *)
Inductive outcome :=
| DataNotFound
| Appended (new_question : question) (same_id : nat) (raised : bool).

Definition save_final_poll_question (custom_id : option Z)
    (pending_question : option pending) (f : file) : outcome * file :=
  match pending_question with
  | None => (DataNotFound, f)
  | Some p =>
      if is_empty pending_question then (DataNotFound, f)
      else
        let options := match pq_options p with Some o => o | None => [] end in
        let answer := match pq_answer p with Some a => a | None => 0 end in
        let (first_id, f1) :=
          match custom_id with
          | Some i => (i, f)
          | None => get_next_question_id f
          end in
        let (questions, _) := load_questions f1 in
        let existing_with_same_id :=
          filter (fun q => q_id q =? first_id) questions in
        let new_id :=
          match existing_with_same_id, custom_id, questions with
          | _ :: _, None, q :: rest => max_id q rest + 1
          | _, _, _ => first_id
          end in
        let new_question :=
          {| q_id := new_id;
             q_question := match pq_question p with Some t => t | None => "" end;
             q_options := options;
             q_answer := Some answer;
             q_category := match pq_category p with
                           | Some c => c
                           | None => "Poll Quiz"
                           end |} in
        (Appended new_question (List.length existing_with_same_id)
                  (match PyText.index options answer with
                   | Some _ => false
                   | None => true
                   end),
         save_questions (questions ++ [new_question])%list)
  end.

End PollToQuestion.

(** ** [simple_bot.py]: the answer that completes a new question *)

Module SimpleAdd.
Import Engine QuestionBank.

(** How [add_question_answer] ends: it asks again, or it saves the
    question. *)
Inductive outcome :=
| AskAgain
| Added (new_question : question).

(** [options], [question_text], [category] and [custom_id] are the keys
    of the user data, [None] while absent. *)
Definition add_question_answer {U : Unicode} (text : string) (options : option (list string))
    (question_text category : option string) (custom_id : option Z) (f : file)
    : outcome * file :=
  match py_int text with
  | None => (AskAgain, f)                    (* "Invalid input." *)
  | Some n =>
      let answer := n - 1 in
      let options := match options with Some o => o | None => [] end in
      if (answer <? 0) || (Z.of_nat (List.length options) <=? answer)
      then (AskAgain, f)
      else
        (* the default of [get] is evaluated whether or not it is used *)
        let (next_id, f1) := get_next_question_id f in
        let custom_id := match custom_id with Some i => i | None => next_id end in
        let (questions, f2) := load_questions f1 in
        let (new_id, _) :=
          if existsb (fun q => q_id q =? custom_id) questions
          then get_next_question_id f2
          else (custom_id, f2) in
        let question :=
          {| q_id := new_id;
             q_question := match question_text with Some t => t | None => "" end;
             q_options := options;
             q_answer := Some answer;
             q_category := match category with Some c => c | None => "General" end |} in
        (Added question, save_questions (questions ++ [question])%list)
  end.

End SimpleAdd.

(** ** [simple_bot.py]: answers delivered one after the other *)

Module SimpleAnswers.

(** The ['quiz'] entries of the dispatcher's [user_data], one per user who
    has one. *)
Definition user_data := dict Z SimpleBot.quiz.

(** [handle_quiz_poll_answer] at work: the [context.user_data] it reads
    and writes is the data of the user who sent the answer. *)
Definition poll_answer (ev : Telegram.poll_answer) (ud : user_data) : user_data :=
  let uid := Telegram.id (Telegram.from_user ev) in
  match SimpleBot.handle_quiz_poll_answer ev (dict_get uid ud) with
  | Some q => dict_set uid q ud
  | None => ud
  end.

Definition deliver (evs : list Telegram.poll_answer) (ud : user_data) : user_data :=
  fold_left (fun ud ev => poll_answer ev ud) evs ud.

(** The ['answered'] count that the quiz of [owner] holds for [uid], [0]
    without an entry or a quiz. *)
Definition answered_of (owner uid : Z) (ud : user_data) : Z :=
  match dict_get owner ud with
  | Some q =>
      match dict_get (str_int uid) (SimpleBot.participants q) with
      | Some p => SimpleBot.answered p
      | None => 0
      end
  | None => 0
  end.

(** The number of answers to the poll [pid] that [uid] sent. *)
Definition sent_by (uid : Z) (pid : string) (evs : list Telegram.poll_answer) : nat :=
  List.length
    (filter (fun ev => (Telegram.id (Telegram.from_user ev) =? uid)
                       && String.eqb (Telegram.poll_id ev) pid) evs).

End SimpleAnswers.

(** * Properties *)

Import Engine Session.

(** ** Dictionaries *)

Section DictFacts.
Context {K V : Type} `{Key K}.

Lemma key_eqb_refl (k : K) : key_eqb k k = true.
Proof. apply key_eqb_eq; reflexivity. Qed.

Lemma key_eqb_neq (a b : K) : a <> b -> key_eqb a b = false.
Proof.
  intros Hab. destruct (key_eqb a b) eqn:E; [|reflexivity].
  apply key_eqb_eq in E. contradiction.
Qed.

Lemma dict_get_set_same (k : K) (v : V) (d : dict K V) :
  dict_get k (dict_set k v d) = Some v.
Proof.
  induction d as [|[k' v'] d IH]; simpl.
  - now rewrite key_eqb_refl.
  - destruct (key_eqb k k') eqn:E; simpl; rewrite E; auto.
Qed.

Lemma dict_get_set_other (k k' : K) (v : V) (d : dict K V) :
  k <> k' -> dict_get k' (dict_set k v d) = dict_get k' d.
Proof.
  intros Hne. induction d as [|[k0 v0] d IH]; simpl.
  - rewrite key_eqb_neq; auto.
  - destruct (key_eqb k k0) eqn:E; simpl.
    + apply key_eqb_eq in E; subst k0.
      rewrite (key_eqb_neq (a := k') (b := k)); auto.
    + rewrite IH. reflexivity.
Qed.

Lemma dict_get_In (k : K) (v : V) (d : dict K V) :
  dict_get k d = Some v -> exists k', In (k', v) d.
Proof.
  induction d as [|[k0 v0] d IH]; simpl; [discriminate|].
  destruct (key_eqb k k0).
  - intros [= ->]. eauto.
  - intros Hg. destruct (IH Hg) as [k' Hk']. eauto.
Qed.

Lemma In_dict_set (k : K) (v : V) (d : dict K V) (e : K * V) :
  In e (dict_set k v d) -> In e d \/ snd e = v.
Proof.
  induction d as [|[k0 v0] d IH]; simpl.
  - intros [<-|[]]. now right.
  - destruct (key_eqb k k0); simpl.
    + intros [<-|Hin]; [now right | now left; right].
    + intros [<-|Hin]; [now left; left|].
      destruct (IH Hin); [left; now right | now right].
Qed.

Lemma dict_set_length (k : K) (v : V) (d : dict K V) :
  (List.length (dict_set k v d) <= S (List.length d))%nat.
Proof.
  induction d as [|[k0 v0] d IH]; simpl; [lia|].
  destruct (key_eqb k k0); simpl; lia.
Qed.

Lemma count_key_set_other (k k' : K) (v : V) (d : dict K V) :
  k <> k' -> count_key k' (dict_set k v d) = count_key k' d.
Proof.
  intros Hne. unfold count_key. induction d as [|[k0 v0] d IH]; simpl.
  - rewrite key_eqb_neq; auto.
  - destruct (key_eqb k k0) eqn:E; simpl.
    + destruct (key_eqb k' k0); reflexivity.
    + destruct (key_eqb k' k0); simpl; now rewrite IH.
Qed.

Lemma count_key_absent (k : K) (d : dict K V) :
  dict_get k d = None -> count_key k d = 0%nat.
Proof.
  unfold count_key. induction d as [|[k0 v0] d IH]; simpl; [reflexivity|].
  destruct (key_eqb k k0); [discriminate | auto].
Qed.

Lemma count_key_set_new (k : K) (v : V) (d : dict K V) :
  dict_get k d = None -> count_key k (dict_set k v d) = 1%nat.
Proof.
  unfold count_key. induction d as [|[k0 v0] d IH]; simpl.
  - now rewrite key_eqb_refl.
  - destruct (key_eqb k k0) eqn:E; [discriminate|].
    intros Hg. simpl. rewrite E. auto.
Qed.

Lemma count_key_set_present (k : K) (v v0 : V) (d : dict K V) :
  dict_get k d = Some v0 -> count_key k (dict_set k v d) = count_key k d.
Proof.
  unfold count_key. induction d as [|[k1 v1] d IH]; simpl; [discriminate|].
  destruct (key_eqb k k1) eqn:E; simpl; rewrite E; auto.
Qed.
End DictFacts.

Section DictKeys.
Context {K V : Type} `{Key K}.

Lemma dict_get_none_keys (k : K) (d : dict K V) :
  dict_get k d = None -> ~ In k (map fst d).
Proof.
  induction d as [|[k0 v0] d IH]; simpl; [tauto|].
  destruct (key_eqb k k0) eqn:E; [discriminate|].
  intros Hg [Heq|Hin]; [|now apply IH].
  subst k0. rewrite key_eqb_refl in E. discriminate.
Qed.

Lemma dict_set_keys (k : K) (v : V) (d : dict K V) :
  map fst (dict_set k v d)
  = match dict_get k d with
    | Some _ => map fst d
    | None => (map fst d ++ [k])%list
    end.
Proof.
  induction d as [|[k0 v0] d IH]; simpl; [reflexivity|].
  destruct (key_eqb k k0) eqn:E; simpl; [reflexivity|].
  rewrite IH. destruct (dict_get k d); reflexivity.
Qed.

Lemma dict_set_nodup (k : K) (v : V) (d : dict K V) :
  NoDup (map fst d) -> NoDup (map fst (dict_set k v d)).
Proof.
  intros Hd. rewrite dict_set_keys.
  destruct (dict_get k d) eqn:E; [exact Hd|].
  apply NoDup_app; [exact Hd | repeat constructor; auto |].
  intros a Ha [<-|[]]. now apply (dict_get_none_keys _ _ E).
Qed.

Lemma dict_set_length_present (k : K) (v v0 : V) (d : dict K V) :
  dict_get k d = Some v0 -> List.length (dict_set k v d) = List.length d.
Proof.
  intros Hg. rewrite <- (length_map fst), dict_set_keys, Hg.
  apply length_map.
Qed.

Lemma In_nodup_get (k : K) (v : V) (d : dict K V) :
  NoDup (map fst d) -> In (k, v) d -> dict_get k d = Some v.
Proof.
  induction d as [|[k0 v0] d IH]; simpl; [tauto|].
  intros Hnd Hin. inversion Hnd as [|? ? Hk0 Hd]; subst.
  destruct Hin as [[= -> ->]|Hin].
  - now rewrite key_eqb_refl.
  - destruct (key_eqb k k0) eqn:E; [|auto].
    apply key_eqb_eq in E. subst k0.
    elim Hk0. apply (in_map fst _ _ Hin).
Qed.
End DictKeys.

Section DictMore.
Context {K V : Type} `{Key K}.

Lemma dict_set_absent (k : K) (v : V) (d : dict K V) :
  dict_get k d = None -> dict_set k v d = (d ++ [(k, v)])%list.
Proof.
  induction d as [|[k0 v0] d IH]; simpl; [reflexivity|].
  destruct (key_eqb k k0); [discriminate|]. intros Hg. now rewrite IH.
Qed.

Lemma dict_get_not_key (k : K) (d : dict K V) :
  ~ In k (map fst d) -> dict_get k d = None.
Proof.
  induction d as [|[k0 v0] d IH]; simpl; [reflexivity|].
  intros Hn. destruct (key_eqb k k0) eqn:E.
  - apply key_eqb_eq in E. subst k0. tauto.
  - apply IH. tauto.
Qed.

Lemma map_dict_set_present {B : Type} (g : V -> B) (k : K) (v v0 : V) (d : dict K V) :
  dict_get k d = Some v0 -> g v = g v0 ->
  map (fun e => g (snd e)) (dict_set k v d) = map (fun e => g (snd e)) d.
Proof.
  intros Hg Hv. induction d as [|[k0 v1] d IH]; simpl in *; [discriminate|].
  destruct (key_eqb k k0); simpl.
  - injection Hg as ->. now rewrite Hv.
  - now rewrite IH.
Qed.
End DictMore.

(** ** Answers to polls that are not registered *)

Lemma find_active_quiz_none (pid : string) (uds : list (Z * option quiz)) :
  (forall uid q, In (uid, Some q) uds ->
     active q = true -> dict_in pid (sent_polls q) = false) ->
  find_active_quiz pid uds = None.
Proof.
  induction uds as [|[uid d] uds IH]; simpl; intros Hno; [reflexivity|].
  destruct d as [q|]; simpl.
  - destruct (active q) eqn:Ea; simpl.
    + rewrite (Hno uid q (or_introl eq_refl) Ea). eauto.
    + eauto.
  - eauto.
Qed.

(** C4, as the code has it.  An answer whose poll id is among the
    [sent_polls] of no active quiz leaves the whole world of
    [Original.py] and [Lifechanger.py] as it is: no participants table,
    no poll record and nothing in the users file changes.  (A poll stays
    among the [sent_polls] for as long as its quiz is active, also after
    it has closed.)  In [simple_bot.py] an answer whose poll id is not
    the user's [current_poll_id] (or that finds no quiz at all) leaves
    the user's quiz as it is.  Both handlers return normally. *)
Theorem unregistered_poll_answer_is_dropped :
  (forall (v : variant) (ev : Telegram.poll_answer) (w : world),
      (forall uid q, In (uid, Some q) (user_data w) ->
         active q = true ->
         dict_in (Telegram.poll_id ev) (sent_polls q) = false) ->
      poll_answer v ev w = w)
  /\ (forall (ev : Telegram.poll_answer) (d : option SimpleBot.quiz),
        (forall q, d = Some q ->
           SimpleBot.current_poll_id q <> Some (Telegram.poll_id ev)) ->
        SimpleBot.handle_quiz_poll_answer ev d = d).
Proof.
  split.
  - intros v ev w Hno. unfold poll_answer.
    now rewrite (find_active_quiz_none _ _ Hno).
  - intros ev [q|] Hno; simpl; [|reflexivity].
    specialize (Hno q eq_refl).
    destruct (SimpleBot.current_poll_id q) as [c|] eqn:Ec; simpl; [|reflexivity].
    destruct (String.eqb (Telegram.poll_id ev) c) eqn:E; simpl; [|reflexivity].
    apply String.eqb_eq in E. subst c. congruence.
Qed.

(** ** One recorded answer *)

(** What [record_answer] does to the counters of the answering user. *)
Lemma record_answer_counters
    (v : variant) (ev : Telegram.poll_answer) (q : quiz)
    (info : poll_info) (question : question) :
  dict_get (Telegram.poll_id ev) (sent_polls q) = Some info ->
  nth_error (questions q) (question_index info) = Some question ->
  let uid := Telegram.id (Telegram.from_user ev) in
  let chosen := hd_error (Telegram.option_ids ev) in
  let right := correct_answer_of question in
  let before := match dict_get uid (participants q) with
                | Some p => p
                | None => new_participant (Telegram.from_user ev)
                end in
  exists after,
    dict_get uid (participants (fst (record_answer v ev q))) = Some after
    /\ answered after = answered before + 1
    /\ (chosen = Some right ->
          correct after = correct before + 1
          /\ negative_points after = negative_points before)
    /\ (chosen <> Some right ->
          correct after = correct before
          /\ negative_points after
             = match v with
               | Original => negative_points before
               | Lifechanger =>
                   Some (py_add (negative_points_of before) (Float 0.25))
               end)
    /\ (forall o, chosen = Some o ->
          0 <= right < Z.of_nat (List.length (q_options question)) ->
          ~ 0 <= o < Z.of_nat (List.length (q_options question)) ->
          correct after = correct before /\ answered after = answered before + 1).
Proof.
  intros Hinfo Hq uid chosen right before.
  unfold record_answer. rewrite Hinfo, Hq. simpl.
  fold uid. fold right. fold before.
  exists (count_answer v (answer_is_correct ev right) before).
  split; [apply dict_get_set_same|].
  assert (Hok : answer_is_correct ev right = true <-> chosen = Some right).
  { unfold answer_is_correct, chosen.
    destruct (Telegram.option_ids ev) as [|o os]; simpl.
    - split; discriminate.
    - rewrite Z.eqb_eq. split; [now intros -> | now intros [= ->]]. }
  assert (Hwrong : chosen <> Some right ->
            correct (count_answer v (answer_is_correct ev right) before) = correct before
            /\ answered (count_answer v (answer_is_correct ev right) before)
               = answered before + 1
            /\ negative_points (count_answer v (answer_is_correct ev right) before)
               = match v with
                 | Original => negative_points before
                 | Lifechanger =>
                     Some (py_add (negative_points_of before) (Float 0.25))
                 end).
  { intros Hne. destruct (answer_is_correct ev right) eqn:E.
    - exfalso. apply Hne, Hok. reflexivity.
    - destruct v; repeat split. }
  split; [|split; [|split]].
  - unfold count_answer. destruct (answer_is_correct ev right); reflexivity.
  - intros Hc. apply Hok in Hc. rewrite Hc. split; reflexivity.
  - intros Hne. destruct (Hwrong Hne) as (Hc & _ & Hn). now split.
  - intros o Ho Hin Hout.
    destruct Hwrong as (Hc & Ha & _); [|now split].
    rewrite Ho. intros [= ->]. auto.
Qed.

(** ** What [end_quiz] reads *)

(** C8.  The ranked table, the message and the users file that [end_quiz]
    produces are the same for two quizzes that agree on their questions
    and their [sent_polls] (and on the [active] mark and the stored
    creator, which [end_quiz] also reads), however their live
    [participants] tables differ. *)
Theorem end_quiz_ignores_live_participants
    (v : variant) (upd : Telegram.update) (us : dict Z user_stats) (q1 q2 : quiz) :
  questions q1 = questions q2 ->
  sent_polls q1 = sent_polls q2 ->
  active q1 = active q2 ->
  creator q1 = creator q2 ->
  ranking (end_quiz v upd q1 us) = ranking (end_quiz v upd q2 us)
  /\ sent_text (end_quiz v upd q1 us) = sent_text (end_quiz v upd q2 us)
  /\ users_after (end_quiz v upd q1 us) = users_after (end_quiz v upd q2 us).
Proof.
  intros Hq Hs Ha Hc. unfold end_quiz.
  rewrite Ha. destruct (match v with Original => negb (active q2) | Lifechanger => false end).
  - repeat split.
  - assert (Ht : creator_fallback q1 (rebuild_participants (sent_polls q1))
                 = creator_fallback q2 (rebuild_participants (sent_polls q2))).
    { unfold creator_fallback. now rewrite Hs, Hc, Hq. }
    rewrite Ht.
    destruct (creator_fallback q2 (rebuild_participants (sent_polls q2))); simpl.
    + unfold dummy_message, dummy_user_name, dummy_correct_count.
      rewrite Hq, Hs, Hc. repeat split.
    + rewrite Hq. repeat split.
Qed.

(** ** The order of the leaderboard *)

Section StableSortFacts.
Context {A : Type} (after : A -> A -> bool).

(** [x] may stand before [y]. *)
Let may_precede (x y : A) : Prop := after x y = false.

Hypothesis after_asym : forall x y, after x y = true -> after y x = false.
Hypothesis may_precede_trans :
  forall x y z, after x y = false -> after y z = false -> after x z = false.

Lemma insert_stable_perm (x : A) (l : list A) :
  Permutation (x :: l) (insert_stable after x l).
Proof.
  induction l as [|y l IH]; simpl; [reflexivity|].
  destruct (after x y); [|reflexivity].
  rewrite perm_swap. now constructor.
Qed.

Lemma stable_sort_perm (l : list A) : Permutation l (stable_sort after l).
Proof.
  induction l as [|x l IH]; simpl; [constructor|].
  rewrite <- insert_stable_perm. now constructor.
Qed.

Lemma insert_stable_sorted (x : A) (l : list A) :
  StronglySorted may_precede l ->
  StronglySorted may_precede (insert_stable after x l).
Proof.
  induction 1 as [|y l Hs IH Hy]; simpl.
  - constructor; constructor.
  - destruct (after x y) eqn:E.
    + constructor; [exact IH|].
      apply (Permutation_Forall (insert_stable_perm x l)).
      constructor; [apply after_asym, E | exact Hy].
    + constructor; [now constructor|].
      constructor; [exact E|].
      eapply Forall_impl; [|exact Hy].
      intros z Hz. eapply may_precede_trans; eauto.
Qed.

Lemma stable_sort_sorted (l : list A) :
  StronglySorted may_precede (stable_sort after l).
Proof.
  induction l as [|x l IH]; simpl; [constructor|].
  now apply insert_stable_sorted.
Qed.
End StableSortFacts.

Lemma StronglySorted_nth {A : Type} (R : A -> A -> Prop) (l : list A) :
  StronglySorted R l ->
  forall i j x y, (i < j)%nat ->
    nth_error l i = Some x -> nth_error l j = Some y -> R x y.
Proof.
  induction 1 as [|a l Hs IH Ha]; intros i j x y Hij Hi Hj.
  - destruct i; discriminate.
  - destruct j as [|j]; [lia|]. simpl in Hj.
    destruct i as [|i]; simpl in Hi.
    + injection Hi as <-. rewrite Forall_forall in Ha.
      eapply Ha, nth_error_In, Hj.
    + eapply IH; [|exact Hi|exact Hj]. lia.
Qed.

Lemma StronglySorted_weaken {A : Type} (R R' : A -> A -> Prop) (l : list A) :
  (forall x y, In x l -> In y l -> R x y -> R' x y) ->
  StronglySorted R l -> StronglySorted R' l.
Proof.
  intros Himp Hs. induction Hs as [|a l Hs IH Ha]; constructor.
  - apply IH. intros x y Hx Hy. apply Himp; now right.
  - rewrite Forall_forall in *. intros y Hy.
    apply Himp; [now left | now right | auto].
Qed.

(** What the key comparison of [end_quiz] decides. *)
Lemma key_lt_false_iff (v : variant) (x y : Z * participant) :
  key_lt v x y = false <->
  (key_score v (snd y) < key_score v (snd x))%Q
  \/ (key_score v (snd x) == key_score v (snd y)
      /\ answered (snd x) <= answered (snd y)).
Proof.
  unfold key_lt.
  destruct (Qcompare_spec (key_score v (snd x)) (key_score v (snd y))) as [E|E|E].
  - rewrite Z.ltb_ge. split.
    + intros Hle. right. split; [exact E | lia].
    + intros [Hlt|[_ Hle]]; [lra | lia].
  - split; [discriminate|]. intros [Hlt|[Heq _]]; lra.
  - split; [now left | reflexivity].
Qed.

Lemma key_lt_asym (v : variant) (x y : Z * participant) :
  key_lt v x y = true -> key_lt v y x = false.
Proof.
  intros Hxy. apply key_lt_false_iff.
  destruct (key_lt v y x) eqn:Hyx; revert Hxy Hyx; unfold key_lt;
    destruct (Qcompare_spec (key_score v (snd x)) (key_score v (snd y)));
    destruct (Qcompare_spec (key_score v (snd y)) (key_score v (snd x)));
    rewrite ?Z.ltb_lt, ?Z.ltb_ge; intros; try discriminate; try lra;
    try (right; split; [lra | lia]); try (left; lra); lia.
Qed.

Lemma key_lt_false_trans (v : variant) (x y z : Z * participant) :
  key_lt v x y = false -> key_lt v y z = false -> key_lt v x z = false.
Proof.
  rewrite !key_lt_false_iff.
  intros [H1|[H1 H1']] [H2|[H2 H2']].
  - left; lra.
  - left; lra.
  - left; lra.
  - right; split; [lra | lia].
Qed.

Lemma sorted_participants_sorted (v : variant) (parts : dict Z participant) :
  StronglySorted (fun x y => key_lt v x y = false) (sorted_participants v parts).
Proof.
  unfold sorted_participants, sorted_reverse.
  apply stable_sort_sorted; [apply key_lt_asym | apply key_lt_false_trans].
Qed.

Lemma sorted_participants_perm (v : variant) (parts : dict Z participant) :
  Permutation parts (sorted_participants v parts).
Proof. apply stable_sort_perm. Qed.

(** A property of the entries that [fold_left] preserves step by step. *)
Lemma fold_left_invariant {A B : Type} (P : A -> Prop) (f : A -> B -> A)
    (l : list B) (a : A) :
  P a -> (forall a b, P a -> In b l -> P (f a b)) -> P (fold_left f l a).
Proof.
  revert a. induction l as [|b l IH]; simpl; intros a Ha Hstep; [exact Ha|].
  apply IH; [apply Hstep; auto | intros; apply Hstep; auto].
Qed.

(** The reconstruction never writes a penalty. *)
Lemma tally_no_penalty (parts : dict Z participant) (entry : Z * answer_record) :
  Forall (fun e => negative_points (snd e) = None) parts ->
  Forall (fun e => negative_points (snd e) = None) (tally parts entry).
Proof.
  intros Hp. destruct entry as [uid a]. unfold tally.
  rewrite Forall_forall in *. intros e He.
  apply In_dict_set in He. destruct He as [He| ->]; [auto|]. simpl.
  destruct (dict_get uid parts) as [p|] eqn:Eg; [|reflexivity].
  destruct (dict_get_In _ _ Eg) as [k Hk]. apply (Hp _ Hk).
Qed.

Lemma final_table_no_penalty (q : quiz) :
  Forall (fun e => negative_points (snd e) = None)
         (creator_fallback q (rebuild_participants (sent_polls q))).
Proof.
  assert (Hr : Forall (fun e => negative_points (snd e) = None)
                      (rebuild_participants (sent_polls q))).
  { unfold rebuild_participants.
    apply fold_left_invariant; [constructor|].
    intros parts entry Hparts _.
    apply fold_left_invariant; [exact Hparts|].
    intros; now apply tally_no_penalty. }
  unfold creator_fallback.
  destruct (rebuild_participants (sent_polls q)); [|exact Hr].
  destruct (creator q) as [c|]; [|constructor].
  destruct (creator_id c =? 0); constructor; [reflexivity | constructor].
Qed.

Lemma key_score_adjusted (v : variant) (p : participant) :
  negative_points p = None -> (key_score v p == value (adjusted_score p))%Q.
Proof.
  intros Hn. destruct v; cbn [key_score]; [|reflexivity].
  unfold adjusted_score, negative_points_of. rewrite Hn.
  cbn [py_sub value]. now rewrite Z.sub_0_r.
Qed.

Lemma ranking_sorted (v : variant) (upd : Telegram.update) (q : quiz)
    (us : dict Z user_stats) :
  StronglySorted (fun x y => ranks_before (snd x) (snd y))
                 (ranking (end_quiz v upd q us)).
Proof.
  unfold end_quiz.
  destruct (match v with Original => negb (active q) | Lifechanger => false end);
    [constructor|].
  pose proof (final_table_no_penalty q) as Hnp.
  destruct (creator_fallback q (rebuild_participants (sent_polls q)))
    as [|e parts] eqn:Et; [constructor|]. cbn [ranking].
  eapply StronglySorted_weaken; [|apply sorted_participants_sorted].
  intros x y Hx Hy Hxy.
  rewrite Forall_forall in Hnp.
  apply (Permutation_in _ (Permutation_sym (sorted_participants_perm v (e :: parts)))) in Hx.
  apply (Permutation_in _ (Permutation_sym (sorted_participants_perm v (e :: parts)))) in Hy.
  apply key_lt_false_iff in Hxy.
  rewrite (key_score_adjusted v _ (Hnp _ Hx)) in Hxy.
  rewrite (key_score_adjusted v _ (Hnp _ Hy)) in Hxy.
  exact Hxy.
Qed.

(** The same for [simple_bot.py]. *)
Lemma simple_key_lt_false_iff (x y : string * SimpleBot.participant) :
  SimpleBot.key_lt x y = false <-> simple_ranks_before (snd x) (snd y).
Proof.
  unfold SimpleBot.key_lt, simple_ranks_before.
  destruct (Z.compare_spec (SimpleBot.correct (snd x)) (SimpleBot.correct (snd y))).
  - rewrite Z.ltb_ge. lia.
  - split; [discriminate | lia].
  - split; [lia | reflexivity].
Qed.

Lemma simple_ranking_sorted (d : option SimpleBot.quiz) :
  StronglySorted (fun x y => simple_ranks_before (snd x) (snd y))
                 (snd (fst (SimpleBot.end_quiz d))).
Proof.
  destruct d as [q|]; simpl; [|constructor].
  destruct (SimpleBot.participants q) as [|e parts]; [constructor|].
  cbn [fst snd].
  eapply StronglySorted_weaken;
    [intros x y _ _ H; apply simple_key_lt_false_iff; exact H|].
  unfold SimpleBot.sorted_participants, sorted_reverse.
  apply stable_sort_sorted.
  - intros x y Hxy. apply simple_key_lt_false_iff.
    destruct (SimpleBot.key_lt y x) eqn:Hyx.
    + revert Hxy Hyx. unfold SimpleBot.key_lt, simple_ranks_before.
      destruct (Z.compare_spec (SimpleBot.correct (snd x)) (SimpleBot.correct (snd y)));
        destruct (Z.compare_spec (SimpleBot.correct (snd y)) (SimpleBot.correct (snd x)));
        rewrite ?Z.ltb_lt; intros; try discriminate; lia.
    + now apply simple_key_lt_false_iff.
  - intros x y z. rewrite !simple_key_lt_false_iff.
    unfold simple_ranks_before. lia.
Qed.

(** C1, as the code has it.  The leaderboard of [end_quiz] is in
    descending order of the adjusted score ([correct] minus the
    [negative_points] of the ranked entry), and of two participants with
    the same adjusted score the one with the lower ['answered'] count
    stands above the other; so it is in [Original.py], [Lifechanger.py]
    and, with the count of correct answers as score, [simple_bot.py]. *)
Theorem leaderboard_order :
  (forall (v : variant) (upd : Telegram.update) (q : quiz) (us : dict Z user_stats),
      let r := ranking (end_quiz v upd q us) in
      StronglySorted (fun x y => ranks_before (snd x) (snd y)) r
      /\ forall i j x y,
           nth_error r i = Some x -> nth_error r j = Some y ->
           (value (adjusted_score (snd x)) == value (adjusted_score (snd y)))%Q ->
           answered (snd x) < answered (snd y) ->
           (i < j)%nat)
  /\ (forall d : option SimpleBot.quiz,
        let r := snd (fst (SimpleBot.end_quiz d)) in
        StronglySorted (fun x y => simple_ranks_before (snd x) (snd y)) r
        /\ forall i j x y,
             nth_error r i = Some x -> nth_error r j = Some y ->
             SimpleBot.correct (snd x) = SimpleBot.correct (snd y) ->
             SimpleBot.answered (snd x) < SimpleBot.answered (snd y) ->
             (i < j)%nat).
Proof.
  split.
  - intros v upd q us r. pose proof (ranking_sorted v upd q us) as Hs.
    split; [exact Hs|]. fold r in Hs.
    intros i j x y Hi Hj Heq Hlt.
    destruct (Nat.lt_trichotomy i j) as [Hij|[Hij|Hij]]; [exact Hij| |].
    + subst j. rewrite Hi in Hj. injection Hj as <-. lia.
    + pose proof (StronglySorted_nth Hs Hij Hj Hi) as [H|[_ H]]; [lra | lia].
  - intros d r. pose proof (simple_ranking_sorted d) as Hs.
    split; [exact Hs|]. fold r in Hs.
    intros i j x y Hi Hj Heq Hlt.
    destruct (Nat.lt_trichotomy i j) as [Hij|[Hij|Hij]]; [exact Hij| |].
    + subst j. rewrite Hi in Hj. injection Hj as <-. lia.
    + pose proof (StronglySorted_nth Hs Hij Hj Hi) as [H|[_ H]]; lia.
Qed.

(** ** The result when no answer was recorded *)

(** Binary64 holds every count below [2^53] as it is, and a quotient
    [n / n] of such a count is [1.0]. *)
Lemma div_eucl_div_mod (a b : Z) : Z.div_eucl a b = (a / b, a mod b).
Proof. unfold Z.div, Z.modulo. destruct (Z.div_eucl a b); reflexivity. Qed.

Lemma digits2_pos_lower (p : positive) :
  2 ^ (Z.pos (digits2_pos p) - 1) <= Z.pos p.
Proof.
  induction p as [p IH|p IH|]; simpl digits2_pos; [| |simpl; lia];
    rewrite Pos2Z.inj_succ;
    replace (Z.succ (Z.pos (digits2_pos p)) - 1)
      with (Z.succ (Z.pos (digits2_pos p) - 1)) by lia;
    rewrite Z.pow_succ_r by lia; lia.
Qed.

Lemma digits2_pos_bound (p : positive) :
  Z.pos p < 2 ^ 53 -> Z.pos (digits2_pos p) <= 53.
Proof.
  intros Hp. pose proof (digits2_pos_lower p) as Hl.
  destruct (Z.le_gt_cases (Z.pos (digits2_pos p)) 53) as [H|H]; [exact H|].
  assert (2 ^ 53 <= 2 ^ (Z.pos (digits2_pos p) - 1))
    by (apply Z.pow_le_mono_r; lia).
  lia.
Qed.

Lemma digits2_pos_iter (p k : positive) :
  digits2_pos (Pos.iter xO p k) = (digits2_pos p + k)%positive.
Proof.
  induction k as [|k IH] using Pos.peano_ind.
  - simpl. lia.
  - rewrite Pos.iter_succ. simpl. rewrite IH. lia.
Qed.

(** Rounding keeps a mantissa of 53 digits. *)
Lemma binary_round_aux_exact (m : positive) (e : Z) :
  Z.pos (digits2_pos m) = 53 -> -1074 <= e <= 971 ->
  binary_round_aux prec emax false (Z.pos m) e loc_Exact = S754_finite false m e.
Proof.
  intros Hd He.
  assert (Hf : fexp prec emax (Z.pos (digits2_pos m) + e) - e = 0).
  { rewrite Hd. unfold fexp, emin, prec, emax. lia. }
  unfold binary_round_aux, shr_fexp. cbn [shr_record_of_loc Zdigits2].
  rewrite Hf.
  cbn [shr shr_m loc_of_shr_record round_nearest_even shr_record_of_loc Zdigits2].
  rewrite Hf. cbn [shr shr_m].
  destruct (Z.leb_spec e (emax - prec)) as [_|H]; [reflexivity|].
  unfold emax, prec in H. lia.
Qed.

Lemma float_of_int_finite (z : Z) :
  0 < z < 2 ^ 53 ->
  exists m e, Prim2SF (float_of_int z) = S754_finite false m e.
Proof.
  intros Hz. unfold float_of_int. destruct (Z.ltb_spec z 0) as [|_]; [lia|].
  rewrite of_uint63_spec.
  assert (Hto : Uint63.to_Z (Uint63.of_Z z) = z).
  { rewrite Uint63.of_Z_spec. apply Z.mod_small.
    assert (2 ^ 53 < Uint63.wB) by reflexivity. lia. }
  change (Uint63Axioms.to_Z (Uint63.of_Z z)) with (Uint63.to_Z (Uint63.of_Z z)).
  rewrite Hto. destruct z as [|p|p]; try lia.
  unfold binary_normalize, binary_round.
  pose proof (@digits2_pos_bound p (proj2 Hz)) as Hd.
  assert (Hf : fexp prec emax (Z.pos (digits2_pos p) + 0)
               = Z.pos (digits2_pos p) - 53).
  { unfold fexp, emin, prec, emax. lia. }
  rewrite Hf. unfold shl_align.
  destruct (Z.pos (digits2_pos p) - 53 - 0) as [|k|k] eqn:Ek; try lia.
  - eexists _, _. apply binary_round_aux_exact; lia.
  - eexists _, _. apply binary_round_aux_exact; [|lia].
    rewrite digits2_pos_iter. lia.
Qed.

Lemma SFdiv_self (s : bool) (m : positive) (e : Z) :
  SFdiv prec emax (S754_finite s m e) (S754_finite s m e) = Prim2SF 1.
Proof.
  unfold SFdiv, SFdiv_core_binary. cbn [Zdigits2].
  replace (Z.pos (digits2_pos m) + e - (Z.pos (digits2_pos m) + e)) with 0 by lia.
  replace (e - e) with 0 by lia.
  change (Z.min (fexp prec emax 0) 0) with (-53).
  change (0 - -53) with 53.
  cbv iota beta.
  rewrite div_eucl_div_mod, Z.shiftl_mul_pow2 by lia.
  rewrite Z.mul_comm, Z.div_mul, Z.mod_mul by lia.
  replace (new_location (Z.pos m) 0) with loc_Exact
    by (unfold new_location; destruct (Z.even (Z.pos m)); reflexivity).
  destruct s; vm_compute; reflexivity.
Qed.

Lemma full_score_percentage (n : nat) :
  (0 < n)%nat -> Z.of_nat n < 2 ^ 53 ->
  format_number 1 (percentage (Int (Z.of_nat n)) n) = "100.0".
Proof.
  intros Hn Hb. unfold percentage.
  destruct (Nat.ltb_spec 0 n) as [_|]; [|lia].
  destruct (@float_of_int_finite (Z.of_nat n)) as (m & e & Hx); [lia|].
  assert (Hone : PrimFloat.div (float_of_int (Z.of_nat n)) (float_of_int (Z.of_nat n))
                 = 1%float).
  { apply Prim2SF_inj. rewrite FloatAxioms.div_spec, Hx. apply SFdiv_self. }
  cbn [py_truediv py_mul to_float]. rewrite Hone. reflexivity.
Qed.

Lemma rebuild_without_answers (sp : dict string poll_info) :
  (forall pid info, In (pid, info) sp -> answers info = []) ->
  rebuild_participants sp = [].
Proof.
  intros Hno. unfold rebuild_participants.
  apply (fold_left_invariant (fun parts => parts = [])); [reflexivity|].
  intros parts [pid info] -> Hin. simpl. now rewrite (Hno pid info Hin).
Qed.

(** C3, as the code has it.  If no answer is recorded in any sent poll
    when [end_quiz] runs, the quiz stores its requester (with an id other
    than [0]) and has [n >= 1] questions ([n] below [2^53], a count
    that binary64 holds as it is), then the leaderboard is the single
    entry of the requester with [correct = answered = n], and its line
    reads [n/n (100.0%)].  ([Original.py] produces results only for a quiz
    that is still marked active.) *)
Theorem creator_fallback_result
    (v : variant) (upd : Telegram.update) (q : quiz) (us : dict Z user_stats)
    (c : creator_info) :
  (v = Original -> active q = true) ->
  (forall pid info, In (pid, info) (sent_polls q) -> answers info = []) ->
  creator q = Some c ->
  creator_id c <> 0 ->
  questions q <> [] ->
  Z.of_nat (List.length (questions q)) < 2 ^ 53 ->
  let n := List.length (questions q) in
  let entry := {| name := creator_name c; username := creator_username c;
                  correct := Z.of_nat n; answered := Z.of_nat n;
                  negative_points := None |} in
  ranking (end_quiz v upd q us) = [(creator_id c, entry)]
  /\ final_table v upd q us = [(creator_id c, entry)]
  /\ sent_text (end_quiz v upd q us)
     = Some (results_message v n [(creator_id c, entry)])
  /\ result_line v n 0 entry
     = rank_emoji v 0 ++ " " ++ creator_name c ++ username_text entry ++ ": "
         ++ (str_nat n ++ "/" ++ str_nat n ++ " (100.0%)") ++ nl.
Proof.
  intros Hact Hno Hc Hid Hqs Hsmall n entry.
  assert (Hn : (0 < n)%nat).
  { unfold n. destruct (questions q); [congruence | simpl; lia]. }
  assert (Ht : creator_fallback q (rebuild_participants (sent_polls q))
               = [(creator_id c, entry)]).
  { rewrite (rebuild_without_answers _ Hno). unfold creator_fallback.
    rewrite Hc. destruct (Z.eqb_spec (creator_id c) 0); [contradiction|].
    reflexivity. }
  assert (He : end_quiz v upd q us
               = {| quiz_after := close_quiz q [(creator_id c, entry)];
                    users_after := fold_left count_quiz_taken [(creator_id c, entry)] us;
                    ranking := [(creator_id c, entry)];
                    sent_text := Some (results_message v n [(creator_id c, entry)]) |}).
  { unfold end_quiz.
    replace (match v with Original => negb (active q) | Lifechanger => false end)
      with false by (destruct v; [rewrite Hact|]; reflexivity).
    rewrite Ht. reflexivity. }
  unfold final_table. rewrite He. repeat split.
  unfold result_line.
  replace (score_text v entry n) with (plain_score entry n)
    by (destruct v; reflexivity).
  unfold plain_score, entry. cbn [correct name].
  rewrite (full_score_percentage Hn Hsmall). reflexivity.
Qed.

(** ** Repeated answers to one poll *)

Lemma tally_answered (uid : Z) (parts : dict Z participant) (e : Z * answer_record) :
  answered_of uid (tally parts e)
  = answered_of uid parts + (if uid =? fst e then 1 else 0).
Proof.
  destruct e as [u a]. unfold tally, answered_of. cbn [fst].
  destruct (Z.eqb_spec uid u) as [->|Hne].
  - rewrite dict_get_set_same. cbn [answered].
    destruct (dict_get u parts); reflexivity.
  - rewrite dict_get_set_other by congruence.
    destruct (dict_get uid parts); lia.
Qed.

Lemma fold_tally_answered (uid : Z) (ans : dict Z answer_record)
    (parts : dict Z participant) :
  answered_of uid (fold_left tally ans parts)
  = answered_of uid parts + Z.of_nat (count_key uid ans).
Proof.
  revert parts. unfold count_key.
  induction ans as [|e ans IH]; intros parts; simpl; [lia|].
  rewrite IH, tally_answered.
  change (key_eqb uid (fst e)) with (uid =? fst e).
  destruct (uid =? fst e); simpl List.length; lia.
Qed.

(** The reconstruction counts, for each user, the answer records held. *)
Lemma rebuild_answered (uid : Z) (sp : dict string poll_info) :
  answered_of uid (rebuild_participants sp) = Z.of_nat (answers_held uid sp).
Proof.
  unfold rebuild_participants, answers_held.
  assert (H : forall parts,
             answered_of uid
               (fold_left (fun parts entry => fold_left tally (answers (snd entry)) parts)
                          sp parts)
             = answered_of uid parts
               + Z.of_nat (list_sum (map (fun entry => count_key uid (answers (snd entry))) sp))).
  { induction sp as [|e sp IH]; intros parts; simpl; [lia|].
    rewrite IH, fold_tally_answered. lia. }
  rewrite H. reflexivity.
Qed.

(** Replacing the record of a poll changes the count by the difference of
    the two records. *)
Lemma answers_held_set (uid : Z) (pid : string) (info info' : poll_info)
    (sp : dict string poll_info) :
  dict_get pid sp = Some info ->
  (answers_held uid (dict_set pid info' sp) + count_key uid (answers info)
   = answers_held uid sp + count_key uid (answers info'))%nat.
Proof.
  unfold answers_held.
  induction sp as [|[k i] sp IH]; simpl; [discriminate|].
  destruct (String.eqb pid k) eqn:E; simpl.
  - intros Hi. injection Hi as Hi. subst i. lia.
  - intros Hg. specialize (IH Hg). lia.
Qed.

(** The effect of one recorded answer on what the sent polls hold for
    the answering user. *)
Lemma record_answer_held
    (v : variant) (ev : Telegram.poll_answer) (q : quiz)
    (info : poll_info) (question : question) :
  dict_get (Telegram.poll_id ev) (sent_polls q) = Some info ->
  nth_error (questions q) (question_index info) = Some question ->
  let uid := Telegram.id (Telegram.from_user ev) in
  let q' := fst (record_answer v ev q) in
  questions q' = questions q
  /\ active q' = active q
  /\ (exists info',
        dict_get (Telegram.poll_id ev) (sent_polls q') = Some info'
        /\ question_index info' = question_index info
        /\ (exists a, dict_get uid (answers info') = Some a))
  /\ answers_held uid (sent_polls q')
     = (answers_held uid (sent_polls q)
        + match dict_get uid (answers info) with Some _ => 0 | None => 1 end)%nat
  /\ snd (record_answer v ev q) <> None.
Proof.
  intros Hinfo Hq uid q'. unfold q', record_answer. rewrite Hinfo, Hq.
  cbn [fst snd questions active sent_polls]. fold uid.
  split; [reflexivity|]. split; [reflexivity|]. split.
  - eexists. split; [apply dict_get_set_same|]. cbn [question_index answers].
    split; [reflexivity|]. eexists. apply dict_get_set_same.
  - split; [|discriminate].
    match goal with
    | |- context [dict_set (Telegram.poll_id ev) ?i (sent_polls q)] =>
        pose proof (@answers_held_set uid _ _ i _ Hinfo) as Hset
    end.
    cbn [answers] in Hset.
    destruct (dict_get uid (answers info)) as [a|] eqn:Ea.
    + erewrite count_key_set_present in Hset by exact Ea. lia.
    + erewrite count_key_set_new, count_key_absent in Hset by exact Ea. lia.
Qed.

Lemma find_active_quiz_holds (pid : string) (uds : list (Z * option quiz))
    (owner : Z) (q : quiz) :
  find_active_quiz pid uds = Some (owner, q) ->
  active q = true /\ dict_in pid (sent_polls q) = true.
Proof.
  induction uds as [|[uid d] uds IH]; simpl; [discriminate|].
  destruct (holds_poll pid d) eqn:E; [|exact IH].
  destruct d as [q0|]; [|discriminate].
  intros [= <- <-]. simpl in E. now apply andb_true_iff in E.
Qed.

Lemma find_after_store (pid : string) (uds : list (Z * option quiz))
    (owner : Z) (q q' : quiz) :
  find_active_quiz pid uds = Some (owner, q) ->
  holds_poll pid (Some q') = true ->
  find_active_quiz pid (store_active_quiz pid q' uds) = Some (owner, q').
Proof.
  intros Hf Hh. induction uds as [|[uid d] uds IH]; [discriminate|].
  cbn [find_active_quiz store_active_quiz] in *.
  destruct (holds_poll pid d) eqn:E.
  - destruct d as [q0|]; [|discriminate]. injection Hf as <- <-.
    cbn [find_active_quiz]. now rewrite Hh.
  - cbn [find_active_quiz]. rewrite E. auto.
Qed.

(** A recorded answer is stored in the quiz that was found, which remains
    the quiz found for the poll. *)
Lemma poll_answer_found
    (v : variant) (ev : Telegram.poll_answer) (w : world)
    (owner : Z) (q : quiz) (info : poll_info) (question : question) :
  find_active_quiz (Telegram.poll_id ev) (user_data w) = Some (owner, q) ->
  dict_get (Telegram.poll_id ev) (sent_polls q) = Some info ->
  nth_error (questions q) (question_index info) = Some question ->
  find_active_quiz (Telegram.poll_id ev) (user_data (poll_answer v ev w))
  = Some (owner, fst (record_answer v ev q)).
Proof.
  intros Hf Hinfo Hq.
  destruct (record_answer_held v ev q Hinfo Hq) as (_ & Ha & (info' & Hi' & _) & _ & Hrec).
  unfold poll_answer. rewrite Hf.
  destruct (record_answer v ev q) as [q' [ok|]] eqn:Er; [|now elim Hrec].
  cbn [user_data fst] in *.
  eapply find_after_store; [exact Hf|]. simpl.
  destruct (find_active_quiz_holds _ _ Hf) as [Hact _].
  rewrite Ha, Hact. unfold dict_in. now rewrite Hi'.
Qed.

(** C5.  When [poll_answer] records an answer (the poll is registered
    with an active quiz and its question exists), the participant's ['answered'] goes up by one;
    ['correct'] goes up by one if the chosen option is the question's
    correct one and stays as it is otherwise; under the negative marking
    of [Lifechanger.py] an answer that is not correct adds the penalty
    [0.25] to the accumulated penalty, which no other answer changes
    (and which [Original.py] never writes); and a chosen option outside the
    question's options, for a question whose correct option is inside
    them, is counted as answered and not as correct. *)
Theorem recorded_answer_counts
    (v : variant) (ev : Telegram.poll_answer) (w : world) (owner : Z) (q : quiz)
    (info : poll_info) (question : question) :
  find_active_quiz (Telegram.poll_id ev) (user_data w) = Some (owner, q) ->
  dict_get (Telegram.poll_id ev) (sent_polls q) = Some info ->
  nth_error (questions q) (question_index info) = Some question ->
  let uid := Telegram.id (Telegram.from_user ev) in
  let chosen := hd_error (Telegram.option_ids ev) in
  let right := correct_answer_of question in
  let before := match dict_get uid (participants q) with
                | Some p => p
                | None => new_participant (Telegram.from_user ev)
                end in
  exists q' after,
    find_active_quiz (Telegram.poll_id ev) (user_data (poll_answer v ev w))
    = Some (owner, q')
    /\ dict_get uid (participants q') = Some after
    /\ answered after = answered before + 1
    /\ (chosen = Some right ->
          correct after = correct before + 1
          /\ negative_points after = negative_points before)
    /\ (chosen <> Some right ->
          correct after = correct before
          /\ negative_points after
             = match v with
               | Original => negative_points before
               | Lifechanger =>
                   Some (py_add (negative_points_of before) (Float 0.25))
               end)
    /\ (forall o, chosen = Some o ->
          0 <= right < Z.of_nat (List.length (q_options question)) ->
          ~ 0 <= o < Z.of_nat (List.length (q_options question)) ->
          correct after = correct before /\ answered after = answered before + 1).
Proof.
  intros Hf Hinfo Hq uid chosen right before.
  destruct (record_answer_counters v ev q Hinfo Hq) as (after & Hafter).
  exists (fst (record_answer v ev q)), after.
  split; [exact (poll_answer_found v ev w Hf Hinfo Hq) | exact Hafter].
Qed.

(** *** Any answers, in any order *)

Lemma dict_get_In_key (pid : string) (info : poll_info) (sp : dict string poll_info) :
  dict_get pid sp = Some info -> In (pid, info) sp.
Proof.
  induction sp as [|[k i] sp IH]; simpl; [discriminate|].
  destruct (String.eqb pid k) eqn:E.
  - apply String.eqb_eq in E. intros [= ->]. left. now subst.
  - intros Hg. right. now apply IH.
Qed.

Lemma dict_in_keys (pid : string) (sp sp' : dict string poll_info) :
  map fst sp' = map fst sp -> dict_in pid sp' = dict_in pid sp.
Proof.
  revert sp'. induction sp as [|[k i] sp IH]; intros [|[k' i'] sp']; simpl;
    try discriminate; [reflexivity|].
  intros [= -> Hk]. unfold dict_in in *. simpl.
  destruct (String.eqb pid k); [reflexivity | now apply IH].
Qed.

Lemma dict_in_set (uid u : Z) (a : answer_record) (d : dict Z answer_record) :
  dict_in uid (dict_set u a d) = dict_in uid d || (u =? uid).
Proof.
  unfold dict_in. destruct (Z.eqb_spec u uid) as [->|Hne].
  - rewrite dict_get_set_same. now rewrite orb_true_r.
  - rewrite dict_get_set_other by exact Hne. now rewrite orb_false_r.
Qed.

Lemma entry_after_none (e : string * poll_info) : entry_after [] e e.
Proof.
  repeat split; unfold first_answers; simpl;
    [now rewrite orb_false_r | rewrite andb_false_r; lia].
Qed.

(** An answer to another poll leaves the entry as it is. *)
Lemma entry_after_other (ev : Telegram.poll_answer) (e : string * poll_info) :
  Telegram.poll_id ev <> fst e -> entry_after [ev] e e.
Proof.
  intros Hne. repeat split; unfold first_answers, is_answer_of; simpl;
    replace (String.eqb (Telegram.poll_id ev) (fst e)) with false
      by (symmetry; now apply String.eqb_neq);
    simpl; [now rewrite orb_false_r | rewrite andb_false_r; lia].
Qed.

(** An answer to the poll of the entry sets the record of its sender. *)
Lemma entry_after_recorded (ev : Telegram.poll_answer) (info : poll_info)
    (a : answer_record) :
  entry_after [ev] (Telegram.poll_id ev, info)
    (Telegram.poll_id ev,
     {| question_index := question_index info;
        message_id := message_id info;
        info_poll_id := info_poll_id info;
        answers := dict_set (Telegram.id (Telegram.from_user ev)) a (answers info) |}).
Proof.
  split; [reflexivity|]. split; [reflexivity|]. intros uid.
  unfold first_answers, is_answer_of. cbn [fst snd answers existsb].
  rewrite String.eqb_refl, orb_false_r. cbn [andb]. split; [apply dict_in_set|].
  destruct (Z.eqb_spec (Telegram.id (Telegram.from_user ev)) uid) as [->|Hne].
  - unfold dict_in. destruct (dict_get uid (answers info)) as [a0|] eqn:Ea; cbn [negb andb].
    + erewrite count_key_set_present by exact Ea. lia.
    + erewrite count_key_set_new by exact Ea. erewrite count_key_absent by exact Ea. lia.
  - rewrite count_key_set_other by exact Hne. rewrite andb_false_r. lia.
Qed.

(** The answers of a list after one answer. *)
Lemma entry_after_cons (ev : Telegram.poll_answer) (evs : list Telegram.poll_answer)
    (e e1 e' : string * poll_info) :
  entry_after [ev] e e1 -> entry_after evs e1 e' -> entry_after (ev :: evs) e e'.
Proof.
  intros (Hk1 & Hi1 & H1) (Hk2 & Hi2 & H2).
  split; [congruence|]. split; [congruence|]. intros uid.
  destruct (H1 uid) as [Hin1 Hc1]. destruct (H2 uid) as [Hin2 Hc2].
  unfold first_answers in *. rewrite Hk1 in *. cbn [existsb] in *.
  rewrite orb_false_r in *. rewrite Hin2, Hc2, Hin1, Hc1.
  destruct (dict_in uid (answers (snd e))), (is_answer_of (fst e) uid ev),
    (existsb (is_answer_of (fst e) uid) evs); simpl; split; reflexivity || lia.
Qed.

Lemma Forall2_compose {A : Type} (R S T : A -> A -> Prop) (l1 l2 l3 : list A) :
  (forall a b c, R a b -> S b c -> T a c) ->
  Forall2 R l1 l2 -> Forall2 S l2 l3 -> Forall2 T l1 l3.
Proof.
  intros Hrst H12. revert l3. induction H12 as [|a b l1 l2 Hab H12 IH];
    intros l3 H23; inversion H23; subst; constructor; eauto.
Qed.

Lemma entries_after_keys (evs : list Telegram.poll_answer)
    (sp sp' : dict string poll_info) :
  Forall2 (entry_after evs) sp sp' ->
  map fst sp' = map fst sp
  /\ map (fun e => question_index (snd e)) sp'
     = map (fun e => question_index (snd e)) sp.
Proof.
  induction 1 as [|e e' sp sp' (Hk & Hi & _) _ [IHk IHi]]; simpl; [now split|].
  now rewrite Hk, Hi, IHk, IHi.
Qed.

(** A poll that is not among the sent polls leaves them all as they are. *)
Lemma entries_after_unknown (ev : Telegram.poll_answer) (sp : dict string poll_info) :
  dict_get (Telegram.poll_id ev) sp = None -> Forall2 (entry_after [ev]) sp sp.
Proof.
  intros Hg. pose proof (dict_get_none_keys _ _ Hg) as Hno.
  clear Hg. induction sp as [|e sp IH]; constructor.
  - apply entry_after_other. intros Heq. apply Hno. left. now rewrite Heq.
  - apply IH. intros Hin. apply Hno. now right.
Qed.

(** An answer to one of the sent polls changes the record of its sender in
    that poll, and nothing else. *)
Lemma entries_after_recorded (ev : Telegram.poll_answer) (info : poll_info)
    (a : answer_record) (sp : dict string poll_info) :
  NoDup (map fst sp) ->
  dict_get (Telegram.poll_id ev) sp = Some info ->
  Forall2 (entry_after [ev]) sp
    (dict_set (Telegram.poll_id ev)
       {| question_index := question_index info;
          message_id := message_id info;
          info_poll_id := info_poll_id info;
          answers := dict_set (Telegram.id (Telegram.from_user ev)) a (answers info) |}
       sp).
Proof.
  induction sp as [|[k i] sp IH]; simpl; [discriminate|].
  intros Hnd Hg. inversion Hnd as [|? ? Hk Hrest]; subst.
  destruct (String.eqb (Telegram.poll_id ev) k) eqn:E.
  - apply String.eqb_eq in E. subst k. injection Hg as ->. constructor.
    + apply entry_after_recorded.
    + apply entries_after_unknown. now apply dict_get_not_key.
  - constructor; [|now apply IH].
    apply entry_after_other. simpl. now apply String.eqb_neq.
Qed.

(** The answer records held for a user after the answers of a list. *)
Lemma entries_after_held (uid : Z) (evs : list Telegram.poll_answer)
    (sp sp' : dict string poll_info) :
  Forall2 (entry_after evs) sp sp' ->
  answers_held uid sp'
  = (answers_held uid sp + List.length (filter (first_answers uid evs) sp))%nat.
Proof.
  unfold answers_held.
  induction 1 as [|e e' sp sp' (_ & _ & He) _ IH]; simpl; [reflexivity|].
  destruct (He uid) as [_ Hc]. rewrite Hc, IH.
  destruct (first_answers uid evs e); simpl; lia.
Qed.

Lemma entries_after_get (evs : list Telegram.poll_answer) (pid : string)
    (info : poll_info) (sp sp' : dict string poll_info) :
  Forall2 (entry_after evs) sp sp' ->
  dict_get pid sp = Some info ->
  exists info',
    dict_get pid sp' = Some info' /\ entry_after evs (pid, info) (pid, info').
Proof.
  induction 1 as [|[k i] [k' i'] sp sp' He _ IH]; simpl; [discriminate|].
  pose proof He as (Hk & _). simpl in Hk. subst k'.
  destruct (String.eqb pid k) eqn:E; [|exact IH].
  apply String.eqb_eq in E. subst k. intros [= ->]. eauto.
Qed.

(** What [record_answer] keeps of a quiz. *)
Lemma record_answer_holds (v : variant) (ev : Telegram.poll_answer) (q : quiz) :
  forall pid,
    holds_poll pid (Some (fst (record_answer v ev q))) = holds_poll pid (Some q).
Proof.
  intros pid. unfold record_answer.
  destruct (dict_get (Telegram.poll_id ev) (sent_polls q)) as [info|] eqn:Ei;
    [|reflexivity].
  destruct (nth_error (questions q) (question_index info)); [|reflexivity].
  cbn [fst holds_poll active sent_polls]. f_equal.
  apply dict_in_keys. rewrite dict_set_keys. now rewrite Ei.
Qed.

(** Storing a quiz for another poll leaves the search for this one. *)
Lemma find_store_other (p pid : string) (uds : list (Z * option quiz))
    (owner o2 : Z) (q q2 q2' : quiz) :
  find_active_quiz p uds = Some (owner, q) ->
  holds_poll pid (Some q) = false ->
  find_active_quiz pid uds = Some (o2, q2) ->
  holds_poll p (Some q2') = holds_poll p (Some q2) ->
  find_active_quiz p (store_active_quiz pid q2' uds) = Some (owner, q).
Proof.
  intros Hp Hno Hpid Hsame. induction uds as [|[uid d] uds IH]; [discriminate|].
  cbn [find_active_quiz store_active_quiz] in *.
  destruct (holds_poll pid d) eqn:Ed.
  - destruct d as [qd|]; [|discriminate]. injection Hpid as <- <-.
    cbn [find_active_quiz]. rewrite Hsame.
    destruct (holds_poll p (Some qd)) eqn:Ep; [|exact Hp].
    injection Hp as <- <-. congruence.
  - cbn [find_active_quiz]. destruct (holds_poll p d); [exact Hp | now apply IH].
Qed.

(** Storing the quiz that holds this poll too. *)
Lemma find_store_same (p pid : string) (uds : list (Z * option quiz))
    (owner : Z) (q q1 : quiz) :
  find_active_quiz p uds = Some (owner, q) ->
  find_active_quiz pid uds = Some (owner, q) ->
  holds_poll p (Some q1) = true ->
  find_active_quiz p (store_active_quiz pid q1 uds) = Some (owner, q1).
Proof.
  intros Hp Hpid Hq1. induction uds as [|[uid d] uds IH]; [discriminate|].
  cbn [find_active_quiz store_active_quiz] in *.
  destruct (holds_poll pid d) eqn:Ed.
  - destruct d as [qd|]; [|discriminate]. injection Hpid as <- <-.
    cbn [find_active_quiz]. now rewrite Hq1.
  - cbn [find_active_quiz]. destruct (holds_poll p d) eqn:Ep; [|now apply IH].
    destruct d as [qd|]; [|discriminate]. injection Hp as <- <-.
    destruct (find_active_quiz_holds _ _ Hpid) as [Ha Hin].
    simpl in Ed. rewrite Ha, Hin in Ed. discriminate.
Qed.

(** One answer, whatever poll it is for and whoever sent it. *)
Lemma one_answer_delivered (v : variant) (ev : Telegram.poll_answer) (w : world)
    (owner : Z) (q : quiz) :
  resolves_to w owner q ->
  polls_in_range q ->
  NoDup (map fst (sent_polls q)) ->
  exists q1,
    resolves_to (poll_answer v ev w) owner q1
    /\ questions q1 = questions q
    /\ Forall2 (entry_after [ev]) (sent_polls q) (sent_polls q1).
Proof.
  intros Hres Hrange Hnd.
  destruct (dict_get (Telegram.poll_id ev) (sent_polls q)) as [info|] eqn:Ei.
  - assert (Hfind : find_active_quiz (Telegram.poll_id ev) (user_data w)
                    = Some (owner, q))
      by (apply Hres; unfold dict_in; now rewrite Ei).
    assert (Hq : exists question,
               nth_error (questions q) (question_index info) = Some question).
    { unfold polls_in_range in Hrange. rewrite Forall_forall in Hrange.
      specialize (Hrange _ (dict_get_In_key _ _ Ei)). cbn [snd] in Hrange.
      destruct (nth_error (questions q) (question_index info)) eqn:En; [eauto|].
      apply nth_error_None in En. lia. }
    destruct Hq as [question Hq].
    pose proof (record_answer_holds v ev q) as Hholds.
    unfold poll_answer. rewrite Hfind.
    unfold record_answer in *. rewrite Ei, Hq in *. cbn [fst] in Hholds.
    match goal with
    | |- context [store_active_quiz _ ?Q _] => exists Q
    end.
    split; [|split; [reflexivity|]].
    + intros p Hp. cbn [user_data].
      cbn [sent_polls] in Hp.
      assert (Hp0 : dict_in p (sent_polls q) = true).
      { rewrite <- Hp. symmetry. apply dict_in_keys.
        rewrite dict_set_keys. now rewrite Ei. }
      apply find_store_same with (q := q); [now apply Hres | exact Hfind |].
      rewrite Hholds. destruct (find_active_quiz_holds _ _ Hfind) as [Ha _].
      simpl. now rewrite Ha, Hp0.
    + cbn [sent_polls]. now apply entries_after_recorded.
  - exists q. split; [|split; [reflexivity | now apply entries_after_unknown]].
    intros p Hp. specialize (Hres p Hp). unfold poll_answer.
    destruct (find_active_quiz (Telegram.poll_id ev) (user_data w))
      as [[o2 q2]|] eqn:Ef; [|exact Hres].
    pose proof (record_answer_holds v ev q2 p) as Hholds.
    destruct (record_answer v ev q2) as [q2' [ok|]]; [|exact Hres].
    cbn [user_data fst] in *.
    eapply find_store_other; [exact Hres | | exact Ef | exact Hholds].
    simpl. unfold dict_in. rewrite Ei. apply andb_false_r.
Qed.

(** Any answers, delivered one after the other. *)
Lemma answers_delivered (v : variant) (evs : list Telegram.poll_answer) :
  forall (w : world) (owner : Z) (q : quiz),
    resolves_to w owner q ->
    polls_in_range q ->
    NoDup (map fst (sent_polls q)) ->
    exists q',
      resolves_to (deliver v evs w) owner q'
      /\ questions q' = questions q
      /\ Forall2 (entry_after evs) (sent_polls q) (sent_polls q').
Proof.
  induction evs as [|ev evs IH]; intros w owner q Hres Hrange Hnd.
  - exists q. split; [exact Hres|]. split; [reflexivity|].
    clear. induction (sent_polls q); constructor; [apply entry_after_none | assumption].
  - destruct (one_answer_delivered v ev Hres Hrange Hnd) as (q1 & Hres1 & Hqs1 & H1).
    destruct (entries_after_keys H1) as [Hk1 Hi1].
    assert (Hrange1 : polls_in_range q1).
    { unfold polls_in_range in *. rewrite Hqs1.
      rewrite Forall_forall in *. intros e He.
      apply (in_map (fun e => question_index (snd e))) in He. rewrite Hi1 in He.
      apply in_map_iff in He. destruct He as (e0 & <- & He0). now apply Hrange. }
    assert (Hnd1 : NoDup (map fst (sent_polls q1))) by now rewrite Hk1.
    destruct (IH _ _ _ Hres1 Hrange1 Hnd1) as (q' & Hres' & Hqs' & H').
    exists q'. split; [exact Hres'|]. split; [congruence|].
    eapply Forall2_compose; [|exact H1 | exact H']. intros a b c. apply entry_after_cons.
Qed.

(** C2.  Whatever answers are delivered, from whichever users, to whichever
    polls and in whichever order, each poll of a quiz holds afterwards one
    answer record more for a user exactly when that user had none and has
    answered it, however many times; so the ['answered'] count that the
    final table of [end_quiz] holds for a user rises by one for each
    question that the user has answered for the first time, and by
    nothing for the repeated answers. *)
Theorem repeated_answers_count_once
    (v : variant) (evs : list Telegram.poll_answer) (w : world)
    (owner : Z) (q : quiz) :
  resolves_to w owner q ->
  polls_in_range q ->
  NoDup (map fst (sent_polls q)) ->
  exists q',
    resolves_to (deliver v evs w) owner q'
    /\ questions q' = questions q
    /\ map fst (sent_polls q') = map fst (sent_polls q)
    /\ (forall pid info,
          dict_get pid (sent_polls q) = Some info ->
          exists info',
            dict_get pid (sent_polls q') = Some info'
            /\ forall uid,
                 count_key uid (answers info')
                 = (count_key uid (answers info)
                    + if negb (dict_in uid (answers info))
                         && existsb (is_answer_of pid uid) evs
                      then 1 else 0)%nat)
    /\ forall uid,
         answers_held uid (sent_polls q')
         = (answers_held uid (sent_polls q) + newly_answered uid evs q)%nat
         /\ forall upd us,
              (0 < answers_held uid (sent_polls q) + newly_answered uid evs q)%nat ->
              answered_of uid (final_table v upd q' us)
              = Z.of_nat (answers_held uid (sent_polls q))
                + Z.of_nat (newly_answered uid evs q).
Proof.
  intros Hres Hrange Hnd.
  destruct (answers_delivered v evs Hres Hrange Hnd) as (q' & Hres' & Hqs & Hafter).
  exists q'. split; [exact Hres'|]. split; [exact Hqs|].
  split; [apply (entries_after_keys Hafter)|]. split.
  - intros pid info Hinfo.
    destruct (entries_after_get pid Hafter Hinfo) as (info' & Hg & _ & _ & He).
    exists info'. split; [exact Hg|]. intros uid. apply (He uid).
  - intros uid.
    pose proof (entries_after_held uid Hafter) as Hheld.
    fold (newly_answered uid evs q) in Hheld. split; [exact Hheld|].
    intros upd us Hpos.
    assert (Hreb : answered_of uid (rebuild_participants (sent_polls q'))
                   = Z.of_nat (answers_held uid (sent_polls q))
                     + Z.of_nat (newly_answered uid evs q))
      by (rewrite rebuild_answered, Hheld; lia).
    assert (Hact : active q' = true).
    { destruct (sent_polls q') as [|[pid info] sp] eqn:Es.
      - change (answers_held uid []) with 0%nat in Hheld. lia.
      - destruct (find_active_quiz_holds pid (user_data (deliver v evs w))
                    (owner := owner) (q := q')) as [Ha _]; [|exact Ha].
        apply Hres'. rewrite Es. unfold dict_in. simpl.
        now rewrite String.eqb_refl. }
    unfold final_table, end_quiz. rewrite Hact.
    replace (match v with Original => negb true | Lifechanger => false end)
      with false by (destruct v; reflexivity).
    unfold creator_fallback.
    destruct (rebuild_participants (sent_polls q')) as [|e parts] eqn:Et.
    + unfold answered_of in Hreb at 1. simpl in Hreb. lia.
    + cbn [quiz_after close_quiz participants]. exact Hreb.
Qed.

(** ** Bounds on the counts *)

Lemma tally_table (parts : dict Z participant) (entry : Z * answer_record) :
  NoDup (map fst parts) /\ Forall counts_in_order parts ->
  NoDup (map fst (tally parts entry)) /\ Forall counts_in_order (tally parts entry).
Proof.
  intros [Hnd Hc]. destruct entry as [uid a]. unfold tally.
  split; [now apply dict_set_nodup|].
  rewrite Forall_forall in *. intros e He.
  apply In_dict_set in He. destruct He as [He|He]; [auto|].
  unfold counts_in_order. rewrite He. cbn [correct answered].
  assert (Hp : 0 <= correct match dict_get uid parts with
                            | Some p => p
                            | None => {| name := user_name a; username := answer_username a;
                                         correct := 0; answered := 0;
                                         negative_points := None |}
                            end
               <= answered match dict_get uid parts with
                           | Some p => p
                           | None => {| name := user_name a; username := answer_username a;
                                        correct := 0; answered := 0;
                                        negative_points := None |}
                           end).
  { destruct (dict_get uid parts) as [p|] eqn:Eg; [|simpl; lia].
    destruct (dict_get_In _ _ Eg) as [k Hk]. apply (Hc _ Hk). }
  destruct (is_correct a); lia.
Qed.

Lemma rebuild_table (sp : dict string poll_info) :
  NoDup (map fst (rebuild_participants sp))
  /\ Forall counts_in_order (rebuild_participants sp).
Proof.
  unfold rebuild_participants.
  apply (fold_left_invariant
           (fun parts => NoDup (map fst parts) /\ Forall counts_in_order parts)).
  - split; constructor.
  - intros parts entry Hparts _.
    apply (fold_left_invariant
             (fun parts => NoDup (map fst parts) /\ Forall counts_in_order parts));
      [exact Hparts|].
    intros; now apply tally_table.
Qed.

Lemma answers_held_le (uid : Z) (sp : dict string poll_info) :
  Forall (fun entry => forall u, (count_key u (answers (snd entry)) <= 1)%nat) sp ->
  (answers_held uid sp <= List.length sp)%nat.
Proof.
  unfold answers_held. induction 1 as [|e sp He Hsp IH]; simpl; [lia|].
  specialize (He uid). lia.
Qed.

(** The table that [end_quiz] ranks, for a quiz in a session. *)
Lemma final_table_bounds (q : quiz) :
  session_invariant q ->
  Forall (fun e => counts_in_order e
                   /\ answered (snd e) <= Z.of_nat (List.length (questions q)))
         (creator_fallback q (rebuild_participants (sent_polls q))).
Proof.
  intros (_ & Hlen & Hone).
  destruct (rebuild_table (sent_polls q)) as [Hnd Hc].
  assert (Hr : Forall (fun e => counts_in_order e
                         /\ answered (snd e) <= Z.of_nat (List.length (questions q)))
                      (rebuild_participants (sent_polls q))).
  { pose proof (fun u => answers_held_le u Hone) as Hheld.
    rewrite Forall_forall in *. intros [u p] He. split; [auto|].
    pose proof (In_nodup_get _ _ _ Hnd He) as Hg.
    pose proof (rebuild_answered u (sent_polls q)) as Ha.
    unfold answered_of in Ha. rewrite Hg in Ha. cbn [snd]. rewrite Ha.
    specialize (Hheld u). lia. }
  unfold creator_fallback.
  destruct (rebuild_participants (sent_polls q)); [|exact Hr].
  destruct (creator q) as [c|]; [|constructor].
  destruct (creator_id c =? 0); constructor; [|constructor].
  unfold counts_in_order. simpl. lia.
Qed.

Lemma new_quiz_invariant (selected : list question) (chat : Z)
    (requester : option Telegram.user) :
  session_invariant (new_quiz selected chat requester).
Proof.
  unfold session_invariant, new_quiz; simpl.
  repeat split; try constructor; lia.
Qed.

Lemma record_answer_invariant (v : variant) (ev : Telegram.poll_answer) (q : quiz) :
  session_invariant q -> session_invariant (fst (record_answer v ev q)).
Proof.
  intros (Hlive & Hlen & Hone). unfold record_answer.
  destruct (dict_get (Telegram.poll_id ev) (sent_polls q)) as [info|] eqn:Hinfo;
    [|now repeat split].
  destruct (nth_error (questions q) (question_index info)) as [question|];
    [|now repeat split].
  unfold session_invariant.
  cbn [fst participants current_index questions sent_polls].
  split; [|split].
  - rewrite Forall_forall in *. intros e He.
    apply In_dict_set in He. destruct He as [He|He]; [auto|].
    unfold counts_in_order. rewrite He.
    set (p := match dict_get _ (participants q) with
              | Some p => p
              | None => new_participant (Telegram.from_user ev)
              end).
    assert (Hp : 0 <= correct p <= answered p).
    { unfold p.
      destruct (dict_get _ (participants q)) as [p0|] eqn:Eg; [|simpl; lia].
      destruct (dict_get_In _ _ Eg) as [k Hk]. apply (Hlive _ Hk). }
    unfold count_answer.
    destruct (answer_is_correct ev (correct_answer_of question));
      cbn [correct answered]; lia.
  - erewrite dict_set_length_present by exact Hinfo. exact Hlen.
  - rewrite Forall_forall in *. intros e He u.
    apply In_dict_set in He. destruct He as [He|He]; [auto|].
    rewrite He. cbn [answers].
    destruct (dict_get_In _ _ Hinfo) as [k Hk]. specialize (Hone _ Hk).
    cbn [snd] in Hone.
    set (uid := Telegram.id (Telegram.from_user ev)).
    destruct (Z.eq_dec uid u) as [<-|Hne].
    + destruct (dict_get uid (answers info)) eqn:Ea.
      * erewrite count_key_set_present by exact Ea. apply Hone.
      * erewrite count_key_set_new by exact Ea. lia.
    + rewrite count_key_set_other by exact Hne. apply Hone.
Qed.

Lemma end_quiz_invariant (v : variant) (upd : Telegram.update) (q : quiz)
    (us : dict Z user_stats) :
  session_invariant q ->
  session_invariant (quiz_after (end_quiz v upd q us))
  /\ questions (quiz_after (end_quiz v upd q us)) = questions q.
Proof.
  intros Hinv. pose proof (final_table_bounds Hinv) as Hfinal.
  destruct Hinv as (Hlive & Hlen & Hone).
  assert (Hclose : session_invariant
                     (close_quiz q (creator_fallback q
                                      (rebuild_participants (sent_polls q))))).
  { repeat split; try assumption; try apply Hlen.
    cbn [close_quiz participants].
    eapply Forall_impl; [|exact Hfinal]. now intros e [He _]. }
  unfold end_quiz.
  destruct (match v with Original => negb (active q) | Lifechanger => false end);
    [now repeat split|].
  destruct (creator_fallback q (rebuild_participants (sent_polls q)));
    split; try exact Hclose; reflexivity.
Qed.

Lemma send_next_question_invariant (v : variant) (upd : Telegram.update)
    (sent : Telegram.sent_message) (q : quiz) (us : dict Z user_stats) :
  session_invariant q ->
  session_invariant (quiz_after (send_next_question v upd sent q us))
  /\ questions (quiz_after (send_next_question v upd sent q us)) = questions q.
Proof.
  intros Hinv.
  assert (Hn : session_invariant (note_creator upd q)
               /\ questions (note_creator upd q) = questions q).
  { unfold note_creator. destruct (creator q); [now split|].
    destruct (Telegram.effective_user upd) as [u|]; [|now split].
    destruct (Telegram.id u =? 0); now split. }
  destruct Hn as [Hn Hnq]. unfold send_next_question.
  destruct (Nat.leb_spec (List.length (questions (note_creator upd q)))
                         (current_index (note_creator upd q))) as [Hle|Hlt].
  - assert (Hf : session_invariant (force_active v (note_creator upd q))
                 /\ questions (force_active v (note_creator upd q))
                    = questions (note_creator upd q))
      by (destruct v; now split).
    destruct Hf as [Hf Hfq].
    destruct (end_quiz_invariant v upd us Hf) as [He Heq].
    split; [exact He | congruence].
  - cbn [quiz_after]. split; [|exact Hnq].
    destruct Hn as (Hlive & Hlen & Hone).
    unfold session_invariant, register_poll.
    cbn [participants current_index questions sent_polls].
    split; [exact Hlive|]. split.
    + pose proof (dict_set_length (Telegram.sent_poll_id sent)
                    {| question_index := current_index (note_creator upd q);
                       message_id := Telegram.sent_message_id sent;
                       info_poll_id := Telegram.sent_poll_id sent;
                       answers := [] |} (sent_polls (note_creator upd q))).
      lia.
    + rewrite Forall_forall in *. intros e He u.
      apply In_dict_set in He. destruct He as [He|He]; [auto|].
      rewrite He. cbn. lia.
Qed.

Lemma record_answer_questions (v : variant) (ev : Telegram.poll_answer) (q : quiz) :
  questions (fst (record_answer v ev q)) = questions q.
Proof.
  unfold record_answer.
  destruct (dict_get (Telegram.poll_id ev) (sent_polls q)) as [info|]; [|reflexivity].
  destruct (nth_error (questions q) (question_index info)); reflexivity.
Qed.

(** An answer leaves the quiz of a session as it is or as [record_answer]
    makes it. *)
Lemma answer_step_quiz (v : variant) (owner : Z) (ev : Telegram.poll_answer)
    (q : quiz) (us : dict Z user_stats) :
  fst (do_step v owner (q, us) (Answer ev)) = q
  \/ fst (do_step v owner (q, us) (Answer ev)) = fst (record_answer v ev q).
Proof.
  unfold do_step, poll_answer. cbn [user_data find_active_quiz].
  destruct (holds_poll (Telegram.poll_id ev) (Some q)) eqn:Eh; [|now left].
  destruct (record_answer v ev q) as [q' [ok|]]; [|now left].
  right. cbn [user_data store_active_quiz fst]. now rewrite Eh.
Qed.

Lemma do_step_invariant (v : variant) (owner : Z) (s : step) (st : state) :
  session_invariant (fst st) ->
  session_invariant (fst (do_step v owner st s))
  /\ questions (fst (do_step v owner st s)) = questions (fst st).
Proof.
  destruct st as [q us]. cbn [fst]. intros Hinv. destruct s as [upd sent|ev].
  - apply send_next_question_invariant, Hinv.
  - destruct (answer_step_quiz v owner ev q us) as [-> | ->].
    + now split.
    + split; [now apply record_answer_invariant | apply record_answer_questions].
Qed.

Lemma run_invariant (v : variant) (owner : Z) (steps : list step) (st : state) :
  session_invariant (fst st) ->
  session_invariant (fst (run v owner steps st))
  /\ questions (fst (run v owner steps st)) = questions (fst st).
Proof.
  revert st. unfold run.
  induction steps as [|s steps IH]; intros st Hinv; simpl; [now split|].
  destruct (do_step_invariant v owner s st Hinv) as [Hs Hq].
  destruct (IH _ Hs) as [Hr Hrq]. split; [exact Hr | congruence].
Qed.

(** C7, as the code has it.  At every point of a session (after any
    sequence of questions sent and answers delivered, from the quiz that
    [start_quiz] stores) every entry of the live participants table has
    [0 <= correct <= answered], and every entry that [end_quiz] would
    rank there has [0 <= correct <= answered <= n], where [n] is the
    number of questions the session was started with. *)
Theorem counts_within_bounds
    (v : variant) (owner : Z) (selected : list question) (chat : Z)
    (requester : option Telegram.user) (us0 : dict Z user_stats)
    (steps : list step) :
  let st := run v owner steps (new_quiz selected chat requester, us0) in
  questions (fst st) = selected
  /\ Forall counts_in_order (participants (fst st))
  /\ forall upd,
       Forall (fun e => counts_in_order e
                        /\ answered (snd e) <= Z.of_nat (List.length selected))
              (ranking (end_quiz v upd (fst st) (snd st))).
Proof.
  intros st.
  destruct (run_invariant v owner steps (new_quiz selected chat requester, us0)
              (new_quiz_invariant selected chat requester)) as [Hinv Hq].
  fold st in Hinv, Hq. cbn [fst questions new_quiz] in Hq.
  split; [exact Hq|]. split; [apply Hinv|].
  intros upd. pose proof (final_table_bounds Hinv) as Hfinal. rewrite Hq in Hfinal.
  unfold end_quiz.
  destruct (match v with Original => negb (active (fst st)) | Lifechanger => false end);
    [constructor|].
  destruct (creator_fallback (fst st) (rebuild_participants (sent_polls (fst st))))
    as [|e parts] eqn:Et; [constructor|]. cbn [ranking].
  eapply Permutation_Forall; [apply sorted_participants_perm | exact Hfinal].
Qed.

(** ** Numbers written out and read back *)

Lemma digits_value_nonneg (s : string) (acc : Z) :
  0 <= acc -> all_digits s = true -> 0 <= digits_value acc s.
Proof.
  revert acc. induction s as [|c s IH]; simpl; intros acc Hacc Hd; [exact Hacc|].
  apply andb_true_iff in Hd. destruct Hd as [Hc Hs].
  apply IH; [|exact Hs].
  unfold is_digit in Hc. apply andb_true_iff in Hc. destruct Hc as [Hlo _].
  apply Nat.leb_le in Hlo. lia.
Qed.

Lemma digits_value_of_uint_acc (d : Decimal.uint) (p : positive) :
  digits_value (Z.pos p) (NilEmpty.string_of_uint d) = Z.pos (Pos.of_uint_acc d p).
Proof.
  revert p.
  induction d; intros p; cbn [NilEmpty.string_of_uint digits_value Pos.of_uint_acc];
    try reflexivity; rewrite <- IHd; f_equal;
    match goal with
    | |- context [Z.of_nat (nat_of_ascii ?c)] =>
        let n := eval vm_compute in (Z.of_nat (nat_of_ascii c)) in
        change (Z.of_nat (nat_of_ascii c)) with n
    end; lia.
Qed.

Lemma digits_value_of_uint (d : Decimal.uint) :
  digits_value 0 (NilEmpty.string_of_uint d) = Z.of_N (Pos.of_uint d).
Proof.
  induction d; cbn [NilEmpty.string_of_uint digits_value Pos.of_uint];
    try reflexivity; try exact IHd; apply digits_value_of_uint_acc.
Qed.

Lemma all_digits_string_of_uint (d : Decimal.uint) :
  all_digits (NilEmpty.string_of_uint d) = true.
Proof. induction d; simpl; auto. Qed.

(** The decimal digits of a positive number: not empty, all digits, and
    worth the number. *)
Lemma digits_of_positive (p : positive) :
  exists c s,
    NilEmpty.string_of_uint (Pos.to_uint p) = String c s
    /\ is_digit c = true
    /\ all_digits s = true
    /\ digits_value 0 (String c s) = Z.pos p.
Proof.
  pose proof (all_digits_string_of_uint (Pos.to_uint p)) as Hall.
  pose proof (digits_value_of_uint (Pos.to_uint p)) as Hval.
  rewrite DecimalPos.Unsigned.of_to in Hval.
  pose proof (DecimalPos.Unsigned.to_uint_nonnil p) as Hnil.
  destruct (NilEmpty.string_of_uint (Pos.to_uint p)) as [|c s] eqn:Es.
  - exfalso. apply Hnil. now destruct (Pos.to_uint p).
  - exists c, s. simpl in Hall. apply andb_prop in Hall.
    repeat split; tauto.
Qed.

Lemma str_int_positive (p : positive) :
  str_int (Z.pos p) = NilEmpty.string_of_uint (Pos.to_uint p).
Proof.
  unfold str_int. simpl. unfold NilZero.string_of_uint.
  pose proof (DecimalPos.Unsigned.to_uint_nonnil p).
  now destruct (Pos.to_uint p).
Qed.

Lemma str_int_negative (p : positive) :
  str_int (Z.neg p) = String "-" (NilEmpty.string_of_uint (Pos.to_uint p)).
Proof.
  unfold str_int. simpl. f_equal. unfold NilZero.string_of_uint.
  pose proof (DecimalPos.Unsigned.to_uint_nonnil p).
  now destruct (Pos.to_uint p).
Qed.

Lemma is_digit_not_sign (c : ascii) :
  is_digit c = true -> c <> "-"%char /\ c <> "+"%char /\ c <> "_"%char /\ c <> "="%char.
Proof. intros Hc. repeat split; intros ->; discriminate. Qed.

Lemma digits_all_digits (s : string) (acc : Z) :
  all_digits s = true -> PyText.digits acc true s = Some (digits_value acc s).
Proof.
  revert acc. induction s as [|c s IH]; intros acc; simpl; [reflexivity|].
  intros Hd. apply andb_prop in Hd. destruct Hd as [Hc Hs].
  rewrite Hc. now apply IH.
Qed.

Lemma digits_of_number (c : ascii) (s : string) :
  is_digit c = true -> all_digits s = true ->
  PyText.digits 0 false (String c s) = Some (digits_value 0 (String c s)).
Proof.
  intros Hc Hs. cbn [PyText.digits digits_value]. rewrite Hc.
  now apply digits_all_digits.
Qed.

Lemma is_digit_not_space (c : ascii) : is_digit c = true -> PyText.is_int_space c = false.
Proof.
  unfold is_digit, PyText.is_int_space. intros Hc.
  apply andb_prop in Hc. destruct Hc as [Hlo Hhi].
  apply Nat.leb_le in Hlo. apply Nat.leb_le in Hhi.
  destruct (Nat.leb_spec 9 (nat_of_ascii c)); destruct (Nat.leb_spec (nat_of_ascii c) 13);
    destruct (Nat.eqb_spec (nat_of_ascii c) 32); simpl; try reflexivity; lia.
Qed.

(** [int(str(z)) == z], for the [int] that also skips white space and
    reads underscores. *)
Lemma int_str_int (z : Z) : PyText.int (str_int z) = Some z.
Proof.
  destruct z as [|p|p].
  - reflexivity.
  - rewrite str_int_positive.
    destruct (digits_of_positive p) as (c & s & -> & Hc & Hs & Hv).
    destruct (is_digit_not_sign c Hc) as (Hm & Hp & _).
    unfold PyText.int. cbn [PyText.skip_int_space].
    rewrite (@is_digit_not_space c Hc), <- Hv, <- (@digits_of_number c s Hc Hs).
    destruct c as [[|] [|] [|] [|] [|] [|] [|] [|]]; try reflexivity; try discriminate Hc.
  - rewrite str_int_negative.
    destruct (digits_of_positive p) as (c & s & -> & Hc & Hs & Hv).
    unfold PyText.int. cbn [PyText.skip_int_space].
    replace (PyText.is_int_space "-") with false by reflexivity.
    rewrite (@digits_of_number c s Hc Hs), Hv. reflexivity.
Qed.

Lemma all_digits_ascii (s : string) : all_digits s = true -> is_ascii s = true.
Proof.
  induction s as [|c s IH]; simpl; [reflexivity|].
  intros Hd. apply andb_prop in Hd. destruct Hd as [Hc Hs].
  rewrite (IH Hs), andb_true_r.
  unfold is_digit in Hc. apply andb_prop in Hc. destruct Hc as [_ Hhi].
  apply Nat.leb_le in Hhi. apply Nat.ltb_lt. lia.
Qed.

Lemma str_int_ascii (z : Z) : is_ascii (str_int z) = true.
Proof.
  destruct z as [|p|p].
  - reflexivity.
  - rewrite str_int_positive. apply all_digits_ascii, all_digits_string_of_uint.
  - rewrite str_int_negative. simpl. apply all_digits_ascii, all_digits_string_of_uint.
Qed.

Section UnicodeFacts.
Context {U : Unicode}.

(** On ASCII text [isdigit] is the test for a non-empty text of decimal
    digits, and [int] reads the number they write. *)
Lemma isdigit_ascii (s : string) :
  is_ascii s = true ->
  isdigit s = match s with EmptyString => false | String _ _ => all_digits s end.
Proof. intros Ha. unfold isdigit. now rewrite Ha. Qed.

Lemma py_int_ascii (s : string) : is_ascii s = true -> py_int s = PyText.int s.
Proof. intros Ha. unfold py_int. now rewrite Ha. Qed.

Lemma int_of_digits (c : ascii) (s : string) :
  is_digit c = true -> all_digits s = true ->
  PyText.int (String c s) = Some (digits_value 0 (String c s)).
Proof.
  intros Hc Hs. rewrite <- (@digits_of_number c s Hc Hs).
  destruct (is_digit_not_sign c Hc) as (Hm & Hp & _).
  unfold PyText.int. cbn [PyText.skip_int_space].
  rewrite (@is_digit_not_space c Hc).
  destruct c as [[|] [|] [|] [|] [|] [|] [|] [|]]; try reflexivity; try discriminate Hc.
Qed.

(** [int] never raises on an ASCII text that [isdigit] holds of. *)
Lemma py_int_isdigit_ascii (s : string) :
  is_ascii s = true -> isdigit s = true ->
  py_int s = Some (digits_value 0 s) /\ 0 <= digits_value 0 s.
Proof.
  intros Ha Hd. rewrite (isdigit_ascii _ Ha) in Hd. rewrite (py_int_ascii _ Ha).
  destruct s as [|c s]; [discriminate|].
  split; [|apply digits_value_nonneg; [lia | exact Hd]].
  simpl in Hd. apply andb_prop in Hd. destruct Hd as [Hc Hs].
  now apply int_of_digits.
Qed.

(** A number read from a text that [isdigit] holds of is not negative. *)
Lemma py_int_isdigit_nonneg (s : string) (n : Z) :
  isdigit s = true -> py_int s = Some n -> 0 <= n.
Proof.
  intros Hd Hn. destruct (is_ascii s) eqn:Ha.
  - destruct (py_int_isdigit_ascii s Ha Hd) as [Hv Hpos]. congruence.
  - unfold isdigit in Hd. unfold py_int in Hn. rewrite Ha in Hd, Hn.
    exact (uni_int_nonneg s Hd Hn).
Qed.

(** [int(str(z)) == z] *)
Lemma py_int_str_int (z : Z) : py_int (str_int z) = Some z.
Proof. rewrite (py_int_ascii _ (str_int_ascii z)). apply int_str_int. Qed.

(** [str(z)] of a negative number, or with anything before it, is no text
    of digits. *)
Lemma isdigit_prefixed (c : ascii) (s : string) :
  is_digit c = false -> (nat_of_ascii c < 128)%nat -> is_ascii s = true ->
  isdigit (String c s) = false.
Proof.
  intros Hc Hlt Hs. rewrite isdigit_ascii.
  - simpl. now rewrite Hc.
  - simpl. rewrite Hs, andb_true_r. now apply Nat.ltb_lt.
Qed.
End UnicodeFacts.

(** ** The size of a random quiz *)

Import StartQuiz.

Section RandomQuiz.
Context {U : Unicode}.
Variable shuffle : list question -> list question.
Hypothesis shuffle_perm : forall l, Permutation l (shuffle l).

(** The count the loop over the arguments arrives at, when no round of
    it raises; it raises when [int] does on a text of digits. *)
Lemma parse_from_count (args : list string) (a : quiz_args) (r : Z) :
  num_questions a = Z.min r 10 -> 0 <= num_questions a ->
  match parse_from a args with
  | Some a' =>
      exists requested,
        count_from r args = Some requested
        /\ num_questions a' = Z.min requested 10
        /\ 0 <= num_questions a'
  | None => count_from r args = None
  end.
Proof.
  revert a r. induction args as [|arg args IH]; intros a r Ha Hpos.
  - simpl. exists r. now repeat split.
  - cbn [parse_from count_from]. unfold parse_arg.
    destruct (isdigit arg) eqn:Ed.
    + destruct (py_int arg) as [n|] eqn:En; [|reflexivity].
      pose proof (py_int_isdigit_nonneg arg Ed En) as Hn.
      apply IH; cbn [num_questions]; [reflexivity | lia].
    + destruct (String.prefix "id=" arg);
        [destruct (int_after_equals arg); apply IH; assumption|].
      destruct (String.prefix "start=" arg);
        [destruct (int_after_equals arg); apply IH; assumption|].
      now apply IH.
Qed.

Lemma parse_args_count (words : list string) :
  match parse_args words with
  | Some a =>
      exists requested,
        requested_count words = Some requested
        /\ num_questions a = Z.min requested 10
        /\ 0 <= num_questions a
  | None => requested_count words = None
  end.
Proof. apply parse_from_count; simpl; lia. Qed.

Lemma random_sample_size (bank : list question) (k : Z) :
  0 <= k ->
  exists selected,
    random_sample shuffle bank (Z.min k (Z.of_nat (List.length bank))) = Some selected
    /\ Z.of_nat (List.length selected) = Z.min k (Z.of_nat (List.length bank)).
Proof.
  intros Hk. unfold random_sample.
  destruct (Z.leb_spec 0 (Z.min k (Z.of_nat (List.length bank)))); [|lia].
  destruct (Z.leb_spec (Z.min k (Z.of_nat (List.length bank)))
                       (Z.of_nat (List.length bank))); [|lia].
  eexists. split; [reflexivity|].
  rewrite length_firstn, <- (Permutation_length (shuffle_perm bank)). lia.
Qed.

(** Whenever [select_questions] takes the random path, the sample
    succeeds and has the size computed from the arguments. *)
Lemma select_questions_random (bank : list question) (a : quiz_args) :
  0 <= num_questions a ->
  fst (select_questions shuffle bank a) = RandomSample ->
  exists selected,
    snd (select_questions shuffle bank a) = Some selected
    /\ Z.of_nat (List.length selected)
       = Z.min (num_questions a) (Z.of_nat (List.length bank)).
Proof.
  intros Hpos.
  destruct (random_sample_size bank Hpos) as (selected & Hs & Hl).
  unfold select_questions.
  destruct (specific_id a) as [sid|].
  - destruct (find (fun q => q_id q =? sid) bank); [discriminate|].
    intros _. exists selected. now split.
  - destruct (start_id a) as [sid|].
    + destruct (find_start_index sid 0 _) as [i|].
      * destruct (slice _ i _); discriminate.
      * intros _. exists selected. now split.
    + intros _. exists selected. now split.
Qed.

(** C9.  Whenever [start_quiz] of [Original.py] selects at random (by
    default, or falling back from an id that is not found), the sample
    does not raise, and the quiz has [min(min(requested, 10), bank size)]
    questions, where [requested] is the number of the last argument that
    is a text of digits and [5] without one; so it has at most [10].
    Nothing is selected when [int] raises on such an argument, which
    ends the handler.  When the arguments leave no id to ask for or to
    start from, the selection is random. *)
Theorem random_quiz_size
    (bank : list question) (words : list string) (chat : Z)
    (requester : option Telegram.user) :
  bank <> [] ->
  match start_quiz shuffle bank words chat requester with
  | Started RandomSample q =>
      exists requested,
        requested_count words = Some requested
        /\ Z.of_nat (List.length (questions q))
           = Z.min (Z.min requested 10) (Z.of_nat (List.length bank))
        /\ (List.length (questions q) <= 10)%nat
  | Started _ _ => True
  | Raised RandomSample => False
  | Raised _ => True
  | RaisedInArgs => requested_count words = None
  | NoQuestions => False
  end
  /\ (forall a, parse_args words = Some a ->
      specific_id a = None -> start_id a = None ->
      exists q, start_quiz shuffle bank words chat requester = Started RandomSample q).
Proof.
  intros Hbank. unfold start_quiz. destruct bank as [|b bank']; [congruence|].
  set (bank := b :: bank') in *.
  pose proof (parse_args_count words) as Hcount.
  destruct (parse_args words) as [a|]; [|split; [exact Hcount | discriminate]].
  destruct Hcount as (requested & Hreq & Hnum & Hpos).
  pose proof (select_questions_random bank a Hpos) as Hrandom.
  split.
  - destruct (select_questions shuffle bank a) as [path [selected|]].
    + destruct path; try exact I. cbn [fst snd] in Hrandom.
      destruct (Hrandom eq_refl) as (sel & [= <-] & Hl).
      exists requested. cbn [new_quiz questions]. rewrite Hnum in Hl.
      split; [exact Hreq|]. split; [exact Hl | lia].
    + destruct path; try exact I. cbn [fst snd] in Hrandom.
      destruct (Hrandom eq_refl) as (sel & Hs & _). discriminate.
  - intros a' [= <-] Hsid Hstart.
    assert (Hpath : fst (select_questions shuffle bank a) = RandomSample)
      by (unfold select_questions; now rewrite Hsid, Hstart).
    destruct (Hrandom Hpath) as (sel & Hs & _).
    destruct (select_questions shuffle bank a) as [path sel'].
    cbn [fst snd] in *. subst. eauto.
Qed.
End RandomQuiz.

(** ** The score of the timed quiz *)

Import TimedQuiz.

Section TimedQuizFacts.
Context {U : Unicode}.
Variable is_private : Z -> bool.

(** Storing a quiz with the same poll message leaves the search as it is. *)
Lemma find_quiz_key_set (pid k : string) (d d' : quiz_data)
    (bd : dict string quiz_data) :
  dict_get k bd = Some d ->
  poll_message_id d' = poll_message_id d ->
  find_quiz_key pid (dict_set k d' bd) = find_quiz_key pid bd.
Proof.
  intros Hg Hm. induction bd as [|[k0 d0] bd IH]; [discriminate|].
  cbn [dict_get dict_set] in *.
  destruct (key_eqb k k0) eqn:E.
  - injection Hg as ->. cbn [find_quiz_key].
    unfold has_poll_message. now rewrite Hm.
  - cbn [find_quiz_key]. now rewrite (IH Hg).
Qed.

Lemma note_answer_score (uid : Z) (first_name : string) (selected : option Z)
    (d : quiz_data) :
  exists p,
    dict_get (str_int uid) (participants (note_answer uid first_name selected d)) = Some p
    /\ score p = points_of d selected.
Proof.
  unfold note_answer. cbn [participants].
  eexists. split; [apply dict_get_set_same | reflexivity].
Qed.

(** One answer to the poll of a quiz that is found. *)
Lemma handle_quiz_answer_found (ev : Telegram.poll_answer) (w : world)
    (k : string) (d : quiz_data) :
  find_quiz_key (Telegram.poll_id ev) (bot_data w) = Ok (Some k) ->
  dict_get k (bot_data w) = Some d ->
  (timer d = 0 -> exists c, chat_id_of_key k = Ok c) ->
  let o := handle_quiz_answer is_private ev w in
  let d' := note_answer (Telegram.id (Telegram.from_user ev))
              (Telegram.first_name (Telegram.from_user ev))
              (hd_error (Telegram.option_ids ev)) d in
  has_failed o = false
  /\ bot_data (world_after o) = dict_set k d' (bot_data w).
Proof.
  intros Hf Hg Hchat. unfold handle_quiz_answer. rewrite Hf, Hg.
  destruct (Z.eqb_spec (timer d) 0) as [Ht|Ht]; [|now split].
  destruct (Hchat Ht) as [c ->].
  destruct (is_private c); now split.
Qed.

Lemma handle_all_last (pid : string) (uid : Z) (k : string)
    (evs : list Telegram.poll_answer) :
  Forall (fun ev => Telegram.poll_id ev = pid
                    /\ Telegram.id (Telegram.from_user ev) = uid) evs ->
  forall (w : world) (d : quiz_data) (ev0 : Telegram.poll_answer),
    find_quiz_key pid (bot_data w) = Ok (Some k) ->
    dict_get k (bot_data w) = Some d ->
    (timer d = 0 -> exists c, chat_id_of_key k = Ok c) ->
    evs <> [] ->
    snd (handle_all is_private evs w) = false
    /\ score_of k uid (fst (handle_all is_private evs w))
       = Some (points_of d (hd_error (Telegram.option_ids (last evs ev0)))).
Proof.
  induction 1 as [|ev evs [Hp Hu] Hall IH]; intros w d ev0 Hf Hg Hchat Hne;
    [congruence|].
  subst pid uid.
  destruct (handle_quiz_answer_found ev w Hf Hg Hchat) as [Hok Hbd].
  set (o := handle_quiz_answer is_private ev w) in *.
  set (d' := note_answer _ _ _ d) in *.
  assert (Hg' : dict_get k (bot_data (world_after o)) = Some d')
    by (rewrite Hbd; apply dict_get_set_same).
  assert (Hf' : find_quiz_key (Telegram.poll_id ev) (bot_data (world_after o))
                = Ok (Some k))
    by (rewrite Hbd, (@find_quiz_key_set _ k d d' _ Hg eq_refl); exact Hf).
  cbn [handle_all]. fold o.
  destruct evs as [|ev' evs].
  - cbn [handle_all last fst snd]. rewrite Hok. split; [reflexivity|].
    unfold score_of. rewrite Hg'.
    destruct (note_answer_score (Telegram.id (Telegram.from_user ev))
                (Telegram.first_name (Telegram.from_user ev))
                (hd_error (Telegram.option_ids ev)) d) as (p & Hp & Hs).
    fold d' in Hp. now rewrite Hp, Hs.
  - destruct (IH (world_after o) d' ev0 Hf' Hg' Hchat) as [Hsnd Hscore];
      [discriminate|].
    destruct (handle_all is_private (ev' :: evs) (world_after o)) as [w' failed].
    cbn [fst snd] in *. rewrite Hok, Hsnd. split; [reflexivity|].
    exact Hscore.
Qed.

End TimedQuizFacts.

(** * The properties at work on the example sessions *)

Import Scenario.

(** An answer to a poll that no quiz knows, in the world of an open
    session and for a [simple_bot.py] quiz on another poll. *)
Lemma unregistered_poll_answer_is_dropped_witness :
  poll_answer Original (answer "p9" bob 0) (world_of 1 open_session)
  = world_of 1 open_session
  /\ SimpleBot.handle_quiz_poll_answer (answer "p9" bob 0) (Some simple_quiz)
     = Some simple_quiz.
Proof.
  split.
  - apply (proj1 unregistered_poll_answer_is_dropped).
    intros uid q Hin _. simpl in Hin.
    destruct Hin as [Hin|[]]. injection Hin as _ <-. reflexivity.
  - apply (proj2 unregistered_poll_answer_is_dropped).
    intros q Hq. injection Hq as <-. simpl. discriminate.
Defined.

(** Bob's wrong answer to the open poll under negative marking. *)
Lemma recorded_answer_counts_witness :
  exists q' after,
    find_active_quiz "p1"
      (user_data (poll_answer Lifechanger (answer "p1" bob 2) (world_of 1 open_session)))
    = Some (1, q')
    /\ dict_get 2 (Engine.participants q') = Some after
    /\ answered after = 0 + 1
    /\ Engine.correct after = 0
    /\ negative_points after = Some (Float 0.25).
Proof.
  destruct (@recorded_answer_counts Lifechanger (answer "p1" bob 2)
              (world_of 1 open_session) 1 (fst open_session)
              {| question_index := 0; message_id := 100; info_poll_id := "p1";
                 answers := [] |}
              (ask 1 0) eq_refl eq_refl eq_refl)
    as (q' & after & Hfound & Hget & Hanswered & _ & Hwrong & _).
  exists q', after. split; [exact Hfound|]. split; [exact Hget|].
  split; [exact Hanswered|]. apply Hwrong. simpl. discriminate.
Defined.

(** The tie session with its live table and with a forged one. *)
Lemma end_quiz_ignores_live_participants_witness :
  ranking (end_quiz Original (by_user alice) (fst (tie_session Original)) [])
  = ranking (end_quiz Original (by_user alice)
               (with_participants intruders (fst (tie_session Original))) [])
  /\ sent_text (end_quiz Original (by_user alice) (fst (tie_session Original)) [])
     = sent_text (end_quiz Original (by_user alice)
                    (with_participants intruders (fst (tie_session Original))) [])
  /\ users_after (end_quiz Original (by_user alice) (fst (tie_session Original)) [])
     = users_after (end_quiz Original (by_user alice)
                      (with_participants intruders (fst (tie_session Original))) []).
Proof.
  apply end_quiz_ignores_live_participants; reflexivity.
Defined.

(** Bob answers the first poll three times and the second once, Alice
    the first once, and an answer arrives for a poll that nobody sent:
    Bob has answered two questions and Alice one. *)
Lemma repeated_answers_count_once_witness :
  let evs := [answer "p1" bob 0; answer "p1" alice 0; answer "p1" bob 1;
              answer "p2" bob 1; answer "p9" bob 0; answer "p1" bob 0] in
  exists q',
    resolves_to (deliver Original evs (world_of 1 (two_polls_session Original))) 1 q'
    /\ answered_of 2 (final_table Original (by_user alice) q' []) = 0 + 2
    /\ answered_of 1 (final_table Original (by_user alice) q' []) = 0 + 1.
Proof.
  intros evs.
  destruct (@repeated_answers_count_once Original evs
              (world_of 1 (two_polls_session Original)) 1
              (fst (two_polls_session Original)))
    as (q' & Hres & _ & _ & _ & Hcount).
  - intros pid Hpid. cbn in Hpid |- *. unfold dict_in in Hpid. cbn in Hpid.
    unfold dict_in. cbn. now rewrite Hpid.
  - repeat constructor.
  - repeat constructor; simpl; intuition discriminate.
  - exists q'. split; [exact Hres|]. split.
    + exact (proj2 (Hcount 2) (by_user alice) [] ltac:(vm_compute; lia)).
    + exact (proj2 (Hcount 1) (by_user alice) [] ltac:(vm_compute; lia)).
Defined.

(** Scenario D: three questions for Zed and no answer. *)
Lemma creator_fallback_result_witness :
  ranking (end_quiz Original (by_user zed) (fst (silent_session Original)) [])
  = [(26, {| Engine.name := "Zed"; username := None; Engine.correct := 3;
             answered := 3; negative_points := None |})]
  /\ result_line Original 3 0
       {| Engine.name := "Zed"; username := None; Engine.correct := 3;
          answered := 3; negative_points := None |}
     = "🥇 Zed: 3/3 (100.0%)" ++ nl.
Proof.
  destruct (@creator_fallback_result Original (by_user zed)
              (fst (silent_session Original)) []
              {| creator_id := 26; creator_name := "Zed"; creator_username := None |})
    as (Hranking & _ & _ & Hline).
  - reflexivity.
  - intros pid info Hin. simpl in Hin.
    destruct Hin as [Hin|[Hin|[Hin|[]]]]; injection Hin as _ <-; reflexivity.
  - reflexivity.
  - discriminate.
  - discriminate.
  - reflexivity.
  - split; [exact Hranking | exact Hline].
Defined.

(** [/quiz 12] on a bank of four questions, drawn in reverse order. *)
Lemma random_quiz_size_witness :
  exists q,
    start_quiz (U := ascii_only) (@rev question) bank ["/quiz"; "12"] 77 (Some alice)
    = Started RandomSample q
    /\ Z.of_nat (List.length (questions q)) = Z.min (Z.min 12 10) 4
    /\ (List.length (questions q) <= 10)%nat.
Proof.
  destruct (@random_quiz_size ascii_only (@rev question) (@Permutation_rev question)
              bank ["/quiz"; "12"] 77 (Some alice)) as [Hsize Hrandom].
  - discriminate.
  - destruct (Hrandom _ eq_refl eq_refl eq_refl) as [q Hq].
    exists q. split; [exact Hq|]. rewrite Hq in Hsize.
    destruct Hsize as (requested & [= <-] & Hsize). exact Hsize.
Defined.

(** C4 as the specification states it fails: a poll is never taken from
    the [sent_polls] of its quiz.  The first question has closed and the
    second poll is the open one when Bob answers the first: the answer
    is recorded all the same, in the live table, in the records of the
    closed poll and in the users file, in [Original.py] and in
    [Lifechanger.py]. *)
Lemma late_answer_to_closed_poll_is_recorded :
  let late := answer "p1" bob 0 in
  let bob_entry := {| Engine.name := "Bob"; username := None; Engine.correct := 1;
                      answered := 1; negative_points := None |} in
  let bob_record := {| option_id := Some 0; is_correct := true; user_name := "Bob";
                       answer_username := None |} in
  let bob_stats := {| quizzes_taken := 0; Engine.correct_answers := 1;
                      total_answers := 1 |} in
  forall_variants
    (fun v =>
       let before := world_of 1 (two_polls_session v) in
       let after := poll_answer v late before in
       map (fun e => (fst e, question_index (snd e)))
           (sent_polls (fst (two_polls_session v)))
       = [("p1", 0%nat); ("p2", 1%nat)]
       /\ current_index (fst (two_polls_session v)) = 2%nat
       /\ Engine.users before = []
       /\ after <> before
       /\ Engine.users after = [(2, bob_stats)]
       /\ exists q',
            Engine.user_data after = [(1, Some q')]
            /\ Engine.participants q' = [(2, bob_entry)]
            /\ option_map answers (dict_get "p1" (sent_polls q'))
               = Some [(2, bob_record)]).
Proof.
  split; (repeat split; [discriminate | eexists; repeat split]).
Qed.

(** C10 on the code.  [handle_timer_selection] stores with the quiz the
    id of the message that carries the poll, here [55], and
    [handle_quiz_answer] looks for the quiz whose stored id is
    [int(poll_id)], the id of the poll, here [5890000000000000001].  So
    Bob's answers to the poll that was sent find no quiz: nothing is
    recorded for him, nothing changes and nothing is raised.  Only an
    answer whose poll id reads [55] reaches the quiz, and then the score
    is the points of the last answer: after a correct answer and a wrong
    one it is [-0.5], not their sum. *)
Theorem answers_to_the_sent_poll_are_not_scored :
  let sent := {| Telegram.sent_poll_id := "5890000000000000001";
                 Telegram.sent_message_id := 55 |} in
  let nothing := {| bot_data := []; TimedQuiz.users := []; jobs := [] |} in
  let stored := {| correct_option := Some 2; TimedQuiz.participants := [];
                   negative_marking := Some true; timer := 0;
                   TimedQuiz.question_id := 9; poll_message_id := Some 55 |} in
  let w := {| bot_data := [("quiz_-100_7", stored)]; TimedQuiz.users := [];
              jobs := [] |} in
  let to_poll := [answer (Telegram.sent_poll_id sent) bob 2;
                  answer (Telegram.sent_poll_id sent) bob 1] in
  fst (TimedRound.handle_timer_selection (U := ascii_only)
         (TimedRound.timer_button 0 9) (-100) 7
         (Telegram.sent_message_id sent) nothing (Some bank))
  = TimedRound.QuizSent w (ask 9 2)
  /\ handle_all (U := ascii_only) (fun _ => true) to_poll w = (w, false)
  /\ score_of "quiz_-100_7" 2
       (fst (handle_all (U := ascii_only) (fun _ => true) to_poll w)) = None
  /\ score_of "quiz_-100_7" 2
       (fst (handle_all (U := ascii_only) (fun _ => true)
               [answer "55" bob 2; answer "55" bob 1] w))
     = Some (Float (-0.5)).
Proof. repeat split. Qed.

(** C1 as the specification states it fails: in the tie session Alice
    and Bob have the same adjusted score and Alice has answered more
    questions, yet Bob is ranked above her, in [Original.py] and in
    [Lifechanger.py]; so are two such entries in [simple_bot.py]. *)
Lemma leaderboard_puts_fewer_answers_first :
  let bob_entry := {| Engine.name := "Bob"; username := None; Engine.correct := 1;
                      answered := 1; negative_points := None |} in
  let alice_entry := {| Engine.name := "Alice"; username := Some "al";
                        Engine.correct := 1; answered := 2;
                        negative_points := None |} in
  ranking (end_quiz Original (by_user alice) (fst (tie_session Original)) [])
  = [(2, bob_entry); (1, alice_entry)]
  /\ ranking (end_quiz Lifechanger (by_user alice) (fst (tie_session Lifechanger)) [])
     = [(2, bob_entry); (1, alice_entry)]
  /\ (value (adjusted_score bob_entry) == value (adjusted_score alice_entry))%Q
  /\ answered bob_entry < answered alice_entry
  /\ snd (fst (SimpleBot.end_quiz
                 (Some {| SimpleBot.questions := [ask 1 0; ask 2 1];
                          SimpleBot.current_index := 2;
                          SimpleBot.participants :=
                            [("1", {| SimpleBot.name := "Alice";
                                      SimpleBot.username := Some "al";
                                      SimpleBot.correct := 1;
                                      SimpleBot.answered := 2 |});
                             ("2", {| SimpleBot.name := "Bob";
                                      SimpleBot.username := None;
                                      SimpleBot.correct := 1;
                                      SimpleBot.answered := 1 |})];
                          SimpleBot.current_poll_id := Some "p2" |})))
     = [("2", {| SimpleBot.name := "Bob"; SimpleBot.username := None;
                 SimpleBot.correct := 1; SimpleBot.answered := 1 |});
        ("1", {| SimpleBot.name := "Alice"; SimpleBot.username := Some "al";
                 SimpleBot.correct := 1; SimpleBot.answered := 2 |})].
Proof. repeat split. Qed.

(** C3 as the specification states it fails for [n = 0]: [/quiz 0] starts
    a quiz without questions, which ends at once with the requester's
    entry shown as [0/0 (0.0%)]. *)
Lemma zero_question_quiz_shows_zero_percent :
  let entry := {| Engine.name := "Zed"; username := None; Engine.correct := 0;
                  answered := 0; negative_points := None |} in
  let sent := {| Telegram.sent_poll_id := "p1"; Telegram.sent_message_id := 100 |} in
  exists q,
    start_quiz (U := ascii_only) (fun l => l) bank ["/quiz"; "0"] 77 (Some zed)
    = Started RandomSample q
    /\ questions q = []
    /\ ranking (send_next_question Original (by_user zed) sent q []) = [(26, entry)]
    /\ sent_text (send_next_question Original (by_user zed) sent q [])
       = Some (results_message Original 0 [(26, entry)])
    /\ result_line Original 0 0 entry = "🥇 Zed: 0/0 (0.0%)" ++ nl.
Proof. eexists. repeat split. Qed.

(** C7 as the specification states it fails in the live table: Alice's
    answer to the only question, delivered twice, leaves her with
    [answered = 2] (and [correct = 2]) in a session of one question. *)
Lemma repeated_answer_exceeds_question_count :
  Engine.participants (fst twice_session)
  = [(1, {| Engine.name := "Alice"; username := Some "al"; Engine.correct := 2;
            answered := 2; negative_points := None |})]
  /\ List.length (questions (fst twice_session)) = 1%nat.
Proof. split; reflexivity. Qed.

(** C6 on the code.  Bob answers three of four questions correctly and
    one wrongly in [Lifechanger.py].  The live table then holds the
    penalty [0.25], his adjusted score is [2.75], and the line the result
    code prints for that entry reads [3-0.25=2.75/4 (68.8%)].  But
    [end_quiz] ranks the table it rebuilds from the poll answers, which
    carries no penalty, and the line it sends reads [3/4 (75.0%)]. *)
Theorem negative_marking_lost_in_results :
  let live := {| Engine.name := "Bob"; username := None; Engine.correct := 3;
                 answered := 4; negative_points := Some (Float 0.25) |} in
  let rebuilt := {| Engine.name := "Bob"; username := None; Engine.correct := 3;
                    answered := 4; negative_points := None |} in
  let finish := end_quiz Lifechanger (by_user alice) (fst marked_session)
                  (snd marked_session) in
  Engine.participants (fst marked_session) = [(2, live)]
  /\ adjusted_score live = Float 2.75
  /\ result_line Lifechanger 4 0 live
     = rank_emoji Lifechanger 0 ++ " Bob: 3-0.25=2.75/4 (68.8%)" ++ nl
  /\ ranking finish = [(2, rebuilt)]
  /\ sent_text finish = Some (results_message Lifechanger 4 [(2, rebuilt)])
  /\ result_line Lifechanger 4 0 rebuilt
     = rank_emoji Lifechanger 0 ++ " Bob: 3/4 (75.0%)" ++ nl.
Proof. repeat split. Qed.

(** * Further properties of the code *)

(** ** The questions file *)

Import QuestionBank.

Lemma load_questions_twice (f : file) :
  load_questions (snd (load_questions f)) = (fst (load_questions f), snd (load_questions f)).
Proof. destruct f; reflexivity. Qed.

Lemma max_id_le (rest : list question) (m : Z) :
  m <= fold_left (fun m q' => Z.max m (q_id q')) rest m
  /\ forall q', In q' rest -> q_id q' <= fold_left (fun m q' => Z.max m (q_id q')) rest m.
Proof.
  revert m. induction rest as [|q rest IH]; intros m; simpl.
  - split; [lia | intros q' []].
  - destruct (IH (Z.max m (q_id q))) as [Hm Hin]. split; [lia|].
    intros q' [<-|Hq']; [lia | now apply Hin].
Qed.

Lemma find_none_iff {A : Type} (p : A -> bool) (l : list A) :
  find p l = None <-> forall x, In x l -> p x = false.
Proof.
  split; [apply find_none|].
  induction l as [|a l IH]; intros Hall; simpl; [reflexivity|].
  rewrite (Hall a (or_introl eq_refl)). apply IH. intros x Hx. apply Hall. now right.
Qed.

Lemma filter_length_same {A : Type} (p : A -> bool) (l : list A) :
  List.length (filter p l) = List.length l -> filter p l = l.
Proof.
  induction l as [|a l IH]; simpl; [reflexivity|].
  pose proof (filter_length_le p l) as Hle.
  destruct (p a); simpl; intros Hlen; [f_equal; apply IH; lia | lia].
Qed.

Lemma find_filter_other (i j : Z) (l : list question) :
  j <> i ->
  find (fun q => q_id q =? j) (filter (fun q => negb (q_id q =? i)) l)
  = find (fun q => q_id q =? j) l.
Proof.
  intros Hji. induction l as [|q l IH]; simpl; [reflexivity|].
  destruct (q_id q =? i) eqn:Ei; simpl.
  - apply Z.eqb_eq in Ei. rewrite IH.
    destruct (q_id q =? j) eqn:Ej; [apply Z.eqb_eq in Ej; lia | reflexivity].
  - now rewrite IH.
Qed.

Lemma filter_shorter_iff (i : Z) (l : list question) :
  (List.length (filter (fun q => negb (q_id q =? i)%Z) l) < List.length l)%nat
  <-> exists q, In q l /\ q_id q = i.
Proof.
  induction l as [|a l IH]; simpl.
  - split; [lia | intros (q & [] & _)].
  - pose proof (filter_length_le (fun q => negb (q_id q =? i)) l) as Hle.
    destruct (q_id a =? i) eqn:E; simpl.
    + split; [|lia]. intros _. exists a. split; [now left | now apply Z.eqb_eq].
    + rewrite <- Nat.succ_lt_mono, IH. apply Z.eqb_neq in E.
      split; intros (q & Hq & Hid); exists q; (split; [|exact Hid]).
      * now right.
      * destruct Hq as [<-|Hq]; [contradiction | exact Hq].
Qed.

(** What [get_next_question_id] returns, and the file it leaves. *)
Lemma next_question_id_above (f : file) :
  snd (get_next_question_id f) = snd (load_questions f)
  /\ forall q, In q (fst (load_questions f)) -> q_id q < fst (get_next_question_id f).
Proof.
  unfold get_next_question_id. destruct (load_questions f) as [qs f'] eqn:El.
  destruct qs as [|q rest]; simpl; [split; [reflexivity | intros q []]|].
  split; [reflexivity|]. intros q' Hq'.
  destruct (max_id_le rest (q_id q)) as [Hm Hin]. unfold max_id.
  destruct Hq' as [<-|Hq']; [lia | specialize (Hin q' Hq'); lia].
Qed.

(** X1.  The id [get_next_question_id] hands out is larger than the id of
    every stored question, so that no stored question is found under
    it. *)
Theorem next_question_id_is_fresh (f : file) :
  let next := fst (get_next_question_id f) in
  let f' := snd (get_next_question_id f) in
  f' = snd (load_questions f)
  /\ (forall q, In q (fst (load_questions f')) -> q_id q < next)
  /\ fst (get_question_by_id next f') = None.
Proof.
  cbv zeta. destruct (next_question_id_above f) as [Hf' Hbelow]. rewrite Hf'.
  split; [reflexivity|].
  rewrite load_questions_twice. simpl. split; [exact Hbelow|].
  unfold get_question_by_id. rewrite load_questions_twice. simpl.
  apply find_none_iff. intros q Hq. apply Z.eqb_neq.
  specialize (Hbelow q Hq). lia.
Qed.

(** X2.  [delete_question_by_id] reports [True] exactly when a question
    with the id was stored; afterwards none is found under the id, the
    other questions are kept in their order, and each of them is found as
    before. *)
Theorem delete_question_by_id_removes (question_id : Z) (f : file) :
  let questions := fst (load_questions f) in
  let deleted := fst (delete_question_by_id question_id f) in
  let f' := snd (delete_question_by_id question_id f) in
  (deleted = true <-> exists q, In q questions /\ q_id q = question_id)
  /\ fst (load_questions f')
     = filter (fun q => negb (q_id q =? question_id)) questions
  /\ fst (get_question_by_id question_id f') = None
  /\ (forall other, other <> question_id ->
        fst (get_question_by_id other f') = fst (get_question_by_id other f)).
Proof.
  cbv zeta.
  set (keep := fun q => negb (q_id q =? question_id)).
  assert (Hafter : fst (load_questions (snd (delete_question_by_id question_id f)))
                   = filter keep (fst (load_questions f))).
  { unfold delete_question_by_id. destruct (load_questions f) as [qs f0] eqn:El.
    fold keep. simpl. destruct (Nat.ltb_spec (List.length (filter keep qs)) (List.length qs)).
    - reflexivity.
    - simpl. replace f0 with (snd (load_questions f)) by now rewrite El.
      rewrite load_questions_twice, El. simpl. symmetry. apply filter_length_same.
      pose proof (filter_length_le keep qs). lia. }
  split; [|split; [exact Hafter|split]].
  - rewrite <- (filter_shorter_iff question_id (fst (load_questions f))).
    unfold delete_question_by_id. destruct (load_questions f) as [qs f0].
    fold keep. simpl.
    destruct (Nat.ltb_spec (List.length (filter keep qs)) (List.length qs)); simpl.
    + split; [intros _; assumption | reflexivity].
    + split; [discriminate | lia].
  - unfold get_question_by_id.
    destruct (load_questions (snd (delete_question_by_id question_id f))) as [qs' f1] eqn:El'.
    simpl in Hafter |- *. subst qs'. apply find_none_iff. intros q Hq.
    apply filter_In in Hq. destruct Hq as [_ Hkeep]. unfold keep in Hkeep.
    now apply Bool.negb_true_iff in Hkeep.
  - intros other Hother. unfold get_question_by_id.
    destruct (load_questions (snd (delete_question_by_id question_id f))) as [qs' f1] eqn:El'.
    simpl in Hafter. subst qs'.
    destruct (load_questions f) as [qs f0]. simpl.
    now apply find_filter_other.
Qed.

(** ** The polls of a session *)

Import Engine Session Progress.

Lemma record_answer_polls (v : variant) (ev : Telegram.poll_answer)
    (selected : list question) (ids : list string) (q : quiz) :
  polls_in_order selected ids q ->
  polls_in_order selected ids (fst (record_answer v ev q)).
Proof.
  intros (Hq & Hk & Hi & Hc). unfold record_answer.
  destruct (dict_get (Telegram.poll_id ev) (sent_polls q)) as [info|] eqn:Hg;
    [|now repeat split].
  destruct (nth_error (questions q) (question_index info)); [|now repeat split].
  unfold polls_in_order. cbn [fst questions sent_polls current_index].
  rewrite dict_set_keys, Hg. erewrite dict_set_length_present by exact Hg.
  repeat split; try assumption.
  rewrite <- Hi. now apply (map_dict_set_present question_index) with (v0 := info).
Qed.

Lemma end_quiz_polls (v : variant) (upd : Telegram.update) (q : quiz)
    (us : dict Z user_stats) :
  questions (quiz_after (end_quiz v upd q us)) = questions q
  /\ sent_polls (quiz_after (end_quiz v upd q us)) = sent_polls q
  /\ current_index (quiz_after (end_quiz v upd q us)) = current_index q.
Proof.
  unfold end_quiz.
  destruct (match v with Original => negb (active q) | Lifechanger => false end);
    [now repeat split|].
  destruct (creator_fallback q (rebuild_participants (sent_polls q)));
    now repeat split.
Qed.

Lemma send_next_question_polls (v : variant) (upd : Telegram.update)
    (sent : Telegram.sent_message) (selected : list question) (ids : list string)
    (q : quiz) (us : dict Z user_stats) :
  ~ In (Telegram.sent_poll_id sent) ids ->
  polls_in_order selected ids q ->
  polls_in_order selected (ids ++ [Telegram.sent_poll_id sent])
                 (quiz_after (send_next_question v upd sent q us)).
Proof.
  intros Hnew (Hq & Hk & Hi & Hc).
  assert (Hn : questions (note_creator upd q) = questions q
               /\ sent_polls (note_creator upd q) = sent_polls q
               /\ current_index (note_creator upd q) = current_index q).
  { unfold note_creator. destruct (creator q); [now repeat split|].
    destruct (Telegram.effective_user upd) as [u|]; [|now repeat split].
    destruct (Telegram.id u =? 0); now repeat split. }
  destruct Hn as (Hnq & Hns & Hnc).
  assert (Hlen : List.length (sent_polls q)
                 = Nat.min (List.length selected) (List.length ids)).
  { rewrite <- (length_map fst), Hk. apply length_firstn. }
  unfold send_next_question. rewrite Hnq, Hnc, Hq.
  destruct (Nat.leb_spec (List.length selected) (current_index q)) as [Hle|Hlt].
  - destruct (end_quiz_polls v upd (force_active v (note_creator upd q)) us)
      as (Heq & Hes & Hec).
    assert (Hf : questions (force_active v (note_creator upd q)) = questions q
                 /\ sent_polls (force_active v (note_creator upd q)) = sent_polls q
                 /\ current_index (force_active v (note_creator upd q)) = current_index q)
      by (destruct v; now repeat split).
    destruct Hf as (Hfq & Hfs & Hfc).
    unfold polls_in_order. rewrite Heq, Hes, Hec, Hfq, Hfs, Hfc.
    repeat split; try assumption.
    rewrite Hk, firstn_app.
    replace (List.length selected - List.length ids)%nat with 0%nat by lia.
    simpl. now rewrite app_nil_r.
  - assert (Hids : (List.length ids < List.length selected)%nat) by lia.
    assert (Hkeys : map fst (sent_polls q) = ids).
    { rewrite Hk. apply firstn_all2. lia. }
    assert (Habsent : dict_get (Telegram.sent_poll_id sent) (sent_polls q) = None).
    { apply dict_get_not_key. now rewrite Hkeys. }
    unfold polls_in_order, register_poll.
    cbn [quiz_after questions sent_polls current_index].
    rewrite Hns, Hnc, Hnq. erewrite dict_set_absent by exact Habsent.
    rewrite !map_app, length_app, Hkeys, Hi. cbn [map fst snd question_index List.length].
    repeat split.
    + exact Hq.
    + rewrite firstn_all2; [reflexivity|]. rewrite length_app. simpl. lia.
    + rewrite Nat.add_1_r, seq_S, Hc. reflexivity.
    + lia.
Qed.

(** X3.  In a session started on [n] questions, with the transport
    handing out a new poll id for every poll, the polls on record are the
    first [n] polls that were sent, in the order of sending, and the poll
    at position [i] is the one for question [i]: every question is sent
    once, in order, whatever answers arrive in between. *)
Theorem questions_are_sent_once_in_order
    (v : variant) (owner : Z) (selected : list question) (chat : Z)
    (requester : option Telegram.user) (us0 : dict Z user_stats)
    (steps : list step) :
  NoDup (polls_of steps) ->
  let q := fst (run v owner steps (new_quiz selected chat requester, us0)) in
  questions q = selected
  /\ map fst (sent_polls q) = firstn (List.length selected) (polls_of steps)
  /\ map (fun e => question_index (snd e)) (sent_polls q)
     = seq 0 (List.length (sent_polls q))
  /\ current_index q = List.length (sent_polls q).
Proof.
  intros Hnd. cbv zeta. change (polls_in_order selected (polls_of steps)
    (fst (run v owner steps (new_quiz selected chat requester, us0)))).
  induction steps as [|s steps IH] using rev_ind.
  - unfold polls_in_order. simpl. now rewrite firstn_nil.
  - unfold run, polls_of in *. rewrite fold_left_app, flat_map_app in *.
    cbn [fold_left flat_map] in *.
    destruct (fold_left (do_step v owner) steps
                (new_quiz selected chat requester, us0)) as [q us] eqn:Er.
    cbn [fst] in IH. destruct s as [upd sent|ev]; cbn [app] in *.
    + apply NoDup_remove in Hnd. rewrite app_nil_r in Hnd.
      destruct Hnd as [Hnd Hnew]. unfold do_step. cbn [fst].
      apply send_next_question_polls; [exact Hnew | now apply IH].
    + rewrite app_nil_r in *. specialize (IH Hnd).
      destruct (answer_step_quiz v owner ev q us) as [-> | ->];
        [exact IH | now apply record_answer_polls].
Qed.

(** ** The users file during a session *)

Lemma get_user_data_in_order (uid : Z) (us : dict Z user_stats) :
  Forall stats_in_order us -> stats_in_order (uid, get_user_data uid us).
Proof.
  intros Hus. unfold get_user_data. destruct (dict_get uid us) as [s|] eqn:Hg.
  - destruct (dict_get_In _ _ Hg) as [k Hin]. rewrite Forall_forall in Hus.
    exact (Hus _ Hin).
  - unfold stats_in_order. simpl. lia.
Qed.

Lemma dict_set_Forall {K V : Type} `{Key K} (P : K * V -> Prop) (Q : V -> Prop)
    (k : K) (v : V) (d : dict K V) :
  (forall e, P e <-> Q (snd e)) -> Forall P d -> Q v -> Forall P (dict_set k v d).
Proof.
  intros HP Hd Hv. rewrite Forall_forall in *. intros e He.
  apply In_dict_set in He. destruct He as [He|He]; [now apply Hd|].
  apply HP. now rewrite He.
Qed.

Lemma count_in_stats_in_order (uid : Z) (ok : bool) (us : dict Z user_stats) :
  Forall stats_in_order us -> Forall stats_in_order (count_in_stats uid ok us).
Proof.
  intros Hus. pose proof (get_user_data_in_order uid Hus) as Hs.
  unfold count_in_stats.
  apply dict_set_Forall
    with (Q := fun s => 0 <= correct_answers s <= total_answers s
                        /\ 0 <= quizzes_taken s);
    [reflexivity | exact Hus |].
  unfold stats_in_order in Hs. simpl in Hs |- *. destruct ok; lia.
Qed.

Lemma count_quiz_taken_in_order (us : dict Z user_stats) (entry : Z * participant) :
  Forall stats_in_order us -> Forall stats_in_order (count_quiz_taken us entry).
Proof.
  intros Hus. pose proof (get_user_data_in_order (fst entry) Hus) as Hs.
  unfold count_quiz_taken.
  apply dict_set_Forall
    with (Q := fun s => 0 <= correct_answers s <= total_answers s
                        /\ 0 <= quizzes_taken s);
    [reflexivity | exact Hus |].
  unfold stats_in_order in Hs. simpl in Hs |- *. lia.
Qed.

Lemma end_quiz_stats_in_order (v : variant) (upd : Telegram.update) (q : quiz)
    (us : dict Z user_stats) :
  Forall stats_in_order us -> Forall stats_in_order (users_after (end_quiz v upd q us)).
Proof.
  intros Hus. unfold end_quiz.
  destruct (match v with Original => negb (active q) | Lifechanger => false end);
    [exact Hus|].
  destruct (creator_fallback q (rebuild_participants (sent_polls q))) as [|e parts];
    [exact Hus|]. cbn [users_after].
  apply fold_left_invariant; [exact Hus|].
  intros a b Ha _. now apply count_quiz_taken_in_order.
Qed.

Lemma do_step_stats_in_order (v : variant) (owner : Z) (s : step) (st : state) :
  Forall stats_in_order (snd st) ->
  Forall stats_in_order (snd (do_step v owner st s)).
Proof.
  destruct st as [q us]. cbn [snd]. intros Hus. destruct s as [upd sent|ev].
  - unfold do_step, send_next_question. cbn [snd].
    destruct (List.length (questions (note_creator upd q))
              <=? current_index (note_creator upd q))%nat.
    + now apply end_quiz_stats_in_order.
    + exact Hus.
  - unfold do_step, poll_answer. cbn [snd user_data users].
    destruct (find_active_quiz (Telegram.poll_id ev) [(owner, Some q)]) as [[o q0]|];
      [|exact Hus].
    destruct (record_answer v ev q0) as [q' [ok|]]; [|exact Hus].
    cbn [users]. now apply count_in_stats_in_order.
Qed.

(** X4.  Throughout a session every record of the users file keeps
    [0 <= correct_answers <= total_answers] and [0 <= quizzes_taken], if
    the file started that way: no answer and no end of a quiz can make
    the accuracy that [/stats] shows exceed 100%. *)
Theorem users_file_counters_stay_in_order
    (v : variant) (owner : Z) (steps : list step) (q : quiz)
    (us : dict Z user_stats) :
  Forall stats_in_order us ->
  Forall stats_in_order (snd (run v owner steps (q, us))).
Proof.
  unfold run. change us with (snd (q, us)) at 1. generalize (q, us). clear q us.
  induction steps as [|s steps IH]; intros st Hst; simpl; [exact Hst|].
  apply IH. now apply do_step_stats_in_order.
Qed.

Lemma get_user_data_set (uid k : Z) (s : user_stats) (us : dict Z user_stats) :
  get_user_data uid (dict_set k s us) = if k =? uid then s else get_user_data uid us.
Proof.
  unfold get_user_data. destruct (Z.eqb_spec k uid) as [->|Hne].
  - now rewrite dict_get_set_same.
  - now rewrite (dict_get_set_other _ _ Hne).
Qed.

Lemma count_quiz_taken_get (uid : Z) (us : dict Z user_stats)
    (entry : Z * participant) :
  let s := get_user_data uid us in
  let s' := get_user_data uid (count_quiz_taken us entry) in
  quizzes_taken s' = quizzes_taken s + (if fst entry =? uid then 1 else 0)
  /\ correct_answers s' = correct_answers s
  /\ total_answers s' = total_answers s.
Proof.
  cbv zeta. unfold count_quiz_taken. rewrite get_user_data_set.
  destruct (Z.eqb_spec (fst entry) uid) as [<-|Hne]; simpl; repeat split; lia.
Qed.

Lemma count_key_cons {V : Type} (uid k : Z) (x : V) (d : dict Z V) :
  count_key uid ((k, x) :: d)
  = ((if (k =? uid)%Z then 1 else 0) + count_key uid d)%nat.
Proof.
  unfold count_key. simpl. rewrite (Z.eqb_sym uid k).
  destruct (k =? uid); reflexivity.
Qed.

(** The users file after the quiz was counted for every entry of a
    table. *)
Lemma fold_count_quiz_taken (uid : Z) (parts : dict Z participant)
    (us : dict Z user_stats) :
  let s := get_user_data uid us in
  let s' := get_user_data uid (fold_left count_quiz_taken parts us) in
  quizzes_taken s' = quizzes_taken s + Z.of_nat (count_key uid parts)
  /\ correct_answers s' = correct_answers s
  /\ total_answers s' = total_answers s.
Proof.
  cbv zeta. revert us. induction parts as [|[k p] parts IH]; intros us.
  - cbn [fold_left]. unfold count_key. simpl. repeat split; lia.
  - cbn [fold_left]. destruct (IH (count_quiz_taken us (k, p))) as (Hq & Hc & Ht).
    destruct (count_quiz_taken_get uid us (k, p)) as (Hq1 & Hc1 & Ht1).
    cbn [fst] in Hq1. rewrite Hq, Hc, Ht, Hq1, Hc1, Ht1, count_key_cons.
    repeat split; try reflexivity. destruct (k =? uid); lia.
Qed.

Lemma count_key_nodup {V : Type} (uid : Z) (d : dict Z V) :
  NoDup (map fst d) ->
  count_key uid d = if existsb (fun e => fst e =? uid) d then 1%nat else 0%nat.
Proof.
  induction d as [|[k x] d IH]; intros Hnd; [reflexivity|].
  inversion Hnd as [|? ? Hk Hd]; subst. specialize (IH Hd).
  rewrite count_key_cons, IH. cbn [existsb fst].
  destruct (Z.eqb_spec k uid) as [->|Hne]; [|reflexivity]. cbn [orb].
  destruct (existsb (fun e => fst e =? uid) d) eqn:Hex; [|reflexivity].
  apply existsb_exists in Hex. destruct Hex as (e & He & Hek).
  apply Z.eqb_eq in Hek. subst uid. elim Hk. now apply in_map.
Qed.

Lemma existsb_perm {A : Type} (p : A -> bool) (l l' : list A) :
  Permutation l l' -> existsb p l = existsb p l'.
Proof.
  intros Hp. induction Hp as [|x l l' Hp IH|x y l|l l' l'' Hp1 IH1 Hp2 IH2]; simpl.
  - reflexivity.
  - now rewrite IH.
  - destruct (p x), (p y); reflexivity.
  - congruence.
Qed.

Lemma creator_fallback_nodup (q : quiz) (parts : dict Z participant) :
  NoDup (map fst parts) -> NoDup (map fst (creator_fallback q parts)).
Proof.
  intros Hnd. unfold creator_fallback.
  destruct parts; [|exact Hnd]. destruct (creator q) as [c|]; [|exact Hnd].
  destruct (creator_id c =? 0); [exact Hnd|]. simpl. repeat constructor. tauto.
Qed.

(** X5.  [end_quiz] raises [quizzes_taken] by exactly one for every user
    it ranks, leaves the records of all other users as they were, and
    changes no [correct_answers] and no [total_answers]. *)
Theorem end_quiz_counts_one_quiz_per_ranked_user
    (v : variant) (upd : Telegram.update) (q : quiz) (us : dict Z user_stats)
    (uid : Z) :
  let f := end_quiz v upd q us in
  let before := get_user_data uid us in
  let after := get_user_data uid (users_after f) in
  quizzes_taken after
  = quizzes_taken before + (if is_ranked uid (ranking f) then 1 else 0)
  /\ correct_answers after = correct_answers before
  /\ total_answers after = total_answers before.
Proof.
  cbv zeta. unfold end_quiz.
  destruct (match v with Original => negb (active q) | Lifechanger => false end);
    [simpl; repeat split; lia|].
  pose proof (@creator_fallback_nodup q _ (proj1 (rebuild_table (sent_polls q)))) as Hnd.
  destruct (creator_fallback q (rebuild_participants (sent_polls q)))
    as [|e parts] eqn:Et; [simpl; repeat split; lia|].
  cbn [users_after ranking].
  destruct (fold_count_quiz_taken uid (e :: parts) us) as (Hq & Hc & Ht).
  rewrite Hq, Hc, Ht, (@count_key_nodup _ uid _ Hnd). unfold is_ranked.
  rewrite <- (existsb_perm _ (sorted_participants_perm v (e :: parts))).
  destruct (existsb (fun e0 => fst e0 =? uid) (e :: parts)); repeat split; lia.
Qed.

(** ** Answers that arrive after the end *)

Lemma end_quiz_closes (v : variant) (upd : Telegram.update) (q : quiz)
    (us : dict Z user_stats) :
  active (quiz_after (end_quiz v upd q us)) = false.
Proof.
  unfold end_quiz. destruct v.
  - destruct (active q) eqn:Ea; simpl; [|exact Ea].
    destruct (creator_fallback q (rebuild_participants (sent_polls q))); reflexivity.
  - simpl. destruct (creator_fallback q (rebuild_participants (sent_polls q)));
      reflexivity.
Qed.

(** X6.  Once [end_quiz] has run on a quiz, an answer to any of its polls
    is dropped: if every other stored quiz is without the poll, the
    answer changes neither a quiz nor the users file. *)
Theorem answers_after_the_end_are_dropped
    (v : variant) (upd : Telegram.update) (q : quiz) (us : dict Z user_stats)
    (ev : Telegram.poll_answer) (w : world) :
  (forall uid q', In (uid, Some q') (user_data w) ->
     q' = quiz_after (end_quiz v upd q us)
     \/ dict_in (Telegram.poll_id ev) (sent_polls q') = false) ->
  poll_answer v ev w = w.
Proof.
  intros Hw. unfold poll_answer.
  rewrite find_active_quiz_none; [reflexivity|].
  intros uid q' Hin Hact. destruct (Hw uid q' Hin) as [-> | Hno]; [|exact Hno].
  rewrite end_quiz_closes in Hact. discriminate.
Qed.

(** ** A quiz on chosen questions ([Original.py]) *)

Import StartQuiz.

Lemma until_equals_digits (s : string) : all_digits s = true -> until_equals s = s.
Proof.
  induction s as [|c s IH]; simpl; [reflexivity|].
  intros Hd. apply andb_prop in Hd. destruct Hd as [Hc Hs].
  destruct (is_digit_not_sign c Hc) as (_ & _ & _ & He).
  destruct (Ascii.eqb_spec c "="); [contradiction|]. now rewrite IH.
Qed.

Lemma until_equals_str_int (z : Z) : until_equals (str_int z) = str_int z.
Proof.
  destruct z as [|p|p].
  - reflexivity.
  - rewrite str_int_positive. apply until_equals_digits, all_digits_string_of_uint.
  - rewrite str_int_negative. simpl. f_equal.
    apply until_equals_digits, all_digits_string_of_uint.
Qed.

Section ChosenQuestions.
Context {U : Unicode}.

Lemma int_after_equals_id (z : Z) : int_after_equals ("id=" ++ str_int z) = Some z.
Proof.
  unfold int_after_equals. simpl. rewrite until_equals_str_int. apply py_int_str_int.
Qed.

(** The arguments of [/quiz id=<n>]. *)
Lemma parse_args_id (n : Z) :
  parse_args ["/quiz"; "id=" ++ str_int n]
  = Some {| num_questions := 5; start_id := None; specific_id := Some n |}.
Proof.
  unfold parse_args. cbn [tl parse_from]. unfold parse_arg.
  replace (isdigit ("id=" ++ str_int n)) with false.
  2:{ symmetry. apply isdigit_prefixed;
        [reflexivity | apply Nat.ltb_lt; reflexivity |].
      simpl. apply str_int_ascii. }
  replace (String.prefix "id=" ("id=" ++ str_int n)) with true
    by (cbn; now destruct (str_int n)).
  now rewrite int_after_equals_id.
Qed.

Lemma start_quiz_nonempty
    (shuffle : list question -> list question) (bank : list question)
    (words : list string) (chat : Z) (requester : option Telegram.user)
    (a : quiz_args) :
  bank <> [] ->
  parse_args words = Some a ->
  start_quiz shuffle bank words chat requester
  = match select_questions shuffle bank a with
    | (path, Some selected) => Started path (new_quiz selected chat requester)
    | (path, None) => Raised path
    end.
Proof. intros Hb Ha. unfold start_quiz. rewrite Ha. now destruct bank. Qed.

(** X7.  [/quiz id=<n>], for any integer [n] under which the bank holds a
    question, starts a quiz of exactly one question: the first question
    of the bank whose id is [n]. *)
Theorem quiz_by_id_asks_that_question
    (shuffle : list question -> list question) (bank : list question) (n : Z)
    (chat : Z) (requester : option Telegram.user) (target : question) :
  find (fun q => q_id q =? n) bank = Some target ->
  q_id target = n
  /\ start_quiz shuffle bank ["/quiz"; "id=" ++ str_int n] chat requester
     = Started BySpecificId (new_quiz [target] chat requester).
Proof.
  intros Hf. split; [apply find_some in Hf; now apply Z.eqb_eq|].
  erewrite start_quiz_nonempty;
    [| intros ->; discriminate | apply parse_args_id].
  unfold select_questions. cbn [specific_id]. now rewrite Hf.
Qed.

Lemma find_start_index_sorted (sid : Z) (l : list question) (i0 : nat) :
  StronglySorted (fun x y => q_id x <= q_id y) l ->
  match find_start_index sid i0 l with
  | Some i =>
      exists j, i = (i0 + j)%nat /\ (j < List.length l)%nat
                /\ skipn j l = filter (fun q => sid <=? q_id q) l
  | None => filter (fun q => sid <=? q_id q) l = []
  end.
Proof.
  intros Hs. revert i0. induction Hs as [|q l Hs IH Hq]; intros i0; simpl.
  - reflexivity.
  - destruct (Z.leb_spec sid (q_id q)) as [Hle|Hlt].
    + exists 0%nat. repeat split; [lia | simpl; lia |]. simpl. f_equal.
      symmetry. apply forallb_filter_id. apply forallb_forall. intros x Hx.
      rewrite Forall_forall in Hq. specialize (Hq x Hx). apply Z.leb_le. lia.
    + specialize (IH (S i0)). destruct (find_start_index sid (S i0) l) as [i|].
      * destruct IH as (j & -> & Hj & Hskip). exists (S j).
        repeat split; [lia | simpl; lia | exact Hskip].
      * exact IH.
Qed.

Lemma sorted_by_id (bank : list question) :
  StronglySorted (fun x y => q_id x <= q_id y)
                 (sorted (fun x y => q_id x <? q_id y) bank)
  /\ Permutation bank (sorted (fun x y => q_id x <? q_id y) bank).
Proof.
  unfold sorted. split; [|apply stable_sort_perm].
  eapply StronglySorted_weaken;
    [|apply stable_sort_sorted with (after := fun x y => q_id y <? q_id x)].
  - intros x y _ _ Hxy. apply Z.ltb_ge in Hxy. exact Hxy.
  - intros x y Hxy. apply Z.ltb_lt in Hxy. apply Z.ltb_ge. lia.
  - intros x y z Hxy Hyz. rewrite Z.ltb_ge in *. lia.
Qed.

(** X8.  [/quiz] whose arguments are read without an exception and leave
    a start id and no id to ask for: when some question has an id of at
    least the start id, the quiz asks, in ascending order of id, the
    first [k] of the questions with such an id, where [k] is the count
    asked for (5 by default, 10 at most); and it raises an [IndexError]
    instead when that count is [0]. *)
Theorem quiz_from_start_id_asks_the_next_ids
    (shuffle : list question -> list question) (bank : list question)
    (words : list string) (chat : Z) (requester : option Telegram.user)
    (a : quiz_args) (sid : Z) :
  parse_args words = Some a ->
  specific_id a = None ->
  start_id a = Some sid ->
  let k := num_questions a in
  let by_id := sorted (fun x y => q_id x <? q_id y) bank in
  let upper := filter (fun q => sid <=? q_id q) by_id in
  upper <> [] ->
  StronglySorted (fun x y => q_id x <= q_id y) by_id
  /\ Permutation bank by_id
  /\ match start_quiz shuffle bank words chat requester with
     | Started FromStartId q =>
         0 < k /\ questions q = firstn (Z.to_nat k) upper
     | Raised FromStartId => k = 0
     | _ => False
     end.
Proof.
  intros Hargs Hspec Hstart k by_id upper Hupper.
  destruct (sorted_by_id bank) as [Hsorted Hperm]. fold by_id in Hsorted, Hperm.
  split; [exact Hsorted|]. split; [exact Hperm|].
  pose proof (parse_args_count words) as Hk. rewrite Hargs in Hk.
  destruct Hk as (_ & _ & _ & Hk). fold k in Hk.
  erewrite start_quiz_nonempty; [| |exact Hargs].
  2:{ intros ->. apply Permutation_nil in Hperm. unfold upper in Hupper.
      rewrite Hperm in Hupper. now elim Hupper. }
  unfold select_questions. rewrite Hspec, Hstart. fold by_id.
  pose proof (find_start_index_sorted sid 0 Hsorted) as Hfind.
  destruct (find_start_index sid 0 by_id) as [i|]; [|now elim Hupper].
  destruct Hfind as (j & -> & Hj & Hskip). fold upper in Hskip. cbn [Nat.add].
  fold k. unfold slice.
  assert (Hlen : List.length upper = (List.length by_id - j)%nat)
    by (rewrite <- Hskip; apply length_skipn).
  assert (Hfirst : firstn (Z.to_nat (Z.min (Z.of_nat j + k)
                                           (Z.of_nat (List.length by_id))) - j)
                          (skipn j by_id)
                   = firstn (Z.to_nat k) upper).
  { rewrite Hskip. destruct (Z.le_ge_cases (Z.of_nat j + k) (Z.of_nat (List.length by_id))).
    - rewrite Z.min_l by lia. f_equal. lia.
    - rewrite Z.min_r by lia. rewrite !firstn_all2; [reflexivity | lia | lia]. }
  rewrite Hfirst.
  destruct (firstn (Z.to_nat k) upper) as [|x xs] eqn:Ef.
  - destruct upper as [|u upper']; [now elim Hupper|].
    destruct (Z.to_nat k) eqn:Ek; [lia | discriminate].
  - split; [|reflexivity]. destruct (Z.to_nat k) eqn:Ek; [discriminate | lia].
Qed.

End ChosenQuestions.

(** ** The countdown bar ([simple_bot.py]) *)

Import Countdown.

Lemma filled_exact_120 : forallb row_exact (seq 1 120) = true.
Proof. vm_compute. reflexivity. Qed.

Lemma filled_exact_in_range (seconds total : nat) :
  (1 <= total <= 120)%nat -> (seconds <= total)%nat ->
  filled_exact seconds total = true.
Proof.
  intros Ht Hs.
  pose proof (proj1 (forallb_forall row_exact (seq 1 120)) filled_exact_120 total)
    as Hrow.
  unfold row_exact in Hrow.
  apply (proj1 (forallb_forall (fun s => filled_exact s total) (seq 0 (S total)))).
  - apply Hrow, in_seq. lia.
  - apply in_seq. lia.
Qed.

(** X9.  For a countdown of up to 120 seconds (the bot uses 15 and 30)
    and from [0] to [total] seconds left, the bar has exactly ten blocks,
    of which the full ones are the tenths of the time that are left,
    rounded down: the division and the product in binary64 never fall
    short of the exact quotient. *)
Theorem countdown_bar_shows_tenths_left (seconds total : Z) :
  0 < total <= 120 -> 0 <= seconds <= total ->
  let k := 10 * seconds / total in
  0 <= k <= 10
  /\ create_countdown_animation seconds total
     = Some ("[" ++ (repeat_str full_block k ++ repeat_str empty_block (10 - k))
                 ++ "] " ++ str_int seconds ++ "s").
Proof.
  intros Ht Hs k.
  assert (Hk : 0 <= k <= 10).
  { unfold k. split; [apply Z.div_pos; lia|].
    apply Z.div_le_upper_bound; lia. }
  split; [exact Hk|].
  assert (Hrow : filled_exact (Z.to_nat seconds) (Z.to_nat total) = true)
    by (apply filled_exact_in_range; lia).
  unfold filled_exact, filled in Hrow. rewrite !Z2Nat.id in Hrow by lia.
  unfold create_countdown_animation.
  destruct (Z.eqb_spec total 0) as [|_]; [lia|].
  destruct (int_of_float
              (to_float (py_mul (py_truediv (Int seconds) (Int total)) (Int 10))))
    as [filled_blocks|]; [|discriminate].
  apply Z.eqb_eq in Hrow. now subst filled_blocks.
Qed.

(** ** Quizzes drawn at random: by category, in [Lifechanger.py], in
    [simple_bot.py] *)

Import CategoryQuiz.

Section RandomDraws.
Context {U : Unicode}.
Variable shuffle : list question -> list question.
Hypothesis shuffle_perm : forall l, Permutation l (shuffle l).

Lemma random_sample_drawn (population : list question) (k : Z) :
  0 <= k ->
  exists selected,
    random_sample shuffle population (Z.min k (Z.of_nat (List.length population)))
    = Some selected
    /\ Z.of_nat (List.length selected) = Z.min k (Z.of_nat (List.length population))
    /\ forall q, In q selected -> In q population.
Proof.
  intros Hk. unfold random_sample.
  destruct (Z.leb_spec 0 (Z.min k (Z.of_nat (List.length population)))); [|lia].
  destruct (Z.leb_spec (Z.min k (Z.of_nat (List.length population)))
                       (Z.of_nat (List.length population))); [|lia].
  eexists. split; [reflexivity|]. split.
  - rewrite length_firstn, <- (Permutation_length (shuffle_perm population)). lia.
  - intros q Hq. eapply Permutation_in; [symmetry; apply shuffle_perm|].
    rewrite <- (firstn_skipn (Z.to_nat (Z.min k (Z.of_nat (List.length population))))
                             (shuffle population)).
    apply in_or_app. now left.
Qed.

(** X10.  A quiz by category asks [min(5, n)] questions, where [n] is the
    number of stored questions of the category, all of them of that
    category and from the bank; the category is the callback data with
    every [cat_] removed; and [random.sample] never refuses. *)
Theorem category_quiz_asks_up_to_five_of_the_category
    (data : string) (questions : list question) :
  let category := PyText.replace "cat_" "" data in
  let of_category := filter (fun q => String.eqb (q_category q) category) questions in
  match category_callback shuffle data questions with
  | Selected c selected =>
      c = category
      /\ Z.of_nat (List.length selected) = Z.min 5 (Z.of_nat (List.length of_category))
      /\ selected <> []
      /\ forall q, In q selected -> In q questions /\ q_category q = category
  | NoneFound c => c = category /\ of_category = []
  | RaisedValueError => False
  end.
Proof.
  intros category of_category. unfold category_callback.
  fold category. fold of_category.
  destruct of_category as [|q0 rest] eqn:Eo; [now split|].
  destruct (@random_sample_drawn (q0 :: rest) 5 ltac:(lia)) as (selected & -> & Hl & Hin).
  split; [reflexivity|]. split; [exact Hl|]. split.
  - intros ->. simpl in Hl. lia.
  - intros q Hq. specialize (Hin q Hq). rewrite <- Eo in Hin.
    apply filter_In in Hin. destruct Hin as [Hbank Hcat].
    split; [exact Hbank | now apply String.eqb_eq].
Qed.

Lemma select_questions_random_path (bank : list question) (a : quiz_args) :
  0 <= num_questions a ->
  fst (select_questions shuffle bank a) = RandomSample ->
  exists selected,
    snd (select_questions shuffle bank a) = Some selected
    /\ Z.of_nat (List.length selected)
       = Z.min (num_questions a) (Z.of_nat (List.length bank)).
Proof.
  intros Hpos.
  destruct (random_sample_drawn bank Hpos) as (selected & Hs & Hl & _).
  unfold select_questions.
  destruct (specific_id a) as [sid|].
  - destruct (find (fun q => q_id q =? sid) bank); [discriminate|].
    intros _. exists selected. now split.
  - destruct (start_id a) as [sid|].
    + destruct (find_start_index sid 0 _) as [i|].
      * destruct (slice _ i _); discriminate.
      * intros _. exists selected. now split.
    + intros _. exists selected. now split.
Qed.

(** The count [start_quiz] of [Lifechanger.py] stores, when no argument
    makes it raise. *)
Lemma timer_parse_count (args : list string) (a : quiz_args) (r : Z) :
  num_questions a = r -> 0 <= r ->
  match TimerStart.parse_from a args with
  | Some a' =>
      exists requested,
        count_from r args = Some requested
        /\ num_questions a' = requested /\ 0 <= requested
  | None => count_from r args = None
  end.
Proof.
  revert a r. induction args as [|arg args IH]; intros a r Ha Hpos.
  - simpl. exists r. now repeat split.
  - cbn [TimerStart.parse_from count_from]. unfold TimerStart.parse_arg.
    destruct (isdigit arg) eqn:Ed.
    + destruct (py_int arg) as [n|] eqn:En; [|reflexivity].
      pose proof (py_int_isdigit_nonneg arg Ed En) as Hn.
      apply IH; [reflexivity | exact Hn].
    + destruct (String.prefix "id=" arg);
        [destruct (int_after_equals arg); apply IH; assumption|].
      destruct (String.prefix "start=" arg);
        [destruct (int_after_equals arg); apply IH; assumption|].
      now apply IH.
Qed.

(** X11.  In [Lifechanger.py] a quiz drawn at random has
    [min(requested, bank size)] questions, where [requested] is the
    number of the last argument of [/quiz] that is a text of digits, and
    [5] without one: the count is not capped at [10], an empty bank gives
    a quiz without questions, and the sample never raises.  The timer
    stored is 15 or 30 seconds.  When [int] raises on an argument,
    [start_quiz] stores nothing. *)
Theorem timed_quiz_size_is_not_capped
    (data : string) (words : list string) (bank : list question) (chat : Z)
    (from_user : option Telegram.user) :
  match TimerStart.start_quiz words with
  | None => requested_count words = None
  | Some a =>
      exists requested,
        requested_count words = Some requested
        /\ match TimerStart.handle_timer_selection shuffle data (Some a)
                   bank chat from_user with
           | TimerStart.Started RandomSample q timer =>
               Z.of_nat (List.length (questions q))
               = Z.min requested (Z.of_nat (List.length bank))
               /\ (timer = 15 \/ timer = 30)
           | TimerStart.Started _ _ timer => timer = 15 \/ timer = 30
           | TimerStart.Raised RandomSample => False
           | TimerStart.Raised _ => True
           end
  end.
Proof.
  pose proof (@timer_parse_count (tl words)
                {| num_questions := 5; start_id := None; specific_id := None |}
                5 eq_refl ltac:(lia)) as Hcount.
  unfold TimerStart.start_quiz, requested_count.
  destruct (TimerStart.parse_from _ (tl words)) as [a|]; [|exact Hcount].
  destruct Hcount as (requested & Hreq & Hnum & Hpos).
  exists requested. split; [exact Hreq|].
  assert (Hpos' : 0 <= num_questions a) by lia.
  pose proof (@select_questions_random_path bank a Hpos') as Hrandom.
  rewrite Hnum in Hrandom.
  assert (Htimer : TimerStart.timer_seconds data = 15 \/ TimerStart.timer_seconds data = 30).
  { unfold TimerStart.timer_seconds. destruct (String.eqb data "timer_15"); auto. }
  unfold TimerStart.handle_timer_selection.
  destruct (select_questions shuffle bank a) as [path [selected|]];
    cbn [fst snd] in Hrandom.
  - destruct path; try exact Htimer.
    destruct (Hrandom eq_refl) as (sel & [= <-] & Hl). now split.
  - destruct path; try exact I.
    destruct (Hrandom eq_refl) as (sel & Hs & _). discriminate.
Qed.

(** The count [start_quiz] of [simple_bot.py] arrives at, when no argument
    makes it raise. *)
Lemma simple_parse_count (args : list string) (a : SimpleStart.quiz_args) (r : Z) :
  SimpleStart.num_questions a = r -> 0 <= r ->
  match SimpleStart.parse_from a args with
  | Some a' =>
      exists requested,
        count_from r args = Some requested
        /\ SimpleStart.num_questions a' = requested /\ 0 <= requested
  | None => count_from r args = None
  end.
Proof.
  revert a r. induction args as [|arg args IH]; intros a r Ha Hpos.
  - simpl. exists r. now repeat split.
  - cbn [SimpleStart.parse_from count_from]. unfold SimpleStart.parse_arg.
    destruct (isdigit arg) eqn:Ed.
    + destruct (py_int arg) as [n|] eqn:En; [|reflexivity].
      pose proof (py_int_isdigit_nonneg arg Ed En) as Hn.
      apply IH; [reflexivity | exact Hn].
    + destruct (String.prefix "id=" arg);
        [destruct (int_after_equals arg); apply IH; assumption|].
      now apply IH.
Qed.

(** X12.  [/quiz] of [simple_bot.py].  When [int] raises on an argument
    that is a text of digits, the handler ends before it stores a quiz.
    Otherwise, and when the arguments leave no id to ask for, the quiz
    has [min(requested, bank size)] questions (no cap) and its first
    question is sent, unless [requested] is [0]: then [questions[0]]
    raises an [IndexError] and a quiz without questions stays stored.
    With an empty bank the quiz is refused.  [random.sample] never
    raises. *)
Theorem simple_quiz_start_at_random (args : list string) (f : QuestionBank.file) :
  let bank := fst (QuestionBank.load_questions f) in
  match SimpleStart.parse_args args with
  | None =>
      SimpleStart.start_quiz shuffle args f = (SimpleStart.RaisedInArgs, f)
      /\ requested_count ("/quiz" :: args) = None
  | Some a =>
      SimpleStart.specific_ids a = [] ->
      exists requested,
        requested_count ("/quiz" :: args) = Some requested
        /\ match fst (SimpleStart.start_quiz shuffle args f) with
           | SimpleStart.FirstPoll q first =>
               0 < requested
               /\ Z.of_nat (List.length (SimpleBot.questions q))
                  = Z.min requested (Z.of_nat (List.length bank))
               /\ hd_error (SimpleBot.questions q) = Some first
               /\ SimpleBot.participants q = [] /\ SimpleBot.current_index q = 0
           | SimpleStart.RaisedIndexError q =>
               requested = 0 /\ bank <> [] /\ q = SimpleStart.quiz_on []
           | SimpleStart.NoQuestions => bank = []
           | SimpleStart.NoValidIds => False
           | SimpleStart.RaisedValueError _ => False
           | SimpleStart.RaisedInArgs => False
           end
  end.
Proof.
  intros bank.
  pose proof (@simple_parse_count args
                {| SimpleStart.num_questions := 5; SimpleStart.specific_ids := [] |}
                5 eq_refl ltac:(lia)) as Hcount.
  unfold SimpleStart.start_quiz, requested_count. cbn [tl].
  unfold SimpleStart.parse_args in *.
  destruct (SimpleStart.parse_from _ args) as [a|]; [|now split].
  destruct Hcount as (requested & Hreq & Hnum & Hpos).
  intros Hids. exists requested. split; [exact Hreq|].
  rewrite Hids, Hnum.
  destruct (QuestionBank.load_questions f) as [all f'] eqn:El. subst bank. cbn [fst].
  destruct all as [|q0 rest]; [reflexivity|].
  destruct (random_sample_drawn (q0 :: rest) Hpos) as (selected & -> & Hl & _).
  destruct selected as [|first more]; cbn [fst].
  - split; [|split; [discriminate | reflexivity]]. simpl in Hl. lia.
  - split; [simpl in Hl; lia|]. split; [exact Hl|]. now repeat split.
Qed.
End RandomDraws.

(** ** From the timer button to the results ([Simple_bot.py]) *)

Import TimedQuiz TimedRound.

Lemma split_lacks (sep : ascii) (s : string) :
  PyText.lacks sep s = true -> PyText.split sep s = [s].
Proof.
  induction s as [|c s IH]; simpl; [reflexivity|].
  intros Hl. apply andb_prop in Hl. destruct Hl as [Hc Hs].
  apply negb_true_iff in Hc. rewrite Hc, (IH Hs). reflexivity.
Qed.

Lemma split_app_sep (sep : ascii) (s t : string) :
  PyText.lacks sep s = true ->
  PyText.split sep (s ++ String sep t) = s :: PyText.split sep t.
Proof.
  induction s as [|c s IH]; simpl.
  - intros _. now rewrite Ascii.eqb_refl.
  - intros Hl. apply andb_prop in Hl. destruct Hl as [Hc Hs].
    apply negb_true_iff in Hc. rewrite Hc, (IH Hs). reflexivity.
Qed.

Lemma lacks_digits (s : string) : all_digits s = true -> PyText.lacks "_" s = true.
Proof.
  induction s as [|c s IH]; simpl; [reflexivity|].
  intros Hd. apply andb_prop in Hd. destruct Hd as [Hc Hs].
  destruct (is_digit_not_sign c Hc) as (_ & _ & Hu & _).
  destruct (Ascii.eqb_spec c "_"); [contradiction|]. simpl. now apply IH.
Qed.

Lemma lacks_str_int (z : Z) : PyText.lacks "_" (str_int z) = true.
Proof.
  destruct z as [|p|p].
  - reflexivity.
  - rewrite str_int_positive. apply lacks_digits, all_digits_string_of_uint.
  - rewrite str_int_negative. simpl. apply lacks_digits, all_digits_string_of_uint.
Qed.

Lemma until_underscore_lacks (s t : string) :
  PyText.lacks "_" s = true -> until_underscore (s ++ String "_" t) = s.
Proof.
  induction s as [|c s IH]; simpl; [reflexivity|].
  intros Hl. apply andb_prop in Hl. destruct Hl as [Hc Hs].
  apply negb_true_iff in Hc. rewrite Hc, (IH Hs). reflexivity.
Qed.

(** X13.  The key [handle_timer_selection] stores a quiz under gives back
    the chat: [int(quiz_key.split("_")[1])] is the chat id, for every
    chat id and message id, so that the answer handler does not raise on
    a quiz of that origin once its search has found it. *)
Theorem quiz_key_gives_back_the_chat {U : Unicode}
    (is_private : Z -> bool) (chat_id message_id : Z)
    (ev : Telegram.poll_answer) (w : world) :
  chat_id_of_key (quiz_key chat_id message_id) = Ok chat_id
  /\ (find_quiz_key (Telegram.poll_id ev) (bot_data w)
      = Ok (Some (quiz_key chat_id message_id)) ->
      has_failed (handle_quiz_answer is_private ev w) = false).
Proof.
  assert (Hkey : chat_id_of_key (quiz_key chat_id message_id) = Ok chat_id).
  { unfold chat_id_of_key, quiz_key. cbn [append after_underscore Ascii.eqb Bool.eqb].
    rewrite (@until_underscore_lacks (str_int chat_id) _ (lacks_str_int chat_id)).
    unfold int. now rewrite py_int_str_int. }
  split; [exact Hkey|]. intros Hfind.
  unfold handle_quiz_answer. rewrite Hfind.
  destruct (dict_get (quiz_key chat_id message_id) (bot_data w)) as [d|]; [|reflexivity].
  destruct (timer d =? 0); [|reflexivity]. rewrite Hkey.
  destruct (is_private chat_id); reflexivity.
Qed.

(** X14.  The data of a timer button is read back as it was written:
    pressing the button made for timer [t] and question id [n] stores,
    when a question is found under [n], a quiz on that question with
    timer [t], negative marking on and no participants, under the key of
    the chat and the message; a job to end it is queued exactly when
    [t > 0]. *)
Theorem timer_button_is_read_back {U : Unicode}
    (t n chat_id message_id sent_message_id : Z) (w : world)
    (f : QuestionBank.file) (q : question) :
  fst (QuestionBank.get_question_by_id n f) = Some q ->
  fst (handle_timer_selection (timer_button t n) chat_id message_id sent_message_id w f)
  = QuizSent
      {| bot_data :=
           dict_set (quiz_key chat_id message_id)
             {| correct_option := Some (correct_answer_of q);
                participants := [];
                negative_marking := Some true;
                timer := t;
                question_id := n;
                poll_message_id := Some sent_message_id |}
             (bot_data w);
         users := users w;
         jobs := if 0 <? t
                 then (jobs w ++ [{| job_chat_id := chat_id;
                                     job_quiz_key := quiz_key chat_id message_id |}])%list
                 else jobs w |}
      q.
Proof.
  intros Hq. unfold handle_timer_selection, timer_button.
  change ("timer_" ++ str_int t ++ "_" ++ str_int n)
    with ("timer" ++ String "_" (str_int t ++ String "_" (str_int n))).
  rewrite (@split_app_sep "_" "timer" _ eq_refl).
  rewrite (@split_app_sep "_" (str_int t) _ (lacks_str_int t)).
  rewrite (@split_lacks "_" (str_int n) (lacks_str_int n)).
  rewrite !py_int_str_int.
  destruct (QuestionBank.get_question_by_id n f) as [found f'].
  cbn [fst] in Hq. now subst found.
Qed.

Lemma score_lt_false_iff (x y : string * participant) :
  score_lt x y = false <-> (value (score (snd y)) <= value (score (snd x)))%Q.
Proof.
  unfold score_lt.
  destruct (Qcompare_spec (value (score (snd x))) (value (score (snd y)))) as [E|E|E];
    split; intros H; try reflexivity; try discriminate; lra.
Qed.

Lemma rows_from_ranks (i : nat) (ranked : list (string * participant)) :
  map row_rank (rows_from i ranked) = seq i (List.length ranked)
  /\ map (fun r => (row_name r, row_points r)) (rows_from i ranked)
     = map (fun e => (name (snd e), score (snd e))) ranked.
Proof.
  revert i. induction ranked as [|[k p] ranked IH]; intros i; simpl; [now split|].
  destruct (IH (S i)) as [Hr Hn]. now rewrite Hr, Hn.
Qed.

Lemma rows_from_Forall (P : number -> Prop) (i : nat)
    (ranked : list (string * participant)) :
  Forall (fun e => P (score (snd e))) ranked ->
  Forall (fun r => P (row_points r)) (rows_from i ranked).
Proof.
  intros H. revert i. induction H as [|[k p] ranked Hp Hr IH]; intros i; simpl;
    constructor; auto.
Qed.

Lemma rows_from_sorted (i : nat) (ranked : list (string * participant)) :
  StronglySorted (fun x y => score_lt x y = false) ranked ->
  StronglySorted (fun a b => (value (row_points b) <= value (row_points a))%Q)
                 (rows_from i ranked).
Proof.
  intros H. revert i. induction H as [|[k p] ranked Hs IH Hall]; intros i; simpl;
    constructor; [apply IH|].
  apply rows_from_Forall with (P := fun x => (value x <= value (score p))%Q).
  eapply Forall_impl; [|exact Hall]. intros e He. now apply score_lt_false_iff in He.
Qed.

Lemma dict_get_del {K V : Type} `{Key K} (k : K) (d : dict K V) :
  NoDup (map fst d) -> dict_get k (PyText.dict_del k d) = None.
Proof.
  induction d as [|[k0 v0] d IH]; simpl; [reflexivity|].
  intros Hnd. inversion Hnd as [|? ? Hk0 Hd]; subst.
  destruct (key_eqb k k0) eqn:E.
  - apply key_eqb_eq in E. subst k0. now apply dict_get_not_key.
  - simpl. rewrite E. now apply IH.
Qed.

(** X15.  When the results of a timed quiz with participants are sent,
    every participant has one line, the lines are ranked [1], [2], ...
    and stand in the order of their points, highest first; afterwards the
    quiz is gone from the bot data, and results asked for again send
    nothing. *)
Theorem timed_results_are_ranked_and_sent_once
    (k : string) (w : world) (f : QuestionBank.file) (d : quiz_data) :
  NoDup (map fst (bot_data w)) ->
  dict_get k (bot_data w) = Some d ->
  participants d <> [] ->
  exists text rows w' f',
    send_quiz_results k w f
    = (Ranked text (List.length (participants d)) rows, w', f')
    /\ map row_rank rows = seq 1 (List.length (participants d))
    /\ StronglySorted (fun a b => (value (row_points b) <= value (row_points a))%Q) rows
    /\ Permutation (map (fun e => (name (snd e), score (snd e))) (participants d))
                   (map (fun r => (row_name r, row_points r)) rows)
    /\ dict_get k (bot_data w') = None
    /\ users w' = users w
    /\ send_quiz_results k w' f' = (NothingSent, w', f').
Proof.
  intros Hnd Hd Hparts. unfold send_quiz_results at 1. rewrite Hd.
  destruct (participants d) as [|e parts] eqn:Ep; [congruence|]. rewrite <- Ep in *.
  destruct (QuestionBank.get_question_by_id (question_id d) f) as [question f'] eqn:Eq.
  set (ranked := sorted_reverse score_lt (participants d)).
  assert (Hperm : Permutation (participants d) ranked) by apply stable_sort_perm.
  assert (Hsorted : StronglySorted (fun x y => score_lt x y = false) ranked).
  { apply stable_sort_sorted.
    - intros x y Hxy. apply score_lt_false_iff.
      unfold score_lt in Hxy.
      destruct (Qcompare_spec (value (score (snd x))) (value (score (snd y))));
        try discriminate. lra.
    - intros x y z. rewrite !score_lt_false_iff. intros; lra. }
  destruct (rows_from_ranks 1 ranked) as [Hranks Hnames].
  do 4 eexists. split; [rewrite (Permutation_length Hperm); reflexivity|].
  split; [now rewrite Hranks, (Permutation_length Hperm)|].
  split; [now apply rows_from_sorted|].
  split; [rewrite Hnames; now apply Permutation_map|].
  cbn [bot_data users].
  assert (Hgone : dict_get k (PyText.dict_del k (bot_data w)) = None)
    by now apply dict_get_del.
  split; [exact Hgone|]. split; [reflexivity|].
  unfold send_quiz_results. cbn [bot_data]. now rewrite Hgone.
Qed.

(** ** The users file of [Simple_bot.py] *)

Lemma update_user_score_in_order (uid : Z) (points : number)
    (us : dict string user_score) :
  Forall score_in_order us -> Forall score_in_order (update_user_score uid points us).
Proof.
  intros Hus. unfold update_user_score.
  apply dict_set_Forall
    with (Q := fun s => 0 <= correct_answers s <= questions_answered s);
    [reflexivity | exact Hus |].
  assert (Hs : 0 <= correct_answers
                      match dict_get (str_int uid) us with
                      | Some s => s
                      | None => {| total_score := Int 0; questions_answered := 0;
                                   correct_answers := 0 |}
                      end
               <= questions_answered
                    match dict_get (str_int uid) us with
                    | Some s => s
                    | None => {| total_score := Int 0; questions_answered := 0;
                                 correct_answers := 0 |}
                    end).
  { destruct (dict_get (str_int uid) us) as [s|] eqn:Hg; [|simpl; lia].
    destruct (dict_get_In _ _ Hg) as [k' Hin]. rewrite Forall_forall in Hus.
    exact (Hus _ Hin). }
  cbn [correct_answers questions_answered].
  destruct (Qcompare 0 (value points)); lia.
Qed.

(** X16.  Whatever answers [handle_quiz_answer] is given, the users file
    keeps [0 <= correct_answers <= questions_answered] in every record,
    if it started that way: the accuracy [/mystats] shows stays within
    100%. *)
Theorem timed_users_file_counters_stay_in_order {U : Unicode}
    (is_private : Z -> bool) (evs : list Telegram.poll_answer) (w : world) :
  Forall score_in_order (users w) ->
  Forall score_in_order (users (fst (handle_all is_private evs w))).
Proof.
  revert w. induction evs as [|ev evs IH]; intros w Hw; simpl; [exact Hw|].
  destruct (handle_all is_private evs (world_after (handle_quiz_answer is_private ev w)))
    as [w' failed] eqn:Eh.
  specialize (IH (world_after (handle_quiz_answer is_private ev w))).
  rewrite Eh in IH. cbn [fst] in *. apply IH. clear IH Eh.
  unfold handle_quiz_answer.
  destruct (find_quiz_key (Telegram.poll_id ev) (bot_data w)) as [[key|]|e];
    try exact Hw.
  destruct (dict_get key (bot_data w)) as [d|]; [|exact Hw].
  assert (Hnew : Forall score_in_order
                   (update_user_score (Telegram.id (Telegram.from_user ev))
                      (points_of d (hd_error (Telegram.option_ids ev))) (users w)))
    by now apply update_user_score_in_order.
  destruct (timer d =? 0); [|exact Hnew].
  destruct (chat_id_of_key key) as [c|e]; [|exact Hnew].
  destruct (is_private c); exact Hnew.
Qed.

(** ** Questions added in a conversation ([Simple_bot.py]) *)

Import AddQuestion.

Lemma stripped_lines_not_empty (text : string) :
  Forall (fun o => o <> "") (PyText.stripped_lines text).
Proof.
  unfold PyText.stripped_lines. apply Forall_forall. intros o Ho.
  apply in_map_iff in Ho. destruct Ho as (x & <- & Hx).
  apply filter_In in Hx. destruct Hx as [_ Hx].
  destruct (PyText.strip x); [discriminate | discriminate].
Qed.

Lemma StronglySorted_snoc {A : Type} (R : A -> A -> Prop) (l : list A) (x : A) :
  StronglySorted R l -> Forall (fun y => R y x) l -> StronglySorted R (l ++ [x]).
Proof.
  induction 1 as [|a l Hs IH Ha]; intros Hx; simpl.
  - repeat constructor.
  - inversion Hx as [|? ? Hax Hlx]; subst. constructor; [now apply IH|].
    apply Forall_app. split; [exact Ha | now constructor].
Qed.

Lemma add_question_category_in_order (before : list question) (text : string)
    (ud : user_data) (f : file) :
  checked EDIT_SELECT ud ->
  added_in_order before {| next := EDIT_SELECT; data := ud; file_after := f;
                           raised := false |} ->
  let l := add_question_category text ud f in
  next l = END /\ data l = cleared /\ raised l = false /\ added_in_order before l.
Proof.
  intros (Hlen & Hopts & a & Ha & Hrange) (added & Hfile & Hwf & Hnew & Hsorted).
  cbn [file_after] in Hfile. unfold add_question_category.
  destruct (next_question_id_above f) as [Hf1 Hbelow].
  destruct (get_next_question_id f) as [new_id f1]. cbn [fst snd] in Hf1, Hbelow.
  subst f1. rewrite load_questions_twice. rewrite Ha.
  assert (Hidx : exists o, PyText.index (options_of ud) a = Some o).
  { unfold PyText.index. destruct (Z.leb_spec 0 a); [|lia].
    destruct (nth_error (options_of ud) (Z.to_nat a)) as [o|] eqn:En; [eauto|].
    apply nth_error_None in En. lia. }
  destruct Hidx as [o ->]. cbn [next data raised file_after].
  repeat split; try reflexivity.
  exists (added ++ [{| q_id := new_id;
                       q_question := match ud_question ud with Some t => t | None => "" end;
                       q_options := options_of ud;
                       q_answer := Some a;
                       q_category := category_of text |}])%list.
  rewrite Hfile in *. cbn [save_questions load_questions fst].
  split; [now rewrite app_assoc|]. split; [|split].
  - apply Forall_app. split; [exact Hwf|]. constructor; [|constructor].
    unfold well_formed. cbn [q_options q_answer]. repeat split; try lia; try assumption.
    exists a. split; [reflexivity | lia].
  - apply Forall_app. split; [exact Hnew|]. constructor; [|constructor].
    cbn [q_id]. intros q' Hq'. apply Hbelow, in_or_app. now left.
  - apply StronglySorted_snoc; [exact Hsorted|].
    apply Forall_forall. intros q' Hq'. cbn [q_id]. apply Hbelow, in_or_app. now right.
Qed.

Section AddFacts.
Context {U : Unicode}.

Lemma step_in_order (before : list question) (l : left) (i : input) :
  checked (next l) (data l) -> added_in_order before l ->
  checked (next (step l i)) (data (step l i))
  /\ added_in_order before (step l i)
  /\ (raised l = false -> raised (step l i) = false).
Proof.
  intros Hc Ha. destruct l as [st ud f r]. cbn [next data] in Hc.
  assert (Hsame : forall st' ud' r',
             added_in_order before
               {| next := st'; data := ud'; file_after := f; raised := r' |}).
  { intros st' ud' r'. exact Ha. }
  unfold step. cbn [next data file_after raised].
  destruct st, i as [t| |]; cbn [checked];
    try (split; [exact I | split; [apply Hsame | auto]]);
    try (split; [exact Hc | split; [exact Ha | auto]]).
  - (* OPTIONS *)
    unfold add_question_options.
    destruct ((List.length (PyText.stripped_lines t) <? 2)%nat
              || (10 <? List.length (PyText.stripped_lines t))%nat) eqn:E;
      cbn [next data raised].
    + split; [exact I | split; [apply Hsame | auto]].
    + apply orb_false_iff in E. destruct E as [E2 E10].
      apply Nat.ltb_ge in E2. apply Nat.ltb_ge in E10.
      split; [|split; [apply Hsame | auto]].
      cbn [checked options_of ud_options].
      split; [lia | apply stripped_lines_not_empty].
  - (* ANSWER *)
    unfold add_question_answer. destruct (py_int t) as [answer_index|];
      [|split; [exact Hc | split; [apply Hsame | auto]]].
    destruct ((answer_index <? 0)
              || (Z.of_nat (List.length (options_of ud)) <=? answer_index)) eqn:E;
      cbn [next data raised].
    + split; [exact Hc | split; [apply Hsame | auto]].
    + apply orb_false_iff in E. destruct E as [E0 En].
      apply Z.ltb_ge in E0. apply Z.leb_gt in En.
      split; [|split; [apply Hsame | auto]].
      destruct Hc as [Hlen Hopts]. cbn [checked]. unfold options_of in *.
      cbn [ud_options ud_answer]. repeat split; try assumption; try lia.
      exists answer_index. split; [reflexivity | lia].
  - (* EDIT_SELECT *)
    destruct (@add_question_category_in_order before t ud f Hc (Hsame _ _ _))
      as (Hn & Hd & Hr & Hin).
    rewrite Hn, Hd. split; [exact I | split; [exact Hin | auto]].
Qed.

(** X17.  Whatever is sent in a conversation opened by [/add] (texts,
    [/cancel], [/add] again), every question it adds to the file is well
    formed (two to ten options, none empty, the answer one of them) and
    has an id above the ids of all questions stored before it; nothing
    else in the file changes, and no handler raises. *)
Theorem added_questions_are_well_formed
    (ud : user_data) (f : file) (inputs : list input) :
  let l := converse ud f inputs in
  exists added,
    fst (load_questions (file_after l)) = (fst (load_questions f) ++ added)%list
    /\ Forall well_formed added
    /\ Forall (fun q => forall q', In q' (fst (load_questions f)) -> q_id q' < q_id q)
              added
    /\ StronglySorted (fun a b => q_id a < q_id b) added
    /\ raised l = false.
Proof.
  cbv zeta. unfold converse.
  set (before := fst (load_questions f)).
  assert (Hgen : forall l0,
             checked (next l0) (data l0) -> added_in_order before l0 ->
             raised l0 = false ->
             let l := fold_left
                        (fun l i => let l' := step l i in
                                    {| next := next l'; data := data l';
                                       file_after := file_after l';
                                       raised := raised l || raised l' |})
                        inputs l0 in
             added_in_order before l /\ raised l = false).
  { induction inputs as [|i inputs IH]; intros l0 Hc Ha Hr; cbn [fold_left];
      [now split|].
    destruct (@step_in_order before l0 i Hc Ha) as (Hc' & Ha' & Hr').
    apply IH; cbn [next data raised].
    - exact Hc'.
    - exact Ha'.
    - now rewrite Hr, (Hr' Hr). }
  destruct (Hgen {| next := QUESTION; data := ud; file_after := f; raised := false |})
    as [(added & Hfile & Hwf & Hnew & Hsorted) Hr].
  - exact I.
  - exists []. cbn [file_after]. fold before. rewrite app_nil_r.
    repeat split; constructor.
  - reflexivity.
  - exists added. now repeat split.
Qed.

End AddFacts.

(** ** Questions imported in a conversation ([Simple_bot.py]) *)

Import ImportQuiz.

Section ImportFacts.
Context {U : Unicode}.
Variable parse_telegram_quiz_url : string -> option quiz_data.

Lemma handle_manual_import_url (text : string) (ud : user_data) (f : file) :
  holds (import_method ud) "url" = true ->
  let l := handle_manual_import text ud f in
  file_after l = f /\ raised l = false
  /\ (next l = END
      \/ next l = CLONE_MANUAL /\ holds (import_method (data l)) "url" = true).
Proof.
  intros Hurl. unfold handle_manual_import. rewrite Hurl.
  destruct (py_int (PyText.strip text)) as [correct_option|];
    [|cbn; auto].
  destruct (import_quiz ud) as [quiz|]; [|cbn; auto].
  destruct (iq_options quiz) as [options|]; [|cbn; auto].
  destruct ((correct_option <? 0)
            || (Z.of_nat (List.length options) <=? correct_option)); cbn; auto.
Qed.

(** X18.  A question imported from a link is never saved: once
    [handle_import_choice] has accepted a link, whatever is sent
    afterwards, the conversation only asks again or ends, and the
    questions file stays as it was. *)
Theorem url_import_never_saves
    (text : string) (ud : user_data) (f : file) (inputs : list input) :
  PyText.lower (PyText.strip text) <> "manual" ->
  next (handle_import_choice parse_telegram_quiz_url text ud f) = CLONE_MANUAL ->
  let l := converse parse_telegram_quiz_url
             (handle_import_choice parse_telegram_quiz_url text ud f) inputs in
  file_after l = f /\ raised l = false /\ (next l = CLONE_MANUAL \/ next l = END).
Proof.
  intros Hmanual Hnext.
  assert (Hstart : file_after (handle_import_choice parse_telegram_quiz_url text ud f) = f
                   /\ raised (handle_import_choice parse_telegram_quiz_url text ud f) = false
                   /\ holds (import_method
                               (data (handle_import_choice parse_telegram_quiz_url text ud f)))
                            "url" = true).
  { revert Hnext. unfold handle_import_choice.
    destruct (String.eqb_spec (PyText.lower (PyText.strip text)) "manual");
      [contradiction|].
    destruct (String.prefix "t.me/" (PyText.lower (PyText.strip text))
              || PyText.contains "t.me/" (PyText.lower (PyText.strip text)));
      [|discriminate].
    destruct (parse_telegram_quiz_url (PyText.lower (PyText.strip text))) as [quiz|];
      [|discriminate].
    destruct (is_empty (Some quiz)); [discriminate|]. cbn. auto. }
  revert Hnext Hstart.
  generalize (handle_import_choice parse_telegram_quiz_url text ud f). clear.
  intros l0 Hnext (Hfile & Hraised & Hurl). cbv zeta. unfold converse.
  assert (Hinv : next l0 = END
                 \/ next l0 = CLONE_MANUAL /\ holds (import_method (data l0)) "url" = true)
    by auto.
  clear Hnext Hurl. revert l0 Hfile Hraised Hinv.
  induction inputs as [|i inputs IH]; intros l0 Hfile Hraised Hinv; cbn [fold_left].
  - repeat split; try assumption. destruct Hinv as [H|[H _]]; auto.
  - assert (Hstep : file_after (step parse_telegram_quiz_url l0 i) = f
                    /\ raised (step parse_telegram_quiz_url l0 i) = false
                    /\ (next (step parse_telegram_quiz_url l0 i) = END
                        \/ next (step parse_telegram_quiz_url l0 i) = CLONE_MANUAL
                           /\ holds (import_method
                                       (data (step parse_telegram_quiz_url l0 i)))
                                    "url" = true)).
    { unfold step. destruct Hinv as [Hend|[Hman Hurl]].
      - rewrite Hend. auto.
      - rewrite Hman. destruct i as [t|]; [|cbn; auto].
        destruct (@handle_manual_import_url t (data l0) (file_after l0) Hurl)
          as (Hf & Hr & Hn).
        rewrite Hf, Hr. auto. }
    destruct Hstep as (Hf & Hr & Hn). now apply IH.
Qed.

(** X19.  After an import has been saved, the conversation invites the
    user to type [manual] for another; but the state it has left behind
    makes the message after [manual] end the conversation with an error,
    and nothing is saved. *)
Theorem second_manual_import_ends_in_error
    (category : string) (ud : user_data) (f : file) (t : string) :
  holds (import_method ud) "manual" = true ->
  holds (import_state ud) "category" = true ->
  let l1 := handle_manual_import category ud f in
  next l1 = CLONE_URL ->
  let l2 := converse parse_telegram_quiz_url l1 [Text "manual"; Text t] in
  List.length (fst (load_questions (file_after l1)))
  = S (List.length (fst (load_questions f)))
  /\ next l2 = END
  /\ file_after l2 = file_after l1
  /\ raised l2 = false.
Proof.
  intros Hmanual Hstate l1 Hnext l2. subst l1 l2. revert Hnext.
  unfold handle_manual_import.
  assert (Hnot_url : holds (import_method ud) "url" = false).
  { destruct (import_method ud) as [| |m]; try discriminate.
    simpl in *. apply String.eqb_eq in Hmanual. now subst m. }
  rewrite Hnot_url, Hmanual.
  destruct (import_state ud) as [| |st] eqn:Est; try discriminate.
  assert (Hst : st = "category") by (simpl in Hstate; now apply String.eqb_eq).
  subst st. cbn [holds]. replace ("category" =? "options")%string with false by reflexivity.
  replace ("category" =? "answer")%string with false by reflexivity.
  unfold category_or_error. rewrite Est. cbn [holds].
  replace ("category" =? "category")%string with true by reflexivity.
  unfold save_import.
  destruct (import_quiz ud) as [[[question|] [options|] [answer|]]|]; try discriminate.
  destruct (next_question_id_above f) as [Hf1 _].
  destruct (get_next_question_id f) as [new_id f1]. cbn [snd] in Hf1. subst f1.
  rewrite load_questions_twice.
  destruct (PyText.index options answer); [|discriminate]. intros _.
  cbn [stay file_after save_questions load_questions fst].
  split; [rewrite length_app; simpl; lia|].
  unfold converse. cbn [fold_left]. unfold step at 2. cbn [next stay data file_after].
  unfold handle_import_choice.
  replace (PyText.lower (PyText.strip "manual") =? "manual")%string with true
    by reflexivity.
  unfold step. cbn [next stay data file_after].
  unfold handle_manual_import. cbn [import_method import_state holds].
  replace ("manual" =? "url")%string with false by reflexivity.
  replace ("manual" =? "manual")%string with true by reflexivity.
  unfold category_or_error. cbn [import_state holds stay next file_after raised].
  now repeat split.
Qed.
End ImportFacts.

(** ** Saving an edited question ([Simple_bot.py]) *)

Import SaveEdited.

Lemma replace_first_spec (e : question) (qs : list question) :
  match replace_first e qs with
  | Some updated =>
      List.length updated = List.length qs
      /\ find (fun q => q_id q =? q_id e) updated = Some e
      /\ (exists q, In q qs /\ q_id q = q_id e)
      /\ forall other, other <> q_id e ->
           find (fun q => q_id q =? other) updated = find (fun q => q_id q =? other) qs
  | None => forall q, In q qs -> q_id q <> q_id e
  end.
Proof.
  induction qs as [|q qs IH]; simpl; [intros q []|].
  destruct (Z.eqb_spec (q_id q) (q_id e)) as [Heq|Hne].
  - simpl. rewrite Z.eqb_refl. repeat split.
    + exists q. split; [now left | exact Heq].
    + intros other Hother. rewrite Heq.
      destruct (Z.eqb_spec (q_id e) other); [congruence | reflexivity].
  - destruct (replace_first e qs) as [updated|].
    + destruct IH as (Hlen & Hfind & (q' & Hq' & Hid) & Hother). simpl.
      destruct (Z.eqb_spec (q_id q) (q_id e)); [contradiction|].
      repeat split; [now rewrite Hlen | exact Hfind | |].
      * exists q'. split; [now right | exact Hid].
      * intros other Ho. now rewrite (Hother other Ho).
    + intros q' [<-|Hq']; [exact Hne | now apply IH].
Qed.

Lemma find_app_new (i : Z) (qs : list question) (e : question) :
  find (fun q => q_id q =? i) (qs ++ [e])
  = match find (fun q => q_id q =? i) qs with
    | Some q => Some q
    | None => if q_id e =? i then Some e else None
    end.
Proof.
  induction qs as [|q qs IH]; simpl; [reflexivity|].
  destruct (q_id q =? i); [reflexivity | exact IH].
Qed.

(** X20.  After [save_edited_question] the edited question is the one
    found under its id; the questions under other ids are found as
    before; and the file has as many questions as before when the id was
    stored already, one more when it was not. *)
Theorem saved_edit_is_found_again (e : question) (f : file) :
  let before := fst (load_questions f) in
  let f' := snd (save_edited_question (Some e) f) in
  fst (save_edited_question (Some e) f) = true
  /\ fst (get_question_by_id (q_id e) f') = Some e
  /\ (forall other, other <> q_id e ->
        fst (get_question_by_id other f') = fst (get_question_by_id other f))
  /\ List.length (fst (load_questions f'))
     = if existsb (fun q => q_id q =? q_id e) before
       then List.length before
       else S (List.length before).
Proof.
  cbv zeta. unfold save_edited_question, get_question_by_id.
  destruct (load_questions f) as [qs f0]. cbn [fst].
  pose proof (replace_first_spec e qs) as Hspec.
  destruct (replace_first e qs) as [updated|]; cbn [fst snd save_questions load_questions].
  - destruct Hspec as (Hlen & Hfind & (q & Hq & Hid) & Hother).
    repeat split; try assumption.
    replace (existsb (fun q0 => q_id q0 =? q_id e) qs) with true; [exact Hlen|].
    symmetry. apply existsb_exists. exists q. split; [exact Hq | now apply Z.eqb_eq].
  - assert (Hnone : forall i, i = q_id e -> find (fun q => q_id q =? i) qs = None).
    { intros i ->. apply find_none_iff. intros q Hq. apply Z.eqb_neq. now apply Hspec. }
    repeat split.
    + rewrite find_app_new, (Hnone _ eq_refl), Z.eqb_refl. reflexivity.
    + intros other Hother. rewrite find_app_new.
      destruct (find (fun q => q_id q =? other) qs); [reflexivity|].
      destruct (Z.eqb_spec (q_id e) other); [congruence | reflexivity].
    + replace (existsb (fun q0 => q_id q0 =? q_id e) qs) with false.
      * rewrite length_app. simpl. lia.
      * symmetry. apply Bool.not_true_iff_false. intros Hex.
        apply existsb_exists in Hex. destruct Hex as (q & Hq & Hid).
        apply Z.eqb_eq in Hid. now apply (Hspec q Hq).
Qed.

(** ** Editing a question ([Original.py]) *)

Import EditQuestion.

Lemma set_nth_spec (qs : list question) (i : nat) (q q0 : question) :
  nth_error qs i = Some q0 ->
  List.length (set_nth qs i q) = List.length qs
  /\ nth_error (set_nth qs i q) i = Some q
  /\ forall j, j <> i -> nth_error (set_nth qs i q) j = nth_error qs j.
Proof.
  revert i. induction qs as [|a qs IH]; intros [|i] Hi; simpl in *; try discriminate.
  - repeat split. intros [|j] Hj; [contradiction | reflexivity].
  - destruct (IH i Hi) as (Hlen & Hnth & Hother). repeat split; [now rewrite Hlen | exact Hnth |].
    intros [|j] Hj; [reflexivity | apply Hother; lia].
Qed.

Lemma edited_well_formed {U : Unicode}
    (edit_field : field) (text : string) (q0 q : question) :
  EditQuestion.well_formed q0 ->
  edited edit_field text q0 = Some q ->
  EditQuestion.well_formed q /\ q_id q = q_id q0.
Proof.
  intros [Hlen Hans]. unfold EditQuestion.well_formed, correct_answer_of in *.
  destruct edit_field; simpl.
  - intros [= <-]. simpl. auto.
  - destruct (Nat.ltb_spec (List.length (PyText.stripped_lines text)) 2);
      [discriminate|].
    intros [= <-]. cbn [q_options q_answer q_id]. split; [|reflexivity].
    split; [assumption|]. unfold correct_answer_of.
    destruct (Z.leb_spec (Z.of_nat (List.length (PyText.stripped_lines text)))
                         (match q_answer q0 with Some a => a | None => 0 end));
      [lia|]. destruct (q_answer q0); lia.
  - destruct (py_int text) as [n|]; [|discriminate].
    destruct ((n - 1 <? 0) || (Z.of_nat (List.length (q_options q0)) <=? n - 1)) eqn:E;
      [discriminate|].
    apply orb_false_iff in E. destruct E as [E0 En].
    apply Z.ltb_ge in E0. apply Z.leb_gt in En.
    intros [= <-]. cbn [q_options q_answer q_id]. split; [|reflexivity]. split; lia.
  - intros [= <-]. simpl. auto.
  - intros [= <-]. auto.
Qed.

(** X21.  [edit_question_update] keeps a well-formed question well
    formed: if the question being edited has at least two options and its
    answer among them, then, whichever field is edited and whatever text
    is sent, the handler either asks again and saves nothing, or saves a
    list in which that question still has at least two options, its
    answer among them and its id, and every other question is as it
    was. *)
Theorem edit_keeps_the_question_well_formed {U : Unicode}
    (edit_field : field) (text : string) (questions : list question)
    (edit_index : nat) (selected_question : question) :
  nth_error questions edit_index = Some selected_question ->
  EditQuestion.well_formed selected_question ->
  match edit_question_update edit_field text questions edit_index with
  | AskAgain => True
  | RaisedIndexError => False
  | Saved questions' f' =>
      f' = Some questions'
      /\ List.length questions' = List.length questions
      /\ (exists q, nth_error questions' edit_index = Some q
                    /\ EditQuestion.well_formed q
                    /\ q_id q = q_id selected_question)
      /\ forall j, j <> edit_index -> nth_error questions' j = nth_error questions j
  end.
Proof.
  intros Hnth Hwf. unfold edit_question_update. rewrite Hnth.
  destruct (edited edit_field text selected_question) as [q|] eqn:Ee; [|exact I].
  destruct (edited_well_formed edit_field text Hwf Ee) as [Hq Hid].
  destruct (set_nth_spec questions edit_index q Hnth) as (Hlen & Hset & Hother).
  repeat split; try assumption.
  exists q. split; [exact Hset | split; [exact Hq | exact Hid]].
Qed.

(** ** A poll saved as a question ([Original.py]) *)

Import PollToQuestion.

(** X22.  A poll saved with an automatic id gets an id that no stored
    question has: it is never counted as added to an existing id, and
    afterwards it is the question found under its id. *)
Theorem poll_saved_with_automatic_id_is_found
    (p : pending) (f : file) :
  PollToQuestion.is_empty (Some p) = false ->
  exists new_question raised,
    fst (save_final_poll_question None (Some p) f) = Appended new_question 0 raised
    /\ (forall q, In q (fst (load_questions f)) -> q_id q < q_id new_question)
    /\ fst (get_question_by_id (q_id new_question)
              (snd (save_final_poll_question None (Some p) f)))
       = Some new_question
    /\ fst (load_questions (snd (save_final_poll_question None (Some p) f)))
       = (fst (load_questions f) ++ [new_question])%list.
Proof.
  intros Hp. unfold save_final_poll_question. rewrite Hp.
  destruct (next_question_id_above f) as [Hf1 Hbelow].
  destruct (get_next_question_id f) as [first_id f1]. cbn [fst snd] in Hf1, Hbelow.
  subst f1. rewrite load_questions_twice.
  set (qs := fst (load_questions f)) in *.
  assert (Hnone : filter (fun q => q_id q =? first_id) qs = []).
  { destruct (filter (fun q => q_id q =? first_id) qs) as [|q rest] eqn:Ef; [reflexivity|].
    assert (Hin : In q (filter (fun q => q_id q =? first_id) qs)) by (rewrite Ef; now left).
    apply filter_In in Hin. destruct Hin as [Hq Hid]. apply Z.eqb_eq in Hid.
    specialize (Hbelow q Hq). lia. }
  rewrite Hnone. cbn [List.length fst snd].
  do 2 eexists. split; [reflexivity|]. cbn [q_id]. split; [exact Hbelow|].
  unfold get_question_by_id. cbn [save_questions load_questions fst].
  split; [|reflexivity]. rewrite find_app_new.
  replace (find (fun q => q_id q =? first_id) qs) with (@None question).
  - cbn [q_id]. now rewrite Z.eqb_refl.
  - symmetry. apply find_none_iff. intros q Hq. apply Z.eqb_neq.
    specialize (Hbelow q Hq). lia.
Qed.

(** X23.  A poll saved under an id that is in use is appended behind the
    questions that have the id: what is found under the id, and what
    [/quiz id=...] asks, stays the older question, although the reply
    names the id as the way to the new one. *)
Theorem poll_saved_under_used_id_is_not_found {U : Unicode}
    (shuffle : list question -> list question) (i : Z) (p : pending) (f : file)
    (older : question) (chat : Z) (requester : option Telegram.user) :
  PollToQuestion.is_empty (Some p) = false ->
  fst (get_question_by_id i f) = Some older ->
  let f' := snd (save_final_poll_question (Some i) (Some p) f) in
  exists new_question n raised,
    fst (save_final_poll_question (Some i) (Some p) f)
    = Appended new_question (S n) raised
    /\ q_id new_question = i
    /\ fst (load_questions f') = (fst (load_questions f) ++ [new_question])%list
    /\ fst (get_question_by_id i f') = Some older
    /\ StartQuiz.start_quiz shuffle (fst (load_questions f'))
         ["/quiz"; "id=" ++ str_int i] chat requester
       = StartQuiz.Started StartQuiz.BySpecificId (new_quiz [older] chat requester).
Proof.
  intros Hp Hold. cbv zeta. unfold save_final_poll_question. rewrite Hp.
  unfold get_question_by_id in *.
  destruct (load_questions f) as [qs f0] eqn:El. cbn [fst] in *.
  assert (Hex : exists n, List.length (filter (fun q => q_id q =? i) qs) = S n).
  { destruct (filter (fun q => q_id q =? i) qs) as [|q rest] eqn:Ef; [|simpl; eauto].
    apply find_some in Hold. destruct Hold as [Hin Hid].
    assert (Hin' : In older (filter (fun q => q_id q =? i) qs))
      by (apply filter_In; now split).
    rewrite Ef in Hin'. destruct Hin'. }
  destruct Hex as [n Hn].
  destruct (filter (fun q => q_id q =? i) qs) as [|q1 rest] eqn:Ef; [discriminate|].
  cbn [fst snd save_questions load_questions].
  assert (Hfound : forall e, find (fun q => q_id q =? i) (qs ++ [e])%list = Some older)
    by (intros; rewrite find_app_new, Hold; reflexivity).
  do 3 eexists. split; [rewrite Hn; reflexivity|]. cbn [q_id].
  split; [reflexivity|]. split; [reflexivity|]. split; [apply Hfound|].
  erewrite start_quiz_nonempty;
    [| destruct qs; discriminate | apply parse_args_id].
  unfold StartQuiz.select_questions. cbn [StartQuiz.specific_id]. now rewrite Hfound.
Qed.

(** ** A question completed in [simple_bot.py] *)

Import SimpleAdd.

(** X24.  When [add_question_answer] saves a question, its answer is one
    of its options, and its id is one that no stored question has: the
    ids of the file stay pairwise distinct if they were. *)
Theorem completed_question_has_a_new_id {U : Unicode}
    (text : string) (options : option (list string))
    (question_text category : option string) (custom_id : option Z) (f : file) :
  let before := fst (load_questions f) in
  match fst (add_question_answer text options question_text category custom_id f) with
  | AskAgain => snd (add_question_answer text options question_text category custom_id f) = f
  | Added q =>
      fst (load_questions
             (snd (add_question_answer text options question_text category custom_id f)))
      = (before ++ [q])%list
      /\ (forall q', In q' before -> q_id q' <> q_id q)
      /\ (NoDup (map q_id before) -> NoDup (map q_id (before ++ [q])))
      /\ exists a, q_answer q = Some a /\ 0 <= a < Z.of_nat (List.length (q_options q))
  end.
Proof.
  cbv zeta. unfold add_question_answer.
  destruct (py_int text) as [n|]; [|reflexivity].
  set (opts := match options with Some o => o | None => [] end).
  destruct ((n - 1 <? 0) || (Z.of_nat (List.length opts) <=? n - 1)) eqn:E;
    [reflexivity|].
  apply orb_false_iff in E. destruct E as [E0 En].
  apply Z.ltb_ge in E0. apply Z.leb_gt in En.
  destruct (next_question_id_above f) as [Hf1 Hbelow].
  destruct (get_next_question_id f) as [next_id f1]. cbn [fst snd] in Hf1, Hbelow.
  subst f1. rewrite load_questions_twice.
  set (qs := fst (load_questions f)) in *.
  set (cid := match custom_id with Some i => i | None => next_id end).
  destruct (next_question_id_above (snd (load_questions f))) as [_ Hbelow2].
  rewrite load_questions_twice in Hbelow2. cbn [fst] in Hbelow2. fold qs in Hbelow2.
  assert (Hnew : forall new_id,
             (if existsb (fun q => q_id q =? cid) qs
              then get_next_question_id (snd (load_questions f))
              else (cid, snd (load_questions f))) = (new_id, snd (load_questions f))
             -> forall q', In q' qs -> q_id q' <> new_id).
  { intros new_id Hid q' Hq'.
    destruct (existsb (fun q => q_id q =? cid) qs) eqn:Hex.
    - specialize (Hbelow2 q' Hq'). rewrite Hid in Hbelow2. cbn [fst] in Hbelow2. lia.
    - injection Hid as <-. intros Heq.
      apply Bool.not_true_iff_false in Hex. apply Hex.
      apply existsb_exists. exists q'. split; [exact Hq' | now apply Z.eqb_eq]. }
  assert (Hsnd : snd (if existsb (fun q => q_id q =? cid) qs
                      then get_next_question_id (snd (load_questions f))
                      else (cid, snd (load_questions f)))
                 = snd (load_questions f)).
  { destruct (existsb (fun q => q_id q =? cid) qs); [|reflexivity].
    destruct (next_question_id_above (snd (load_questions f))) as [H _].
    rewrite H. now rewrite load_questions_twice. }
  destruct (if existsb (fun q => q_id q =? cid) qs
            then get_next_question_id (snd (load_questions f))
            else (cid, snd (load_questions f))) as [new_id f3] eqn:Eid.
  cbn [snd] in Hsnd. subst f3. specialize (Hnew new_id eq_refl).
  cbn [fst snd save_questions load_questions q_id q_answer q_options].
  split; [reflexivity|]. split; [exact Hnew|]. split.
  - intros Hnd. rewrite map_app. apply NoDup_app; [exact Hnd | repeat constructor; auto|].
    cbn [map q_id]. intros i Hi [<-|[]].
    apply in_map_iff in Hi. destruct Hi as (q' & Hid & Hq'). now apply (Hnew q' Hq').
  - exists (n - 1). split; [reflexivity | lia].
Qed.

(** ** Answers to the current poll ([simple_bot.py]) *)

Import SimpleAnswers.

(** The texts [str] writes for two numbers differ when the numbers do. *)
Lemma str_int_inj (a b : Z) : str_int a = str_int b -> a = b.
Proof.
  intros Heq. apply (f_equal PyText.int) in Heq.
  rewrite !int_str_int in Heq. congruence.
Qed.

(** One answer on the quiz of the user who sent it: it is counted when it
    is for the current poll, and dropped otherwise; only the entry of that
    user changes, and the poll, the questions and the index stay. *)
Lemma simple_answer_counts (ev : Telegram.poll_answer) (q : SimpleBot.quiz)
    (pid : string) (question : question) :
  SimpleBot.current_poll_id q = Some pid ->
  nth_error (SimpleBot.questions q) (Z.to_nat (SimpleBot.current_index q - 1))
  = Some question ->
  0 <= SimpleBot.current_index q - 1 ->
  exists q',
    SimpleBot.handle_quiz_poll_answer ev (Some q) = Some q'
    /\ SimpleBot.current_poll_id q' = SimpleBot.current_poll_id q
    /\ SimpleBot.questions q' = SimpleBot.questions q
    /\ SimpleBot.current_index q' = SimpleBot.current_index q
    /\ forall uid,
         match dict_get (str_int uid) (SimpleBot.participants q') with
         | Some p => SimpleBot.answered p
         | None => 0
         end
         = match dict_get (str_int uid) (SimpleBot.participants q) with
           | Some p => SimpleBot.answered p
           | None => 0
           end
           + (if (Telegram.id (Telegram.from_user ev) =? uid)
                 && String.eqb (Telegram.poll_id ev) pid
              then 1 else 0).
Proof.
  intros Hpoll Hq Hidx. unfold SimpleBot.handle_quiz_poll_answer.
  rewrite Hpoll. cbn [SimpleBot.same_poll].
  destruct (String.eqb (Telegram.poll_id ev) pid) eqn:Ep; cbn [negb].
  2:{ exists q. do 4 (split; [reflexivity || exact Hpoll|]).
      intros uid. rewrite andb_false_r. lia. }
  assert (Hlt : SimpleBot.current_index q - 1
                < Z.of_nat (List.length (SimpleBot.questions q))).
  { assert (Hn : nth_error (SimpleBot.questions q)
                   (Z.to_nat (SimpleBot.current_index q - 1)) <> None) by congruence.
    apply nth_error_Some in Hn. lia. }
  destruct (Z.leb_spec 0 (SimpleBot.current_index q - 1)); [|lia].
  destruct (Z.ltb_spec (SimpleBot.current_index q - 1)
                       (Z.of_nat (List.length (SimpleBot.questions q)))); [|lia].
  cbn [andb]. rewrite Hq. eexists. split; [reflexivity|].
  cbn [SimpleBot.current_poll_id SimpleBot.questions SimpleBot.current_index
       SimpleBot.participants].
  do 3 (split; [reflexivity|]). intros uid. rewrite andb_true_r.
  destruct (Z.eqb_spec (Telegram.id (Telegram.from_user ev)) uid) as [->|Hne].
  - rewrite dict_get_set_same. cbn [SimpleBot.answered].
    destruct (dict_get (str_int uid) (SimpleBot.participants q)); simpl; lia.
  - rewrite dict_get_set_other; [lia|].
    intros Heq. apply Hne. now apply str_int_inj.
Qed.

(** X25.  In [simple_bot.py] the quiz a user has started is reached by
    that user's own answers only: after any answers of any users have
    been delivered, the ['answered'] count it holds for its owner is
    higher by the number of answers the owner sent to the current poll,
    however many of them repeat or retract an earlier one, and the count
    it holds for anybody else is as it was. *)
Theorem only_the_owner_s_answers_are_counted
    (evs : list Telegram.poll_answer) (ud : SimpleAnswers.user_data)
    (owner : Z) (q : SimpleBot.quiz) (pid : string) (question : question) :
  dict_get owner ud = Some q ->
  SimpleBot.current_poll_id q = Some pid ->
  nth_error (SimpleBot.questions q) (Z.to_nat (SimpleBot.current_index q - 1))
  = Some question ->
  0 <= SimpleBot.current_index q - 1 ->
  forall uid,
    SimpleAnswers.answered_of owner uid (SimpleAnswers.deliver evs ud)
    = SimpleAnswers.answered_of owner uid ud
      + (if uid =? owner then Z.of_nat (sent_by owner pid evs) else 0).
Proof.
  revert ud q. induction evs as [|ev evs IH]; intros ud q Hown Hpoll Hq Hidx uid.
  - unfold sent_by. simpl. destruct (uid =? owner); lia.
  - unfold SimpleAnswers.deliver in *. cbn [fold_left].
    destruct (Z.eqb_spec (Telegram.id (Telegram.from_user ev)) owner) as [Hsender|Hother].
    + destruct (simple_answer_counts ev q Hpoll Hq Hidx)
        as (q' & Hq' & Hp' & Hqs' & Hi' & Hcount).
      assert (Hud : SimpleAnswers.poll_answer ev ud = dict_set owner q' ud)
        by (unfold SimpleAnswers.poll_answer; now rewrite Hsender, Hown, Hq').
      rewrite Hud.
      rewrite (IH (dict_set owner q' ud) q');
        [| apply dict_get_set_same | congruence | congruence | congruence].
      unfold SimpleAnswers.answered_of. rewrite dict_get_set_same, Hown.
      rewrite (Hcount uid), Hsender. unfold sent_by. cbn [filter].
      rewrite Hsender, Z.eqb_refl. cbn [andb].
      destruct (Z.eqb_spec uid owner) as [->|Hne].
      * rewrite Z.eqb_refl. cbn [andb].
        destruct (String.eqb (Telegram.poll_id ev) pid); cbn [List.length]; lia.
      * replace (owner =? uid) with false by (symmetry; apply Z.eqb_neq; congruence).
        cbn [andb]. lia.
    + assert (Hown' : dict_get owner (SimpleAnswers.poll_answer ev ud) = Some q).
      { unfold SimpleAnswers.poll_answer.
        destruct (SimpleBot.handle_quiz_poll_answer ev _); [|exact Hown].
        rewrite dict_get_set_other by exact Hother. exact Hown. }
      rewrite (IH _ q Hown' Hpoll Hq Hidx uid).
      unfold SimpleAnswers.answered_of. rewrite Hown', Hown.
      unfold sent_by. cbn [filter].
      replace (Telegram.id (Telegram.from_user ev) =? owner) with false
        by (symmetry; now apply Z.eqb_neq).
      reflexivity.
Qed.

(** ** The further properties at work *)

Import Engine Session Progress Scenario.

(** Two questions, an answer in between and a third call of
    [send_next_question]: the polls on record are [p1] and [p2]. *)
Lemma questions_are_sent_once_in_order_witness :
  let q := fst (run Original 1
                  [next alice "p1"; Answer (answer "p1" bob 0);
                   next alice "p2"; next alice "p3"]
                  (new_quiz [ask 1 0; ask 2 1] 77 (Some alice), [])) in
  questions q = [ask 1 0; ask 2 1]
  /\ map fst (sent_polls q) = ["p1"; "p2"]
  /\ map (fun e => question_index (snd e)) (sent_polls q)
     = seq 0 (List.length (sent_polls q))
  /\ current_index q = List.length (sent_polls q).
Proof.
  apply (@questions_are_sent_once_in_order Original 1 [ask 1 0; ask 2 1] 77
           (Some alice) []
           [next alice "p1"; Answer (answer "p1" bob 0);
            next alice "p2"; next alice "p3"]).
  repeat constructor; simpl; intuition discriminate.
Defined.

(** The session with negative marking, from an empty users file. *)
Lemma users_file_counters_stay_in_order_witness :
  Forall stats_in_order (snd marked_session).
Proof.
  apply (@users_file_counters_stay_in_order Lifechanger 1
           [next alice "p1"; Answer (answer "p1" bob 0);
            next alice "p2"; Answer (answer "p2" bob 1);
            next alice "p3"; Answer (answer "p3" bob 2);
            next alice "p4"; Answer (answer "p4" bob 1)]
           (new_quiz [ask 1 0; ask 2 1; ask 3 2; ask 4 0] 77 (Some alice)) []).
  constructor.
Defined.

(** Bob answers poll [p1] after the quiz has been ended. *)
Lemma answers_after_the_end_are_dropped_witness :
  let ended := quiz_after (end_quiz Original (by_user alice) (fst open_session) []) in
  poll_answer Original (answer "p1" bob 0)
    {| user_data := [(1, Some ended)]; users := [] |}
  = {| user_data := [(1, Some ended)]; users := [] |}.
Proof.
  apply (@answers_after_the_end_are_dropped Original (by_user alice)
           (fst open_session) [] (answer "p1" bob 0)).
  intros uid q' [Heq|[]]. left. now injection Heq as _ <-.
Defined.

Import StartQuiz.

Lemma quiz_by_id_asks_that_question_witness :
  q_id (ask 9 2) = 9
  /\ start_quiz (U := ascii_only) (@rev question) bank ["/quiz"; "id=9"] 77 (Some alice)
     = Started BySpecificId (new_quiz [ask 9 2] 77 (Some alice)).
Proof.
  apply (@quiz_by_id_asks_that_question ascii_only (@rev question) bank 9 77
           (Some alice) (ask 9 2)).
  reflexivity.
Defined.

(** Two questions from id 3 on, of a bank stored in the order 5, 3, 9, 1. *)
Lemma quiz_from_start_id_asks_the_next_ids_witness :
  match start_quiz (U := ascii_only) (@rev question) bank
          ["/quiz"; "start=3"; "id=x"; "2"] 77 (Some alice) with
  | Started FromStartId q => 0 < 2 /\ questions q = [ask 3 1; ask 5 0]
  | Raised FromStartId => 2 = 0
  | _ => False
  end.
Proof.
  refine (proj2 (proj2 (@quiz_from_start_id_asks_the_next_ids ascii_only
                          (@rev question) bank
                          ["/quiz"; "start=3"; "id=x"; "2"] 77 (Some alice)
                          {| num_questions := 2; start_id := Some 3;
                             specific_id := None |} 3
                          eq_refl eq_refl eq_refl _))).
  discriminate.
Defined.

Import Countdown.

Lemma countdown_bar_shows_tenths_left_witness :
  0 <= 4 <= 10
  /\ create_countdown_animation 7 15
     = Some ("[" ++ (repeat_str full_block 4 ++ repeat_str empty_block 6) ++ "] 7s").
Proof.
  apply (@countdown_bar_shows_tenths_left 7 15); lia.
Defined.

Import CategoryQuiz.

Lemma category_quiz_asks_up_to_five_of_the_category_witness :
  match category_callback (@rev question) "cat_General" bank with
  | Selected c selected =>
      c = "General"
      /\ Z.of_nat (List.length selected) = 4
      /\ selected <> []
      /\ forall q, In q selected -> In q bank /\ q_category q = "General"
  | NoneFound c => c = "General" /\ bank = []
  | CategoryQuiz.RaisedValueError => False
  end.
Proof.
  exact (@category_quiz_asks_up_to_five_of_the_category (@rev question)
           (@Permutation_rev question) "cat_General" bank).
Defined.

(** Twelve questions asked for, of a bank of twelve. *)
Lemma timed_quiz_size_is_not_capped_witness :
  exists requested,
    requested_count (U := ascii_only) ["/quiz"; "12"] = Some requested
    /\ match TimerStart.handle_timer_selection (@rev question) "timer_15"
               (Some {| num_questions := 12; start_id := None; specific_id := None |})
               (map (fun i => ask (Z.of_nat i) 0) (seq 1 12)) 77 (Some alice) with
       | TimerStart.Started RandomSample q timer =>
           Z.of_nat (List.length (questions q)) = Z.min requested 12
           /\ (timer = 15 \/ timer = 30)
       | TimerStart.Started _ _ timer => timer = 15 \/ timer = 30
       | TimerStart.Raised RandomSample => False
       | TimerStart.Raised _ => True
       end.
Proof.
  exact (@timed_quiz_size_is_not_capped ascii_only (@rev question)
           (@Permutation_rev question) "timer_15" ["/quiz"; "12"]
           (map (fun i => ask (Z.of_nat i) 0) (seq 1 12)) 77 (Some alice)).
Defined.

Lemma simple_quiz_start_at_random_witness :
  exists requested,
    requested_count (U := ascii_only) ["/quiz"; "3"] = Some requested
    /\ match fst (SimpleStart.start_quiz (U := ascii_only) (@rev question) ["3"]
                    (Some bank)) with
       | SimpleStart.FirstPoll q first =>
           0 < requested
           /\ Z.of_nat (List.length (SimpleBot.questions q)) = Z.min requested 4
           /\ hd_error (SimpleBot.questions q) = Some first
           /\ SimpleBot.participants q = [] /\ SimpleBot.current_index q = 0
       | SimpleStart.RaisedIndexError q =>
           requested = 0 /\ bank <> [] /\ q = SimpleStart.quiz_on []
       | SimpleStart.NoQuestions => bank = []
       | SimpleStart.NoValidIds => False
       | SimpleStart.RaisedValueError _ => False
       | SimpleStart.RaisedInArgs => False
       end.
Proof.
  exact (@simple_quiz_start_at_random ascii_only (@rev question)
           (@Permutation_rev question) ["3"] (Some bank) eq_refl).
Defined.

Import TimedQuiz TimedRound.

Lemma timer_button_is_read_back_witness :
  fst (handle_timer_selection (U := ascii_only) (timer_button 15 9) (-100) 7 55
         timed_world (Some bank))
  = QuizSent
      {| bot_data :=
           dict_set (quiz_key (-100) 7)
             {| correct_option := Some 2;
                participants := [];
                negative_marking := Some true;
                timer := 15;
                question_id := 9;
                poll_message_id := Some 55 |}
             (bot_data timed_world);
         users := [];
         jobs := [{| job_chat_id := -100; job_quiz_key := quiz_key (-100) 7 |}] |}
      (ask 9 2).
Proof.
  apply (@timer_button_is_read_back ascii_only 15 9 (-100) 7 55 timed_world (Some bank)
           (ask 9 2)).
  reflexivity.
Defined.

(** Bob answers correctly and Alice wrongly; then the results are sent. *)
Lemma timed_results_are_ranked_and_sent_once_witness :
  let w := fst (handle_all (U := ascii_only) (fun _ => true)
                  [answer "55" alice 1; answer "55" bob 2] timed_world) in
  exists text rows w' f',
    send_quiz_results "quiz_-100_7" w (Some bank) = (Ranked text 2 rows, w', f')
    /\ map row_rank rows = [1%nat; 2%nat]
    /\ StronglySorted (fun a b => (value (row_points b) <= value (row_points a))%Q) rows
    /\ Permutation [("Alice", Float (-0.5)); ("Bob", Int 1)]
                   (map (fun r => (row_name r, row_points r)) rows)
    /\ dict_get "quiz_-100_7" (bot_data w') = None
    /\ users w' = users w
    /\ send_quiz_results "quiz_-100_7" w' f' = (NothingSent, w', f').
Proof.
  refine (@timed_results_are_ranked_and_sent_once "quiz_-100_7"
            (fst (handle_all (U := ascii_only) (fun _ => true)
                    [answer "55" alice 1; answer "55" bob 2] timed_world))
            (Some bank) _ _ eq_refl _).
  - repeat constructor; simpl; intuition discriminate.
  - discriminate.
Defined.

Lemma timed_users_file_counters_stay_in_order_witness :
  Forall score_in_order
    (users (fst (handle_all (U := ascii_only) (fun _ => true)
                   [answer "55" bob 2; answer "55" bob 1] timed_world))).
Proof.
  apply (@timed_users_file_counters_stay_in_order ascii_only (fun _ => true)
           [answer "55" bob 2; answer "55" bob 1] timed_world).
  constructor.
Defined.

Import ImportQuiz.

(** A link from which a question with two options is read; the answer and
    a category are sent, and the file is as before. *)
Lemma url_import_never_saves_witness :
  let parse := fun _ : string =>
    Some {| iq_question := Some "Which one?"; iq_options := Some ["a"; "b"];
            iq_answer := None |} in
  let l := converse (U := ascii_only) parse
             (handle_import_choice parse "t.me/quiz/1"
                {| import_method := Absent; import_state := Absent;
                   import_url := None; import_quiz := None |} (Some bank))
             [Text "1"; Text "General"] in
  file_after l = Some bank /\ raised l = false /\ (next l = CLONE_MANUAL \/ next l = END).
Proof.
  apply (@url_import_never_saves ascii_only
           (fun _ : string =>
              Some {| iq_question := Some "Which one?"; iq_options := Some ["a"; "b"];
                      iq_answer := None |})
           "t.me/quiz/1"
           {| import_method := Absent; import_state := Absent;
              import_url := None; import_quiz := None |}
           (Some bank) [Text "1"; Text "General"]).
  - discriminate.
  - reflexivity.
Defined.

Lemma second_manual_import_ends_in_error_witness :
  let ud := {| import_method := Value "manual"; import_state := Value "category";
               import_url := None;
               import_quiz := Some {| iq_question := Some "Which one?";
                                      iq_options := Some ["a"; "b"];
                                      iq_answer := Some 1 |} |} in
  let l1 := handle_manual_import (U := ascii_only) "Science" ud (Some bank) in
  let l2 := converse (U := ascii_only) (fun _ : string => None) l1
              [Text "manual"; Text "Which other?"] in
  List.length (fst (QuestionBank.load_questions (file_after l1))) = 5%nat
  /\ next l2 = END
  /\ file_after l2 = file_after l1
  /\ raised l2 = false.
Proof.
  apply (@second_manual_import_ends_in_error ascii_only (fun _ : string => None) "Science"
           {| import_method := Value "manual"; import_state := Value "category";
              import_url := None;
              import_quiz := Some {| iq_question := Some "Which one?";
                                     iq_options := Some ["a"; "b"];
                                     iq_answer := Some 1 |} |}
           (Some bank) "Which other?"); reflexivity.
Defined.

Import EditQuestion.

(** The options of the third question of the bank, whose answer is option
    2, are replaced by two options: the answer becomes option 0. *)
Lemma edit_keeps_the_question_well_formed_witness :
  match edit_question_update (U := ascii_only) Options (String "y" (String "010" "n"))
          bank 2 with
  | EditQuestion.AskAgain => True
  | EditQuestion.RaisedIndexError => False
  | Saved questions' f' =>
      f' = Some questions'
      /\ List.length questions' = 4%nat
      /\ (exists q, nth_error questions' 2 = Some q
                    /\ EditQuestion.well_formed q /\ q_id q = 9)
      /\ forall j, j <> 2%nat -> nth_error questions' j = nth_error bank j
  end.
Proof.
  apply (@edit_keeps_the_question_well_formed ascii_only Options
           (String "y" (String "010" "n"))
           bank 2 (ask 9 2)).
  - reflexivity.
  - unfold EditQuestion.well_formed, correct_answer_of. simpl. lia.
Defined.

Import PollToQuestion.

Lemma poll_saved_with_automatic_id_is_found_witness :
  let p := {| pq_question := Some "Which one?"; pq_options := Some ["a"; "b"];
              pq_answer := Some 1; pq_category := None |} in
  exists new_question raised,
    fst (save_final_poll_question None (Some p) (Some bank))
    = Appended new_question 0 raised
    /\ (forall q, In q bank -> q_id q < q_id new_question)
    /\ fst (QuestionBank.get_question_by_id (q_id new_question)
              (snd (save_final_poll_question None (Some p) (Some bank))))
       = Some new_question
    /\ fst (QuestionBank.load_questions
              (snd (save_final_poll_question None (Some p) (Some bank))))
       = (bank ++ [new_question])%list.
Proof.
  apply (@poll_saved_with_automatic_id_is_found
           {| pq_question := Some "Which one?"; pq_options := Some ["a"; "b"];
              pq_answer := Some 1; pq_category := None |} (Some bank)).
  reflexivity.
Defined.

(** A poll saved under id 9, which the bank has in use. *)
Lemma poll_saved_under_used_id_is_not_found_witness :
  let p := {| pq_question := Some "Which other?"; pq_options := Some ["a"; "b"];
              pq_answer := Some 1; pq_category := None |} in
  let f' := snd (save_final_poll_question (Some 9) (Some p) (Some bank)) in
  exists new_question n raised,
    fst (save_final_poll_question (Some 9) (Some p) (Some bank))
    = Appended new_question (S n) raised
    /\ q_id new_question = 9
    /\ fst (QuestionBank.load_questions f') = (bank ++ [new_question])%list
    /\ fst (QuestionBank.get_question_by_id 9 f') = Some (ask 9 2)
    /\ StartQuiz.start_quiz (U := ascii_only) (@rev question)
         (fst (QuestionBank.load_questions f')) ["/quiz"; "id=9"] 77 (Some alice)
       = StartQuiz.Started StartQuiz.BySpecificId (new_quiz [ask 9 2] 77 (Some alice)).
Proof.
  apply (@poll_saved_under_used_id_is_not_found ascii_only (@rev question) 9
           {| pq_question := Some "Which other?"; pq_options := Some ["a"; "b"];
              pq_answer := Some 1; pq_category := None |}
           (Some bank) (ask 9 2) 77 (Some alice)); reflexivity.
Defined.

(** Alice has started the quiz and answers its poll three times; Bob
    answers it once, and Alice once a poll that is not the current one. *)
Lemma only_the_owner_s_answers_are_counted_witness :
  let evs := [answer "p1" alice 0; answer "p1" bob 1; answer "p1" alice 2;
              answer "p0" alice 0; answer "p1" alice 0] in
  SimpleAnswers.answered_of 1 1 (SimpleAnswers.deliver evs [(1, simple_quiz)]) = 0 + 3
  /\ SimpleAnswers.answered_of 1 2 (SimpleAnswers.deliver evs [(1, simple_quiz)]) = 0 + 0.
Proof.
  split.
  - apply (@only_the_owner_s_answers_are_counted
             [answer "p1" alice 0; answer "p1" bob 1; answer "p1" alice 2;
              answer "p0" alice 0; answer "p1" alice 0]
             [(1, simple_quiz)] 1 simple_quiz "p1" (ask 1 0)
             eq_refl eq_refl eq_refl ltac:(simpl; lia) 1).
  - reflexivity.
Defined.
